(** * Climate_Platform: the point-data retrieval and ensemble-aggregation
      pipeline of [temperature_analyzer.py] and the cache wiring of [app.py].

    The development is a shallow embedding.  Python floats are IEEE-754
    binary64 values ([PrimFloat.float]), Python ints are [Z], strings are
    [string] (characters read as the code points 0..255), exceptions are a
    sum type, and everything that touches the remote gateway or a memoising
    decorator threads its state explicitly.  Tables are modelled twice: as
    values, and as mutable objects on a heap that the cache refers to. *)

From stdpp Require Import gmap strings list.
From stdpp Require Import sorting.
From Stdlib Require Import Floats ZArith Ascii String List Lia Bool DecimalString.
Import ListNotations.

#[local] Set Warnings "-inexact-float,-register-all".
#[local] Open Scope Z_scope.

(* ===================================================================== *)
(** ** Python strings                                                     *)
(* ===================================================================== *)

(** A Python [str] is a sequence of Unicode code points. *)
Definition pystr : Type := list N.

(** The code points of a literal. *)
Definition codes (s : string) : pystr := map N_of_ascii (list_ascii_of_string s).

(** [s.startswith(prefix)]. *)
Fixpoint startswith (prefix s : pystr) : bool :=
  match prefix, s with
  | [], _ => true
  | p :: prefix', c :: s' => (p =? c)%N && startswith prefix' s'
  | _ :: _, [] => false
  end.

(** [s.encode()]: UTF-8.  (Python refuses lone surrogates; the only text
    encoded below is written by [json.dumps], which is plain ASCII.) *)
Definition encode_char (c : N) : list Z :=
  let z := Z.of_N c in
  if z <? 0x80 then [z]
  else if z <? 0x800 then [Z.lor 0xc0 (Z.shiftr z 6); Z.lor 0x80 (Z.land z 0x3f)]
  else if z <? 0x10000 then
    [Z.lor 0xe0 (Z.shiftr z 12); Z.lor 0x80 (Z.land (Z.shiftr z 6) 0x3f);
     Z.lor 0x80 (Z.land z 0x3f)]
  else
    [Z.lor 0xf0 (Z.shiftr z 18); Z.lor 0x80 (Z.land (Z.shiftr z 12) 0x3f);
     Z.lor 0x80 (Z.land (Z.shiftr z 6) 0x3f); Z.lor 0x80 (Z.land z 0x3f)].

Definition encode (s : pystr) : list Z := concat (map encode_char s).

(* ===================================================================== *)
(** ** Exceptions and results                                             *)
(* ===================================================================== *)

(** The exceptions that the modelled code paths can raise. *)
Inductive exn : Type :=
| JSONDecodeError   (* json.loads on text that is not one JSON document *)
| TypeError         (* subscripting a value that is not a dict          *)
| KeyError          (* a dict without the requested key                 *)
| ValueError        (* pandas: column length differs from the index     *)
| OutOfBounds       (* pandas: a year outside the Timestamp range       *)
| EEException.      (* the gateway refused or failed a request          *)

Inductive result (A : Type) : Type :=
| Ok (a : A)
| Raise (e : exn).
Arguments Ok {A} a.
Arguments Raise {A} e.

Definition rbind {A B} (r : result A) (k : A -> result B) : result B :=
  match r with Ok a => k a | Raise e => Raise e end.

Declare Scope result_scope.
Delimit Scope result_scope with result.
Notation "'let?' x ':=' r 'in' k" := (rbind r (fun x => k))
  (at level 10, x name, r at level 100, k at level 200) : result_scope.

(* ===================================================================== *)
(** ** hashlib.md5 (RFC 1321)                                             *)
(* ===================================================================== *)

Module MD5.

Definition wrap32 (x : Z) : Z := x mod 2 ^ 32.

Definition add32 (x y : Z) : Z := wrap32 (x + y).

Definition not32 (x : Z) : Z := Z.lxor x 0xffffffff.

Definition rotl32 (x : Z) (c : Z) : Z :=
  Z.lor (wrap32 (Z.shiftl x c)) (Z.shiftr x (32 - c)).

(** Per-round shift amounts. *)
Definition shifts : list Z :=
  [ 7; 12; 17; 22; 7; 12; 17; 22; 7; 12; 17; 22; 7; 12; 17; 22;
    5;  9; 14; 20; 5;  9; 14; 20; 5;  9; 14; 20; 5;  9; 14; 20;
    4; 11; 16; 23; 4; 11; 16; 23; 4; 11; 16; 23; 4; 11; 16; 23;
    6; 10; 15; 21; 6; 10; 15; 21; 6; 10; 15; 21; 6; 10; 15; 21 ].

(** [floor (2^32 * abs (sin (i + 1)))] for [i = 0 .. 63]. *)
Definition sines : list Z :=
  [ 0xd76aa478; 0xe8c7b756; 0x242070db; 0xc1bdceee;
    0xf57c0faf; 0x4787c62a; 0xa8304613; 0xfd469501;
    0x698098d8; 0x8b44f7af; 0xffff5bb1; 0x895cd7be;
    0x6b901122; 0xfd987193; 0xa679438e; 0x49b40821;
    0xf61e2562; 0xc040b340; 0x265e5a51; 0xe9b6c7aa;
    0xd62f105d; 0x02441453; 0xd8a1e681; 0xe7d3fbc8;
    0x21e1cde6; 0xc33707d6; 0xf4d50d87; 0x455a14ed;
    0xa9e3e905; 0xfcefa3f8; 0x676f02d9; 0x8d2a4c8a;
    0xfffa3942; 0x8771f681; 0x6d9d6122; 0xfde5380c;
    0xa4beea44; 0x4bdecfa9; 0xf6bb4b60; 0xbebfbc70;
    0x289b7ec6; 0xeaa127fa; 0xd4ef3085; 0x04881d05;
    0xd9d4d039; 0xe6db99e5; 0x1fa27cf8; 0xc4ac5665;
    0xf4292244; 0x432aff97; 0xab9423a7; 0xfc93a039;
    0x655b59c3; 0x8f0ccc92; 0xffeff47d; 0x85845dd1;
    0x6fa87e4f; 0xfe2ce6e0; 0xa3014314; 0x4e0811a1;
    0xf7537e82; 0xbd3af235; 0x2ad7d2bb; 0xeb86d391 ].

(** The four chaining words A, B, C, D. *)
Record state : Type := State { sa : Z; sb : Z; sc : Z; sd : Z }.

Definition init : state :=
  State 0x67452301 0xefcdab89 0x98badcfe 0x10325476.

(** One of the 64 operations on a block [m] of sixteen words. *)
Definition step (m : list Z) (st : state) (i : nat) : state :=
  let '(State a b c d) := st in
  let r := (i / 16)%nat in
  let f :=
    match r with
    | 0%nat => Z.lor (Z.land b c) (Z.land (not32 b) d)
    | 1%nat => Z.lor (Z.land d b) (Z.land (not32 d) c)
    | 2%nat => Z.lxor (Z.lxor b c) d
    | _ => Z.lxor c (Z.lor b (not32 d))
    end in
  let g :=
    match r with
    | 0%nat => i
    | 1%nat => ((5 * i + 1) mod 16)%nat
    | 2%nat => ((3 * i + 5) mod 16)%nat
    | _ => ((7 * i) mod 16)%nat
    end in
  let f' := add32 (add32 (add32 f a) (nth i sines 0)) (nth g m 0) in
  State d (add32 b (rotl32 f' (nth i shifts 0))) b c.

Definition compress (st : state) (m : list Z) : state :=
  let st' := fold_left (step m) (seq 0 64) st in
  State (add32 (sa st) (sa st')) (add32 (sb st) (sb st'))
        (add32 (sc st) (sc st')) (add32 (sd st) (sd st')).

(** Little-endian bytes of a word, and back. *)
Fixpoint le_bytes (n : nat) (x : Z) : list Z :=
  match n with
  | O => []
  | S n' => x mod 256 :: le_bytes n' (x / 256)
  end.

Fixpoint le_word (bs : list Z) : Z :=
  match bs with
  | [] => 0
  | b :: bs' => b + 256 * le_word bs'
  end.

(** Message padding: a 1 bit, zeros up to 56 mod 64, the bit length on
    64 bits. *)
Definition pad (msg : list Z) : list Z :=
  let len := Z.of_nat (length msg) in
  let zeros := Z.to_nat ((55 - len) mod 64) in
  msg ++ 0x80 :: repeat 0 zeros ++ le_bytes 8 ((8 * len) mod 2 ^ 64).

(** The words of the successive 64-byte blocks. *)
Fixpoint blocks (fuel : nat) (bs : list Z) : list (list Z) :=
  match fuel, bs with
  | S fuel', _ :: _ =>
      map (fun j => le_word (firstn 4 (skipn (4 * j) bs))) (seq 0 16)
      :: blocks fuel' (skipn 64 bs)
  | _, _ => []
  end.

Definition digest_state (msg : list Z) : state :=
  let p := pad msg in
  fold_left compress (blocks (length p) p) init.

Definition digest (msg : list Z) : list Z :=
  let '(State a b c d) := digest_state msg in
  le_bytes 4 a ++ le_bytes 4 b ++ le_bytes 4 c ++ le_bytes 4 d.

Definition hex_digit (n : Z) : N :=
  nth (Z.to_nat n) (codes "0123456789abcdef") 48%N.

Fixpoint hex_of_bytes (bs : list Z) : pystr :=
  match bs with
  | [] => []
  | b :: bs' => hex_digit (b / 16) :: hex_digit (b mod 16) :: hex_of_bytes bs'
  end.

(** [hashlib.md5(msg).hexdigest()]. *)
Definition hexdigest (msg : list Z) : pystr := hex_of_bytes (digest msg).

End MD5.

(* ===================================================================== *)
(** ** Python floats: [round], [repr]                                     *)
(* ===================================================================== *)

Module PyFloat.

(** [p / q] rounded to the nearest integer, ties to even ([0 <= p], [0 < q]). *)
Definition div_rne (p q : Z) : Z :=
  let d := p / q in
  match 2 * (p mod q) ?= q with
  | Lt => d
  | Gt => d + 1
  | Eq => if Z.even d then d else d + 1
  end.

Definition signed_zero (s : bool) : float := if s then PrimFloat.neg_zero else PrimFloat.zero.

(** The double nearest to [(-1)^s * p / q] (ties to even): the quotient is
    taken with at least 55 bits and the position of the remainder, then
    rounded by the format's own rounding. *)
Definition of_ratio (s : bool) (p q : Z) : float :=
  if p =? 0 then signed_zero s
  else
    let k := Z.max 0 (Z.log2 q + 56 - Z.log2 p) in
    let n := p * 2 ^ k in
    let r := n mod q in
    let lx := if r =? 0 then loc_Exact else loc_Inexact (2 * r ?= q) in
    SF2Prim (binary_round_aux prec emax s (n / q) (- k) lx).

(** The double nearest to [(-1)^s * d * 10^e10], as [float()] and
    [strtod] compute it.  Beyond 10^310 the result is infinite, below
    10^-324 it is zero, whatever the digits. *)
Definition of_decimal (s : bool) (d e10 : Z) : float :=
  if d =? 0 then signed_zero s
  else if 310 <? e10 then (if s then PrimFloat.neg_infinity else PrimFloat.infinity)
  else if e10 + Z.log2 d + 1 <? -324 then signed_zero s
  else if 0 <=? e10 then of_ratio s (d * 10 ^ e10) 1
  else of_ratio s d (10 ^ (- e10)).

(** [round(x, ndigits)] for [0 <= ndigits]: the exact value of [x] is
    rounded half-even to [ndigits] decimals and converted back; the sign
    survives a result of zero. *)
Definition round (x : float) (ndigits : Z) : float :=
  match Prim2SF x with
  | S754_finite s m e =>
      let k := if 0 <=? e
               then Z.pos m * 2 ^ e * 10 ^ ndigits
               else div_rne (Z.pos m * 10 ^ ndigits) (2 ^ (- e)) in
      of_decimal s k (- ndigits)
  | _ => x
  end.

(** Decimal digits of an integer. *)
Definition dec (z : Z) : pystr := codes (NilZero.string_of_int (Z.to_int z)).

(** Is [d * 10^k] inside the interval of reals that round to [m * 2^e]?
    All quantities are scaled to integers. *)
Definition in_interval (m : positive) (e : Z) (d k : Z) : bool :=
  let lo_gap := if (Z.pos m =? 2 ^ 52) && (-1074 <? e) then 1 else 2 in
  let c := d * 10 ^ Z.max k 0 * 2 ^ Z.max (2 - e) 0 in
  let u := 2 ^ Z.max (e - 2) 0 * 10 ^ Z.max (- k) 0 in
  let lo := (4 * Z.pos m - lo_gap) * u in
  let hi := (4 * Z.pos m + 2) * u in
  if Z.even (Z.pos m) then (lo <=? c) && (c <=? hi) else (lo <? c) && (c <? hi).

(** Twice the distance between [d * 10^k] and [m * 2^e], scaled. *)
Definition dist (m : positive) (e : Z) (d k : Z) : Z :=
  Z.abs (d * 10 ^ Z.max k 0 * 2 ^ Z.max (- e) 0
         - Z.pos m * 2 ^ Z.max e 0 * 10 ^ Z.max (- k) 0).

Definition below_pow10 (m : positive) (e : Z) (p : Z) : bool :=
  Z.pos m * 2 ^ Z.max e 0 * 10 ^ Z.max (- p) 0 <? 10 ^ Z.max p 0 * 2 ^ Z.max (- e) 0.

(** The decimal point position: [10^(p-1) <= m * 2^e < 10^p]. *)
Definition decpt (m : positive) (e : Z) : Z :=
  let est := ((Z.log2 (Z.pos m) + e) * 30103) / 100000 in
  match filter (below_pow10 m e) (map (fun i => est - 1 + Z.of_nat i) (seq 0 5)) with
  | p :: _ => p
  | [] => est + 3
  end.

(** The shortest decimal [d * 10^k] that rounds to [m * 2^e], the closest
    one among the shortest; of two equally close ones, the one whose last
    digit is even. *)
Fixpoint shortest (m : positive) (e : Z) (p : Z) (fuel : nat) (n : Z) : Z * Z :=
  let k := p - n in
  let lo := (Z.pos m * 2 ^ Z.max e 0 * 10 ^ Z.max (- k) 0)
            / (10 ^ Z.max k 0 * 2 ^ Z.max (- e) 0) in
  let cands := filter (fun d => in_interval m e d k) [lo; lo + 1] in
  match cands, fuel with
  | [d], _ => (d, k)
  | d1 :: d2 :: _, _ =>
      match dist m e d1 k ?= dist m e d2 k with
      | Lt => (d1, k)
      | Gt => (d2, k)
      | Eq => if Z.even d1 then (d1, k) else (d2, k)
      end
  | [], S fuel' => shortest m e p fuel' (n + 1)
  | [], O => (lo, k)
  end.

Fixpoint strip_zeros (fuel : nat) (d k : Z) : Z * Z :=
  match fuel with
  | S fuel' => if (d mod 10 =? 0) && negb (d =? 0) then strip_zeros fuel' (d / 10) (k + 1) else (d, k)
  | O => (d, k)
  end.

Definition zeros (n : Z) : pystr := repeat 48%N (Z.to_nat n).

(** [float.__repr__] of a positive finite value. *)
Definition repr_pos (m : positive) (e : Z) : pystr :=
  let '(d0, k0) := shortest m e (decpt m e) 17 1 in
  let '(d, k) := strip_zeros 20 d0 k0 in
  let ds := dec d in
  let nd := Z.of_nat (length ds) in
  let pt := nd + k in
  if (pt <=? -4) || (16 <? pt) then
    let x := pt - 1 in
    let xs := dec (Z.abs x) in
    firstn 1 ds ++ (if nd =? 1 then [] else codes "." ++ skipn 1 ds)
    ++ codes "e" ++ (if x <? 0 then codes "-" else codes "+")
    ++ (if Z.of_nat (length xs) <? 2 then codes "0" else []) ++ xs
  else if pt <=? 0 then codes "0." ++ zeros (- pt) ++ ds
  else if nd <=? pt then ds ++ zeros (pt - nd) ++ codes ".0"
  else firstn (Z.to_nat pt) ds ++ codes "." ++ skipn (Z.to_nat pt) ds.

(** The text that [json.dumps] writes for a float. *)
Definition json_repr (x : float) : pystr :=
  match Prim2SF x with
  | S754_nan => codes "NaN"
  | S754_infinity s => if s then codes "-Infinity" else codes "Infinity"
  | S754_zero s => if s then codes "-0.0" else codes "0.0"
  | S754_finite s m e => (if s then codes "-" else []) ++ repr_pos m e
  end.

End PyFloat.

(* ===================================================================== *)
(** ** JSON values, [json.dumps(..., sort_keys=True)] and [json.loads]    *)
(* ===================================================================== *)

Inductive json : Type :=
| JNull
| JBool (b : bool)
| JInt (z : Z)
| JFloat (f : float)
| JStr (s : pystr)
| JArr (l : list json)
| JObj (kvs : list (pystr * json)).

(** Python dict assignment [d[k] = v] on the items in insertion order: a
    key that is already present keeps its place and takes the new value. *)
Fixpoint dict_set {V} (k : pystr) (v : V) (d : list (pystr * V)) : list (pystr * V) :=
  match d with
  | [] => [(k, v)]
  | (k', v') :: d' =>
      if decide (k' = k) then (k, v) :: d' else (k', v') :: dict_set k v d'
  end.

Fixpoint dict_get {V} (k : pystr) (d : list (pystr * V)) : option V :=
  match d with
  | [] => None
  | (k', v) :: d' => if decide (k' = k) then Some v else dict_get k d'
  end.

Module Json.

(** *** Encoder *)

Definition hex4 (c : N) : pystr :=
  map (fun i => MD5.hex_digit (Z.of_N (N.land (N.shiftr c (4 * i)) 15))) [3; 2; 1; 0]%N.

(** [ensure_ascii] escaping of one code point. *)
Definition escape_char (c : N) : pystr :=
  match c with
  | 34 => [92; 34]     (* quote     *)
  | 92 => [92; 92]     (* backslash *)
  | 10 => [92; 110]    (* \n *)
  | 13 => [92; 114]    (* \r *)
  | 9 => [92; 116]     (* \t *)
  | 8 => [92; 98]      (* \b *)
  | 12 => [92; 102]    (* \f *)
  | _ =>
      if (32 <=? c) && (c <=? 126) then [c]
      else if c <? 0x10000 then [92; 117] ++ hex4 c
      else
        let v := c - 0x10000 in
        [92; 117] ++ hex4 (N.lor 0xd800 (N.land (N.shiftr v 10) 0x3ff))
        ++ [92; 117] ++ hex4 (N.lor 0xdc00 (N.land v 0x3ff))
  end%N.

Definition dumps_str (s : pystr) : pystr :=
  [34%N] ++ concat (map escape_char s) ++ [34%N].

(** Code-point order on strings, the order of [sorted]. *)
Fixpoint str_leb (a b : pystr) : bool :=
  match a, b with
  | [], _ => true
  | _ :: _, [] => false
  | x :: a', y :: b' => (x <? y)%N || ((x =? y)%N && str_leb a' b')
  end.

Fixpoint insert_item (kv : pystr * pystr) (l : list (pystr * pystr)) :=
  match l with
  | [] => [kv]
  | kv' :: l' => if str_leb kv.1 kv'.1 then kv :: l else kv' :: insert_item kv l'
  end.

Definition sort_items (l : list (pystr * pystr)) : list (pystr * pystr) :=
  fold_right insert_item [] l.

Fixpoint join (sep : pystr) (l : list pystr) : pystr :=
  match l with
  | [] => []
  | [x] => x
  | x :: l' => x ++ sep ++ join sep l'
  end.

(** [json.dumps(j, sort_keys=True)] with the default separators. *)
Fixpoint dumps (j : json) : pystr :=
  match j with
  | JNull => codes "null"
  | JBool b => if b then codes "true" else codes "false"
  | JInt z => PyFloat.dec z
  | JFloat f => PyFloat.json_repr f
  | JStr s => dumps_str s
  | JArr l =>
      codes "[" ++ join (codes ", ") (map dumps l) ++ codes "]"
  | JObj kvs =>
      let items :=
        (fix go (l : list (pystr * json)) : list (pystr * pystr) :=
           match l with
           | [] => []
           | (k, v) :: l' => (k, dumps v) :: go l'
           end) kvs in
      codes "{"
      ++ join (codes ", ")
           (map (fun kv => dumps_str kv.1 ++ codes ": " ++ kv.2) (sort_items items))
      ++ codes "}"
  end.

(** *** Decoder *)

Definition is_ws (c : N) : bool :=
  ((c =? 32) || (c =? 9) || (c =? 10) || (c =? 13))%N.

Fixpoint skip_ws (s : pystr) : pystr :=
  match s with
  | c :: s' => if is_ws c then skip_ws s' else s
  | [] => []
  end.

Definition is_digit (c : N) : bool := ((48 <=? c) && (c <=? 57))%N.

(** The longest prefix of digits, and what follows it. *)
Fixpoint span_digits (s : pystr) : pystr * pystr :=
  match s with
  | c :: s' =>
      if is_digit c then let '(d, r) := span_digits s' in (c :: d, r) else ([], s)
  | [] => ([], [])
  end.

Definition digits_value (ds : pystr) : Z :=
  fold_left (fun acc c => 10 * acc + Z.of_N (c - 48)) ds 0.

(** The sign of an exponent. *)
Definition scan_sign_exp (s : pystr) : bool * pystr :=
  match s with
  | 45%N :: t => (true, t)
  | 43%N :: t => (false, t)
  | _ => (false, s)
  end.

(** The number pattern of the scanner: an optional minus sign, then a
    single 0 or a digit string without leading 0; optionally a point and
    digits; optionally e or E, a sign and digits.  Each part is scanned
    greedily; an optional part that does not match in full is left in the
    text. *)
Definition scan_sign (s : pystr) : bool * pystr :=
  match s with
  | 45%N :: s' => (true, s')
  | _ => (false, s)
  end.

Definition scan_int (s : pystr) : option (pystr * pystr) :=
  match s with
  | 48%N :: s' => Some ([48%N], s')
  | c :: _ => if is_digit c then Some (span_digits s) else None
  | [] => None
  end.

Definition scan_frac (s : pystr) : option pystr * pystr :=
  match s with
  | 46%N :: s' =>
      match span_digits s' with
      | ((_ :: _) as d, r) => (Some d, r)
      | _ => (None, s)
      end
  | _ => (None, s)
  end.

Definition scan_exp (s : pystr) : option Z * pystr :=
  match s with
  | c :: s' =>
      if ((c =? 101) || (c =? 69))%N then
        let '(eneg, s'') := scan_sign_exp s' in
        match span_digits s'' with
        | ((_ :: _) as d, r) =>
            (Some (if eneg then - digits_value d else digits_value d), r)
        | _ => (None, s)
        end
      else (None, s)
  | [] => (None, s)
  end.

(** The value of a matched number: an int when there is neither fraction
    nor exponent, else the float that [float()] reads in the text. *)
Definition number_value (neg : bool) (ids : pystr) (fds : option pystr) (ex : option Z)
  : json :=
  match fds, ex with
  | None, None => JInt (if neg then - digits_value ids else digits_value ids)
  | _, _ =>
      let fd := default [] fds in
      JFloat (PyFloat.of_decimal neg (digits_value (ids ++ fd))
                (default 0 ex - Z.of_nat (length fd)))
  end.

Definition match_number (s : pystr) : option (json * pystr) :=
  let '(neg, s1) := scan_sign s in
  match scan_int s1 with
  | None => None
  | Some (ids, s2) =>
      let '(fds, s3) := scan_frac s2 in
      let '(ex, s4) := scan_exp s3 in
      Some (number_value neg ids fds ex, s4)
  end.

Definition hex_val (c : N) : option N :=
  if is_digit c then Some (c - 48)%N
  else if ((97 <=? c) && (c <=? 102))%N then Some (c - 87)%N
  else if ((65 <=? c) && (c <=? 70))%N then Some (c - 55)%N
  else None.

Definition hex4_val (s : pystr) : option (N * pystr) :=
  match s with
  | a :: b :: c :: d :: r =>
      match hex_val a, hex_val b, hex_val c, hex_val d with
      | Some x, Some y, Some z, Some w => Some ((((x * 16 + y) * 16 + z) * 16 + w)%N, r)
      | _, _, _, _ => None
      end
  | _ => None
  end.

(** The string scanner (strict mode), started after the opening quote. *)
Fixpoint scanstring (fuel : nat) (s : pystr) : option (pystr * pystr) :=
  match fuel with
  | O => None
  | S fuel' =>
      let cont c r :=
        match scanstring fuel' r with
        | Some (str, r') => Some (c :: str, r')
        | None => None
        end in
      match s with
      | [] => None
      | 34%N :: r => Some ([], r)
      | 92%N :: e :: r =>
          match e with
          | 34%N => cont 34%N r
          | 92%N => cont 92%N r
          | 47%N => cont 47%N r
          | 98%N => cont 8%N r
          | 102%N => cont 12%N r
          | 110%N => cont 10%N r
          | 114%N => cont 13%N r
          | 116%N => cont 9%N r
          | 117%N =>
              match hex4_val r with
              | None => None
              | Some (u1, r1) =>
                  if ((0xd800 <=? u1) && (u1 <=? 0xdbff))%N then
                    match r1 with
                    | 92%N :: 117%N :: r1' =>
                        match hex4_val r1' with
                        | None => None
                        | Some (u2, r2) =>
                            if ((0xdc00 <=? u2) && (u2 <=? 0xdfff))%N
                            then cont (0x10000 + (u1 - 0xd800) * 1024 + (u2 - 0xdc00))%N r2
                            else cont u1 r1
                        end
                    | _ => cont u1 r1
                    end
                  else cont u1 r1
              end
          | _ => None
          end
      | [92%N] => None
      | c :: r => if (c <? 32)%N then None else cont c r
      end
  end.

(** The values that are neither strings nor containers, in the order in
    which the scanner tries them: the three literals, a number, then the
    three spellings of non-finite floats. *)
Definition scan_scalar (s : pystr) : option (json * pystr) :=
  if startswith (codes "null") s then Some (JNull, skipn 4 s)
  else if startswith (codes "true") s then Some (JBool true, skipn 4 s)
  else if startswith (codes "false") s then Some (JBool false, skipn 5 s)
  else
    match match_number s with
    | Some x => Some x
    | None =>
        if startswith (codes "NaN") s then Some (JFloat nan, skipn 3 s)
        else if startswith (codes "Infinity") s then Some (JFloat infinity, skipn 8 s)
        else if startswith (codes "-Infinity") s then Some (JFloat neg_infinity, skipn 9 s)
        else None
    end.

(** [scan_once]: one JSON value at the head of [s] and the rest of the
    text; [None] stands for every way in which the scanner gives up
    (all of them reach the caller as [JSONDecodeError]). *)
Fixpoint scan_once (fuel : nat) (s : pystr) : option (json * pystr) :=
  match fuel with
  | O => None
  | S fuel' =>
      match s with
      | [] => None
      | 34%N :: r =>
          match scanstring (S (length r)) r with
          | Some (str, r') => Some (JStr str, r')
          | None => None
          end
      | 123%N :: r =>
          match skip_ws r with
          | 125%N :: r' => Some (JObj [], r')
          | 34%N :: r0 =>
              (fix members (n : nat) (acc : list (pystr * json)) (t : pystr) :=
                 match n with
                 | O => None
                 | S n' =>
                     match scanstring (S (length t)) t with
                     | None => None
                     | Some (k, t1) =>
                         match skip_ws t1 with
                         | 58%N :: t2 =>
                             match scan_once fuel' (skip_ws t2) with
                             | None => None
                             | Some (v, t3) =>
                                 let acc' := dict_set k v acc in
                                 match skip_ws t3 with
                                 | 125%N :: t4 => Some (JObj acc', t4)
                                 | 44%N :: t4 =>
                                     match skip_ws t4 with
                                     | 34%N :: t5 => members n' acc' t5
                                     | _ => None
                                     end
                                 | _ => None
                                 end
                             end
                         | _ => None
                         end
                     end
                 end) (length r) [] r0
          | _ => None
          end
      | 91%N :: r =>
          match skip_ws r with
          | 93%N :: r' => Some (JArr [], r')
          | r0 =>
              (fix elems (n : nat) (acc : list json) (t : pystr) :=
                 match n with
                 | O => None
                 | S n' =>
                     match scan_once fuel' t with
                     | None => None
                     | Some (v, t1) =>
                         match skip_ws t1 with
                         | 93%N :: t2 => Some (JArr (rev (v :: acc)), t2)
                         | 44%N :: t2 => elems n' (v :: acc) (skip_ws t2)
                         | _ => None
                         end
                     end
                 end) (length r) [] r0
          end
      | _ :: _ => scan_scalar s
      end
  end.

(** [json.loads(s)]: optional blanks, one value, optional blanks, the end
    of the text.  (Nesting deeper than the interpreter's recursion limit
    and ints beyond its digit limit are left out.) *)
Definition loads (s : pystr) : result json :=
  match s with
  | 0xfeff%N :: _ => Raise JSONDecodeError
  | _ =>
      match scan_once (S (length s)) (skip_ws s) with
      | Some (v, r) =>
          match skip_ws r with
          | [] => Ok v
          | _ :: _ => Raise JSONDecodeError
          end
      | None => Raise JSONDecodeError
      end
  end.

End Json.

(** The sixteen characters of a hexadecimal digest. *)
Definition hexchars : pystr := codes "0123456789abcdef".

(** [obj[key]] for a decoded JSON value and a string key. *)
Definition getitem (obj : json) (key : pystr) : result json :=
  match obj with
  | JObj kvs =>
      match dict_get key kvs with
      | Some v => Ok v
      | None => Raise KeyError
      end
  | _ => Raise TypeError
  end.

(* ===================================================================== *)
(** ** The cache key                                                      *)
(* ===================================================================== *)

(** [TemperatureAnalyzer._generate_cache_key(lat, lon, **kwargs)]. *)
Definition _generate_cache_key (lat lon : float) (kwargs : list (pystr * json)) : pystr :=
  let params :=
    fold_left (fun d kv => dict_set kv.1 kv.2 d) kwargs
      [(codes "lat", JFloat (PyFloat.round lat 4));
       (codes "lon", JFloat (PyFloat.round lon 4))] in
  let key := Json.dumps (JObj params) in
  MD5.hexdigest (encode key).

(* ===================================================================== *)
(** ** The remote gateway (Earth Engine)                                  *)
(* ===================================================================== *)

Definition ymd : Type := (Z * Z * Z)%type.

(** [ee.Geometry.Point(lon, lat)]. *)
Record Geometry : Type := Point { point_lon : json; point_lat : json }.

(** An image collection as the client describes it: the dataset and the
    filters put on it. *)
Record ImageCollection : Type := {
  ic_id : pystr;
  ic_select : option pystr;
  ic_filter_eq : list (pystr * pystr);
  ic_filterDate : option (ymd * ymd);
  ic_filterBounds : option Geometry
}.

Definition ee_ImageCollection (id : pystr) : ImageCollection :=
  {| ic_id := id; ic_select := None; ic_filter_eq := [];
     ic_filterDate := None; ic_filterBounds := None |}.

Definition select (band : pystr) (c : ImageCollection) : ImageCollection :=
  {| ic_id := ic_id c; ic_select := Some band; ic_filter_eq := ic_filter_eq c;
     ic_filterDate := ic_filterDate c; ic_filterBounds := ic_filterBounds c |}.

Definition filter_eq (field value : pystr) (c : ImageCollection) : ImageCollection :=
  {| ic_id := ic_id c; ic_select := ic_select c;
     ic_filter_eq := ic_filter_eq c ++ [(field, value)];
     ic_filterDate := ic_filterDate c; ic_filterBounds := ic_filterBounds c |}.

Definition filterDate (a b : ymd) (c : ImageCollection) : ImageCollection :=
  {| ic_id := ic_id c; ic_select := ic_select c; ic_filter_eq := ic_filter_eq c;
     ic_filterDate := Some (a, b); ic_filterBounds := ic_filterBounds c |}.

Definition filterBounds (p : Geometry) (c : ImageCollection) : ImageCollection :=
  {| ic_id := ic_id c; ic_select := ic_select c; ic_filter_eq := ic_filter_eq c;
     ic_filterDate := ic_filterDate c; ic_filterBounds := Some p |}.

(** What a [getInfo()] round trip asks for. *)
Inductive request : Type :=
| AggregateTemperature (c : ImageCollection) (band : pystr)
| AggregateModels (c : ImageCollection).

Fixpoint mapM {A B} (f : A -> result B) (l : list A) : result (list B) :=
  match l with
  | [] => Ok []
  | a :: l' =>
      match f a with
      | Raise e => Raise e
      | Ok b => match mapM f l' with Raise e => Raise e | Ok bs => Ok (b :: bs) end
      end
  end.

(** The one place where Kelvin becomes Celsius: [temp_c] in
    [monthly_reducer]. *)
Definition kelvin_to_celsius (value : float) : float :=
  PrimFloat.sub value 273.15%float.

(** The analyzer object.  [ident] is the object's identity, which is all
    the memoising decorators see of [self]. *)
Record TemperatureAnalyzer : Type := {
  ident : nat;
  start_year : Z;
  end_year : Z;
  scenario : pystr;
  historical_cutoff : Z;
  cmip6_transition : Z
}.

(** [TemperatureAnalyzer.__init__]. *)
Definition init (id : nat) (start_year end_year : Z) (scenario : pystr) : TemperatureAnalyzer :=
  {| ident := id; start_year := start_year; end_year := end_year;
     scenario := scenario; historical_cutoff := 2022; cmip6_transition := 2015 |}.

(** [_init_datasets]: the two pre-filtered collections. *)
Definition start_date (self : TemperatureAnalyzer) : ymd := (start_year self, 1, 1).
Definition end_date (self : TemperatureAnalyzer) : ymd := (end_year self, 12, 31).
Definition historical_end (self : TemperatureAnalyzer) : ymd :=
  (Z.min (historical_cutoff self) (end_year self), 12, 31).

Definition filtered_gldas (self : TemperatureAnalyzer) : ImageCollection :=
  filterDate (start_date self) (historical_end self)
    (select (codes "Tair_f_inst") (ee_ImageCollection (codes "NASA/GLDAS/V021/NOAH/G025/T3H"))).

Definition filtered_cmip6 (self : TemperatureAnalyzer) : ImageCollection :=
  filterDate (start_date self) (end_date self)
    (filter_eq (codes "scenario") (scenario self)
       (select (codes "tas") (ee_ImageCollection (codes "NASA/GDDP-CMIP6")))).

(** The dictionaries returned by the two retrieval methods. *)
Record Metadata : Type := {
  md_lat : json;
  md_lon : json;
  md_scenario : pystr;
  md_models : list pystr
}.

Record PointData : Type := {
  gldas : list float;
  cmip6_models : list (pystr * list float);
  metadata : Metadata
}.

Record CachedPointData : Type := {
  c_gldas : list float;
  c_cmip6 : list float;
  c_lat : json;
  c_lon : json;
  c_scenario : pystr
}.

Section Gateway.

(** The remote service: its state, its images, and what answering one
    request does to it.  Nothing is assumed about any of them. *)
Variable world : Type.
Variable image : Type.
Variable images_of : world -> ImageCollection -> result (list image).
Variable reduceRegion_mean : image -> Geometry -> Z -> pystr -> result float.
Variable image_date : image -> pystr.
Variable distinct_models : world -> ImageCollection -> result (list pystr).
Variable serve : world -> request -> world.

(** The client library's own check of the coordinates it is given. *)
Variable valid_coordinates : json -> json -> bool.

Definition ee_Geometry_Point (lon lat : json) : result Geometry :=
  if valid_coordinates lon lat then Ok (Point lon lat) else Raise EEException.

(** The client side of the gateway: the service and the requests sent so
    far, most recent first. *)
Record remote : Type := Remote { service : world; sent : list request }.

(** State and exceptions. *)
Definition eff (A : Type) : Type := remote -> result A * remote.

Definition ret {A} (a : A) : eff A := fun r => (Ok a, r).

Definition bind {A B} (m : eff A) (k : A -> eff B) : eff B :=
  fun r =>
    match m r with
    | (Ok a, r') => k a r'
    | (Raise e, r') => (Raise e, r')
    end.

Definition lift {A} (x : result A) : eff A := fun r => (x, r).

Notation "'let!' x ':=' m 'in' k" := (bind m (fun x => k))
  (at level 10, x name, m at level 100, k at level 200).

(** A deferred server-side list and its description. *)
Record ee_List (A : Type) : Type := {
  describe : request;
  evaluate : world -> result (list A)
}.
Arguments describe {A} _.
Arguments evaluate {A} _.

(** [x.getInfo()]: one round trip. *)
Definition getInfo {A} (x : ee_List A) : eff (list A) :=
  fun r =>
    (evaluate x (service r),
     Remote (serve (service r) (describe x)) (describe x :: sent r)).

(** The feature built from one image. *)
Record Feature : Type := { temperature : float; date : pystr }.

Definition monthly_reducer (point : Geometry) (band_name : pystr) (img : image)
  : result Feature :=
  (let? value := reduceRegion_mean img point 25000 band_name in
   let temp_c := kelvin_to_celsius value in
   Ok {| temperature := temp_c; date := image_date img |})%result.

(** [_calculate_monthly_average]: [collection.map(monthly_reducer)
    .aggregate_array('temperature')], still unevaluated.  (The
    [lru_cache] around it memoises this description only; no request is
    sent before [getInfo].) *)
Definition _calculate_monthly_average
    (collection : ImageCollection) (point : Geometry) (band_name : pystr)
  : ee_List float :=
  {| describe := AggregateTemperature collection band_name;
     evaluate := fun w =>
       (let? imgs := images_of w collection in
        let? feats := mapM (monthly_reducer point band_name) imgs in
        Ok (map temperature feats))%result |}.

(** For the statements below: the raw readings of a collection at a point: what [reduceRegion] gives
    for each image, in Kelvin. *)
Definition raw_readings (w : world) (c : ImageCollection) (p : Geometry) (band : pystr)
  : result (list float) :=
  (let? imgs := images_of w c in
   mapM (fun img => reduceRegion_mean img p 25000 band) imgs)%result.

(** [collection.distinct('model').aggregate_array('model')]. *)
Definition aggregate_models (collection : ImageCollection) : ee_List pystr :=
  {| describe := AggregateModels collection;
     evaluate := fun w => distinct_models w collection |}.

(** The [kwargs] that [get_point_data] passes to the key function. *)
Definition key_kwargs (self : TemperatureAnalyzer) : list (pystr * json) :=
  [(codes "start_year", JInt (start_year self));
   (codes "end_year", JInt (end_year self));
   (codes "scenario", JStr (scenario self))].

(** [for model, data in cmip6_by_model.items(): data.getInfo()]. *)
Fixpoint getInfo_items (items : list (pystr * ee_List float))
  : eff (list (pystr * list float)) :=
  match items with
  | [] => ret []
  | (model, data) :: items' =>
      let! v := getInfo data in
      let! rest := getInfo_items items' in
      ret ((model, v) :: rest)
  end.

(** [cmip6_by_model] after the loop [for model in models]. *)
Definition by_model (self : TemperatureAnalyzer) (point : Geometry) (models : list pystr)
  : list (pystr * ee_List float) :=
  fold_left
    (fun d model =>
       let model_data :=
         filterBounds point (filter_eq (codes "model") model (filtered_cmip6 self)) in
       dict_set model (_calculate_monthly_average model_data point (codes "tas")) d)
    models [].

(** [TemperatureAnalyzer.get_point_data]. *)
Definition get_point_data (self : TemperatureAnalyzer) (lat lon : float) : eff PointData :=
  let cache_key := _generate_cache_key lat lon (key_kwargs self) in
  let! point := lift (ee_Geometry_Point (JFloat lon) (JFloat lat)) in
  let gldas_data := filterBounds point (filtered_gldas self) in
  let gldas_monthly := _calculate_monthly_average gldas_data point (codes "Tair_f_inst") in
  let! models := getInfo (aggregate_models (filtered_cmip6 self)) in
  let cmip6_by_model := by_model self point models in
  let! g := getInfo gldas_monthly in
  let! ms := getInfo_items cmip6_by_model in
  ret {| gldas := g;
         cmip6_models := ms;
         metadata := {| md_lat := JFloat lat; md_lon := JFloat lon;
                        md_scenario := scenario self; md_models := models |} |}.

(** The body of [get_point_data_cached], under its [lru_cache]. *)
Definition get_point_data_cached_body (self : TemperatureAnalyzer) (cache_key : pystr)
  : eff CachedPointData :=
  let! params := lift (Json.loads cache_key) in
  let! lon := lift (getitem params (codes "lon")) in
  let! lat := lift (getitem params (codes "lat")) in
  let! point := lift (ee_Geometry_Point lon lat) in
  let gldas_data := filterBounds point (filtered_gldas self) in
  let cmip6_data := filterBounds point (filtered_cmip6 self) in
  let gldas_monthly := _calculate_monthly_average gldas_data point (codes "Tair_f_inst") in
  let cmip6_monthly := _calculate_monthly_average cmip6_data point (codes "tas") in
  let! g := getInfo gldas_monthly in
  let! c := getInfo cmip6_monthly in
  ret {| c_gldas := g; c_cmip6 := c; c_lat := lat; c_lon := lon;
         c_scenario := scenario self |}.

End Gateway.

Arguments Remote {world} _ _.
Arguments service {world} _.
Arguments sent {world} _.
Arguments describe {world A} _.
Arguments evaluate {world A} _.
Arguments getInfo {world} serve {A} _ _.
Arguments getInfo_items {world} serve _ _.
Arguments _calculate_monthly_average {world image} _ _ _ _ _ _.
Arguments monthly_reducer {image} _ _ _ _ _.
Arguments get_point_data {world image} _ _ _ _ _ _ _ _ _ _.
Arguments raw_readings {world image} _ _ _ _ _ _.
Arguments by_model {world image} _ _ _ _ _ _.
Arguments get_point_data_cached_body {world image} _ _ _ _ _ _ _ _.

(** The fingerprint of a request: the key of a point under the settings of
    an analyzer, as [get_point_data] and the application compute it. *)
Definition fingerprint (self : TemperatureAnalyzer) (lat lon : float) : pystr :=
  _generate_cache_key lat lon (key_kwargs self).

(** Python's [round(a, 4) == round(b, 4)]. *)
Definition rounded_equal (a b : float) : bool :=
  PrimFloat.eqb (PyFloat.round a 4) (PyFloat.round b 4).

(** Same scenario, same years, coordinates equal after rounding. *)
Definition same_parameters (p1 p2 : TemperatureAnalyzer * float * float) : Prop :=
  let '(s1, lat1, lon1) := p1 in
  let '(s2, lat2, lon2) := p2 in
  scenario s1 = scenario s2 /\ start_year s1 = start_year s2 /\
  end_year s1 = end_year s2 /\
  rounded_equal lat1 lat2 = true /\ rounded_equal lon1 lon2 = true.

(** The digest as one number below 2^128, and the range of its words. *)
Definition state_code (st : MD5.state) : Z :=
  MD5.sa st + 2 ^ 32 * (MD5.sb st + 2 ^ 32 * (MD5.sc st + 2 ^ 32 * MD5.sd st)).

Definition word_range (st : MD5.state) : Prop :=
  (0 <= MD5.sa st < 2 ^ 32) /\ (0 <= MD5.sb st < 2 ^ 32) /\
  (0 <= MD5.sc st < 2 ^ 32) /\ (0 <= MD5.sd st < 2 ^ 32).

(* ===================================================================== *)
(** ** The pandas operations of the aggregator                            *)
(* ===================================================================== *)

Module Pandas.

(** A column is the month axis or a float64 array; a missing value is
    NaN. *)
Inductive column : Type :=
| DateCol (d : list (Z * Z))
| FloatCol (v : list float).

Definition column_length (c : column) : nat :=
  match c with DateCol d => length d | FloatCol v => length v end.

(** A frame: the length of its index and its columns in order. *)
Record DataFrame : Type := {
  nrows : nat;
  columns : list (pystr * column)
}.

(** [pd.date_range(start=f"{a}-01-01", end=f"{b}-12-31", freq='M')]: the
    month ends of the years [a .. b], each written (year, month).  The
    axis exists for the years whose dates fit a Timestamp; elsewhere
    pandas raises [OutOfBoundsDatetime] or a parsing error, or reads a
    year of one or two digits as another year, and the model raises.
    The alias 'M' is read as month end, as the pandas releases that
    accept it do. *)
Definition date_range_months (a b : Z) : result (list (Z * Z)) :=
  if (1678 <=? a) && (a <=? 2262) && (1677 <=? b) && (b <=? 2261)
  then Ok (flat_map (fun y => map (fun m => (a + Z.of_nat y, Z.of_nat m)) (seq 1 12))
             (seq 0 (Z.to_nat (b - a + 1))))
  else Raise OutOfBounds.

(** [pd.DataFrame({'date': dates, name: values})]. *)
Definition DataFrame_of_dates (dates : list (Z * Z)) (name : pystr) (values : list float)
  : result DataFrame :=
  if decide (length values = length dates)
  then Ok {| nrows := length dates;
             columns := [(codes "date", DateCol dates); (name, FloatCol values)] |}
  else Raise ValueError.

(** [df[name] = values] for a list of floats. *)
Definition setitem (df : DataFrame) (name : pystr) (values : list float)
  : result DataFrame :=
  if decide (length values = nrows df)
  then Ok {| nrows := nrows df; columns := dict_set name (FloatCol values) (columns df) |}
  else Raise ValueError.

(** [df[name]] as floats. *)
Definition getitem (df : DataFrame) (name : pystr) : list float :=
  match dict_get name (columns df) with
  | Some (FloatCol v) => v
  | _ => []
  end.

(** The rows of [df[names]]. *)
Definition rows (df : DataFrame) (names : list pystr) : list (list float) :=
  map (fun i => map (fun name => nth i (getitem df name) nan) names) (seq 0 (nrows df)).

(** [r[j] += a[i + j]] for the eight running sums of NumPy's pairwise
    summation, [blocks] times. *)
Fixpoint unrolled (blocks : nat) (r a : list float) : list float * list float :=
  match blocks with
  | O => (r, a)
  | S blocks' =>
      unrolled blocks'
        (map (fun ra => PrimFloat.add ra.1 ra.2) (combine r (firstn 8 a))) (skipn 8 a)
  end.

(** [((r[0] + r[1]) + (r[2] + r[3])) + ((r[4] + r[5]) + (r[6] + r[7]))]. *)
Definition sum8 (r : list float) : float :=
  match r with
  | [r0; r1; r2; r3; r4; r5; r6; r7] =>
      PrimFloat.add
        (PrimFloat.add (PrimFloat.add r0 r1) (PrimFloat.add r2 r3))
        (PrimFloat.add (PrimFloat.add r4 r5) (PrimFloat.add r6 r7))
  | _ => 0%float
  end.

(** NumPy's pairwise sum of [a]: fewer than eight values are added from
    left to right, starting at 0.0; up to 128 values are added into eight
    running sums, which are then combined, and the values left over after
    the last full block of eight are added one by one; a longer run is cut
    in two near its middle, at a multiple of eight. *)
Fixpoint pairwise_sum (fuel : nat) (a : list float) : float :=
  let n := length a in
  if (n <? 8)%nat then fold_left PrimFloat.add a 0%float
  else if (n <=? 128)%nat then
    let '(r, rest) := unrolled (n / 8 - 1) (firstn 8 a) (skipn 8 a) in
    fold_left PrimFloat.add rest (sum8 r)
  else
    match fuel with
    | O => 0%float
    | S fuel' =>
        let n2 := (n / 2 - (n / 2) mod 8)%nat in
        PrimFloat.add (pairwise_sum fuel' (firstn n2 a)) (pairwise_sum fuel' (skipn n2 a))
    end.

(** The float sum of one row as [ndarray.sum] computes it along the rows
    of a frame: the pairwise sum of the row added to the initial value 0.0.
    The empty sum is 0.0, and so is a sum of negative zeros. *)
Definition fsum (l : list float) : float :=
  PrimFloat.add 0%float (pairwise_sum (length l) l).

Definition count_valid (row : list float) : nat :=
  length (filter (fun v => negb (PrimFloat.is_nan v)) row).

Definition of_nat (n : nat) : float := PyFloat.of_ratio false (Z.of_nat n) 1.

(** [nanops.nanmean] on one row: missing values count as 0 in the sum and
    not at all in the count; no value at all gives NaN. *)
Definition nanmean (row : list float) : float :=
  let values := map (fun v => if PrimFloat.is_nan v then 0%float else v) row in
  let count := count_valid row in
  if decide (count = 0%nat) then nan
  else PrimFloat.div (fsum values) (of_nat count).

(** [nanops.nanstd] with [ddof=1] on one row: the square root of the sum
    of squared deviations from the mean over [count - 1]; fewer than two
    values give NaN. *)
Definition nanstd (row : list float) : float :=
  let values := map (fun v => if PrimFloat.is_nan v then 0%float else v) row in
  let count := count_valid row in
  if decide (count <= 1)%nat then nan
  else
    let avg := PrimFloat.div (fsum values) (of_nat count) in
    let sqr :=
      map (fun v =>
             if PrimFloat.is_nan v then 0%float
             else PrimFloat.mul (PrimFloat.sub avg v) (PrimFloat.sub avg v)) row in
    PrimFloat.sqrt (PrimFloat.div (fsum sqr) (of_nat (count - 1))).

(** [df[names].mean(axis=1)] and [df[names].std(axis=1)]. *)
Definition mean_axis1 (df : DataFrame) (names : list pystr) : list float :=
  map nanmean (rows df names).

Definition std_axis1 (df : DataFrame) (names : list pystr) : list float :=
  map nanstd (rows df names).

(** [a + 2 * b] and [a - 2 * b] on two series of one frame. *)
Definition plus_twice (a b : list float) : list float :=
  map (fun ab => PrimFloat.add ab.1 (PrimFloat.mul 2%float ab.2)) (combine a b).

Definition minus_twice (a b : list float) : list float :=
  map (fun ab => PrimFloat.sub ab.1 (PrimFloat.mul 2%float ab.2)) (combine a b).

End Pandas.

Import Pandas.

(* ===================================================================== *)
(** ** The aggregator                                                     *)
(* ===================================================================== *)

Definition CMIP6_ : pystr := codes "CMIP6_".

(** [for model, data in raw_data['cmip6_models'].items():
      df[f'CMIP6_{model}'] = data[:len(dates)]]. *)
Fixpoint add_models (n : nat) (df : DataFrame) (items : list (pystr * list float))
  : result DataFrame :=
  match items with
  | [] => Ok df
  | (model, data) :: items' =>
      match setitem df (CMIP6_ ++ model) (firstn n data) with
      | Raise e => Raise e
      | Ok df' => add_models n df' items'
      end
  end.

(** [format_data_for_plotting] from the line after [json.loads] on:
    [raw_data] is the decoded [data_key]. *)
Definition format_raw_data (self : TemperatureAnalyzer) (raw_data : PointData)
  : result DataFrame :=
  (let? dates := date_range_months (start_year self) (end_year self) in
   let n := length dates in
   let? df := DataFrame_of_dates dates (codes "GLDAS") (firstn n (gldas raw_data)) in
   let? df := add_models n df (cmip6_models raw_data) in
   let cmip6_cols := filter (startswith CMIP6_) (map fst (columns df)) in
   let? df := setitem df (codes "CMIP6_mean") (mean_axis1 df cmip6_cols) in
   let? df := setitem df (codes "CMIP6_std") (std_axis1 df cmip6_cols) in
   let? df := setitem df (codes "CMIP6_upper")
                (plus_twice (getitem df (codes "CMIP6_mean")) (getitem df (codes "CMIP6_std"))) in
   let? df := setitem df (codes "CMIP6_lower")
                (minus_twice (getitem df (codes "CMIP6_mean")) (getitem df (codes "CMIP6_std"))) in
   Ok df)%result.

(** The column that the loop adds for one model. *)
Definition model_column (n : nat) (md : pystr * list float) : pystr * column :=
  (CMIP6_ ++ md.1, FloatCol (firstn n md.2)).

(** The columns after the loop over the models. *)
Definition model_columns (n : nat) (items : list (pystr * list float))
    (cols : list (pystr * column)) : list (pystr * column) :=
  fold_left (fun cols md => dict_set (CMIP6_ ++ md.1) (FloatCol (firstn n md.2)) cols)
    items cols.

(** The aggregated table of a dataset whose series cover the axis
    [dates]. *)
Definition aggregated (dates : list (Z * Z)) (raw_data : PointData) : DataFrame :=
  let n := length dates in
  let cols1 :=
    model_columns n (cmip6_models raw_data)
      [(codes "date", DateCol dates); (codes "GLDAS", FloatCol (firstn n (gldas raw_data)))] in
  let df1 := {| nrows := n; columns := cols1 |} in
  let cmip6_cols := filter (startswith CMIP6_) (map fst cols1) in
  let m := mean_axis1 df1 cmip6_cols in
  let cols2 := dict_set (codes "CMIP6_mean") (FloatCol m) cols1 in
  let sd := std_axis1 {| nrows := n; columns := cols2 |} cmip6_cols in
  {| nrows := n;
     columns :=
       dict_set (codes "CMIP6_lower") (FloatCol (minus_twice m sd))
         (dict_set (codes "CMIP6_upper") (FloatCol (plus_twice m sd))
            (dict_set (codes "CMIP6_std") (FloatCol sd) cols2)) |}.

(* ===================================================================== *)
(** ** Memoisation: functools.lru_cache and st.cache_data                 *)
(* ===================================================================== *)

Module Lru.

(** The entries, most recently used first. *)
Definition cache (K V : Type) : Type := list (K * V).

Fixpoint lookup {K V} `{EqDecision K} (k : K) (c : cache K V) : option V :=
  match c with
  | [] => None
  | (k', v) :: c' => if decide (k' = k) then Some v else lookup k c'
  end.

Fixpoint remove {K V} `{EqDecision K} (k : K) (c : cache K V) : cache K V :=
  match c with
  | [] => []
  | (k', v) :: c' => if decide (k' = k) then c' else (k', v) :: remove k c'
  end.

(** A new entry; the least recently used one leaves a full cache. *)
Definition store {K V} (maxsize : nat) (k : K) (v : V) (c : cache K V) : cache K V :=
  (k, v) :: (if decide (maxsize <= length c)%nat then removelast c else c).

(** A call of a function under [@lru_cache(maxsize)], the function
    running in a state [S]: a hit returns the stored value and runs
    nothing; a miss runs the function and stores its value; an exception
    stores nothing. *)
Definition call {K V S} `{EqDecision K} (maxsize : nat)
    (f : K -> S -> result V * S) (k : K) (c : cache K V) (s : S)
  : result V * cache K V * S :=
  match lookup k c with
  | Some v => (Ok v, (k, v) :: remove k c, s)
  | None =>
      match f k s with
      | (Ok v, s') => (Ok v, store maxsize k v c, s')
      | (Raise e, s') => (Raise e, c, s')
      end
  end.

End Lru.

Section Session.

Variable world : Type.
Variable image : Type.
Variable images_of : world -> ImageCollection -> result (list image).
Variable reduceRegion_mean : image -> Geometry -> Z -> pystr -> result float.
Variable image_date : image -> pystr.
Variable distinct_models : world -> ImageCollection -> result (list pystr).
Variable serve : world -> request -> world.
Variable valid_coordinates : json -> json -> bool.

(** The typed reading of [json.loads(data_key)] for the texts that hold a
    point dataset (a mapping with the lists of numbers under 'gldas' and
    'cmip6_models'); it raises where the decoder or a subscript does. *)
Variable loads_point_data : pystr -> result PointData.

Local Abbreviation remote := (remote world).

(** [get_point_data_cached]: the body under [@lru_cache(maxsize=128)],
    keyed by the object and the key text. *)
Definition get_point_data_cached
    (self : TemperatureAnalyzer) (cache_key : pystr)
    (c : Lru.cache (nat * pystr) CachedPointData) (r : remote)
  : result CachedPointData * Lru.cache (nat * pystr) CachedPointData * remote :=
  Lru.call 128
    (fun _ => get_point_data_cached_body images_of reduceRegion_mean
                image_date serve valid_coordinates self cache_key)
    (ident self, cache_key) c r.

(** The undecorated [format_data_for_plotting]. *)
Definition format_data_for_plotting_body (self : TemperatureAnalyzer) (data_key : pystr)
  : result DataFrame :=
  (let? raw_data := loads_point_data data_key in format_raw_data self raw_data)%result.

(** [format_data_for_plotting] under [@lru_cache(maxsize=128)]. *)
Definition format_data_for_plotting
    (self : TemperatureAnalyzer) (data_key : pystr)
    (c : Lru.cache (nat * pystr) DataFrame)
  : result DataFrame * Lru.cache (nat * pystr) DataFrame :=
  let '(v, c', _) :=
    Lru.call 128 (fun _ (u : unit) => (format_data_for_plotting_body self data_key, u))
      (ident self, data_key) c tt in
  (v, c').

(** The cache of [format_data_for_plotting] after a sequence of calls. *)
Fixpoint after_calls (calls : list (TemperatureAnalyzer * pystr))
    (c : Lru.cache (nat * pystr) DataFrame) : Lru.cache (nat * pystr) DataFrame :=
  match calls with
  | [] => c
  | (self, data_key) :: calls' =>
      after_calls calls' (snd (format_data_for_plotting self data_key c))
  end.

(** The store of [@st.cache_data(ttl=3600)] around [get_cached_data]:
    per key, the value and the clock reading at which it was stored. *)
Definition ttl : Z := 3600.

Definition st_cache : Type := gmap pystr (PointData * Z).

(** [get_cached_data(cache_key)] in app.py at clock reading [now]
    (seconds): an entry younger than [ttl] is returned; otherwise
    [get_point_data(lat, lon)] runs and its value is stored.  An
    exception stores nothing. *)
Definition get_cached_data
    (analyzer : TemperatureAnalyzer) (lat lon : float) (now : Z)
    (cache_key : pystr) (c : st_cache) (r : remote)
  : result PointData * st_cache * remote :=
  match c !! cache_key with
  | Some (v, t) =>
      if now <? t + ttl then (Ok v, c, r)
      else
        match get_point_data images_of reduceRegion_mean image_date
                distinct_models serve valid_coordinates analyzer lat lon r with
        | (Ok v', r') => (Ok v', <[cache_key := (v', now)]> c, r')
        | (Raise e, r') => (Raise e, delete cache_key c, r')
        end
  | None =>
      match get_point_data images_of reduceRegion_mean image_date
              distinct_models serve valid_coordinates analyzer lat lon r with
      | (Ok v', r') => (Ok v', <[cache_key := (v', now)]> c, r')
      | (Raise e, r') => (Raise e, c, r')
      end
  end.

(** One click in app.py: the key is derived from the click and the
    sidebar settings, then the cached retrieval runs. *)
Definition click (analyzer : TemperatureAnalyzer) (lat lon : float) (now : Z)
    (c : st_cache) (r : remote)
  : result PointData * st_cache * remote :=
  let cache_key := _generate_cache_key lat lon (key_kwargs analyzer) in
  get_cached_data analyzer lat lon now cache_key c r.

End Session.

Arguments get_point_data_cached {world image} _ _ _ _ _ _ _ _ _.
Arguments format_data_for_plotting_body _ _ _ : assert.
Arguments format_data_for_plotting _ _ _ _ : assert.
Arguments after_calls _ _ _ : assert.
Arguments get_cached_data {world image} _ _ _ _ _ _ _ _ _ _ _ _.
Arguments click {world image} _ _ _ _ _ _ _ _ _ _ _.

(* ===================================================================== *)
(** ** A stub gateway                                                     *)
(* ===================================================================== *)

(** The gateway of the end-to-end scenario, also used for concrete runs:
    every image of the historical collection reads 273.15 K, the
    projection collection has the models A (283.15 K) and B (293.15 K),
    and each filtered collection holds [n] images.  An image is
    represented by its reading. *)
Module Stub.

Definition GLDAS : pystr := codes "NASA/GLDAS/V021/NOAH/G025/T3H".

Definition images_of (n : nat) (w : unit) (c : ImageCollection) : result (list float) :=
  if decide (ic_id c = GLDAS) then Ok (repeat 273.15%float n)
  else
    match dict_get (codes "model") (ic_filter_eq c) with
    | Some m =>
        if decide (m = codes "A") then Ok (repeat 283.15%float n)
        else if decide (m = codes "B") then Ok (repeat 293.15%float n)
        else Ok []
    | None => Ok []
    end.

Definition reduceRegion_mean (img : float) (_ : Geometry) (_ : Z) (_ : pystr)
  : result float := Ok img.

Definition image_date (_ : float) : pystr := codes "2010-01".

Definition distinct_models (w : unit) (c : ImageCollection) : result (list pystr) :=
  Ok [codes "A"; codes "B"].

Definition serve (w : unit) (_ : request) : unit := w.

Definition valid_coordinates (_ _ : json) : bool := true.

Definition fresh : remote unit := Remote tt [].

(** [get_point_data] against this gateway. *)
Definition get_point_data (n : nat) :=
  get_point_data (images_of n) reduceRegion_mean image_date distinct_models serve
    valid_coordinates.

(** [get_point_data_cached] and a click of the application against this
    gateway. *)
Definition get_point_data_cached (n : nat) :=
  get_point_data_cached (images_of n) reduceRegion_mean image_date serve valid_coordinates.

Definition click (n : nat) :=
  click (images_of n) reduceRegion_mean image_date distinct_models serve valid_coordinates.

(** The analyzer of the application's default settings: 2010 to 2050,
    ssp585. *)
Definition default_analyzer : TemperatureAnalyzer := init 0 2010 2050 (codes "ssp585").

(** The analyzer of the concrete runs: the single year 2010. *)
Definition analyzer : TemperatureAnalyzer := init 0 2010 2010 (codes "ssp585").

(** A run with twelve images per collection and the dataset it returns. *)
Definition run := get_point_data 12 analyzer 40 (-105) fresh.

Definition data : PointData :=
  {| gldas := repeat 0%float 12;
     cmip6_models := [(codes "A", repeat 10%float 12); (codes "B", repeat 20%float 12)];
     metadata := {| md_lat := JFloat 40; md_lon := JFloat (-105);
                    md_scenario := codes "ssp585";
                    md_models := [codes "A"; codes "B"] |} |}.

(** The twelve month ends of 2010. *)
Definition axis : list (Z * Z) := map (fun m => (2010, Z.of_nat m)) (seq 1 12).

(** Datasets for the single year 2010 (an axis of twelve months). *)

(** The historical series stops after eleven months. *)
Definition short_history : PointData :=
  {| gldas := repeat 0%float 11;
     cmip6_models := cmip6_models data;
     metadata := metadata data |}.

(** A model series stops after eleven months. *)
Definition short_model : PointData :=
  {| gldas := repeat 0%float 12;
     cmip6_models := [(codes "A", repeat 10%float 11); (codes "B", repeat 20%float 12)];
     metadata := metadata data |}.

(** No model at all, and the historical series stops after eleven
    months. *)
Definition no_models_short_history : PointData :=
  {| gldas := repeat 0%float 11;
     cmip6_models := [];
     metadata := {| md_lat := JFloat 40; md_lon := JFloat (-105);
                    md_scenario := codes "ssp585"; md_models := [] |} |}.

(** No model at all, full historical series. *)
Definition no_models : PointData :=
  {| gldas := repeat 0%float 12;
     cmip6_models := [];
     metadata := metadata no_models_short_history |}.

(** Two models, one of them called [mean]. *)
Definition model_called_mean : PointData :=
  {| gldas := repeat 0%float 12;
     cmip6_models := [(codes "a", repeat 10%float 12); (codes "mean", repeat 20%float 12)];
     metadata := {| md_lat := JFloat 40; md_lon := JFloat (-105);
                    md_scenario := codes "ssp585";
                    md_models := [codes "a"; codes "mean"] |} |}.

(** The analyzer of the end-to-end scenario: 2010 to 2012, ssp585. *)
Definition scenario_analyzer : TemperatureAnalyzer := init 0 2010 2012 (codes "ssp585").

(** What the scenario's retrieval returns when every collection holds
    [n] images. *)
Definition scenario_data (n : nat) : PointData :=
  {| gldas := repeat 0%float n;
     cmip6_models := [(codes "A", repeat 10%float n); (codes "B", repeat 20%float n)];
     metadata := {| md_lat := JFloat 40; md_lon := JFloat (-105);
                    md_scenario := codes "ssp585";
                    md_models := [codes "A"; codes "B"] |} |}.

(** The month ends of 2010, 2011 and 2012. *)
Definition scenario_axis : list (Z * Z) :=
  flat_map (fun y => map (fun m => (2010 + Z.of_nat y, Z.of_nat m)) (seq 1 12)) (seq 0 3).

(** The table of the scenario. *)
Definition scenario_table : DataFrame := aggregated scenario_axis (scenario_data 36).

End Stub.

(** The names of the four statistics columns. *)
Definition stat_names : list pystr :=
  [codes "CMIP6_mean"; codes "CMIP6_std"; codes "CMIP6_upper"; codes "CMIP6_lower"].

(* ===================================================================== *)
(** ** The application script (app.py)                                    *)
(* ===================================================================== *)

(** [s.endswith(suffix)]. *)
Definition endswith (suffix s : pystr) : bool := startswith (rev suffix) (rev s).

(** *** [str] of a dataset *)

(** Python values of the kinds that a dataset holds are written with the
    constructors of [json]: [None], [bool], [int], [float], [str], [list]
    and a [dict] with [str] keys in insertion order. *)
Section Repr.

(** [str.isprintable] of one code point above 127, as the interpreter's
    Unicode tables give it. *)
Variable isprintable : N -> bool.

Definition hex_of (positions : list N) (c : N) : pystr :=
  map (fun i => MD5.hex_digit (Z.of_N (N.land (N.shiftr c (4 * i)) 15))) positions.

(** One character of [repr(s)] between the quotes [quote]. *)
Definition repr_char (quote : N) (c : N) : pystr :=
  (if (c =? quote) || (c =? 92) then [92; c]
   else if c =? 9 then [92; 116]
   else if c =? 10 then [92; 110]
   else if c =? 13 then [92; 114]
   else if (c <? 32) || (c =? 127) then [92; 120] ++ hex_of [1; 0] c
   else if c <? 127 then [c]
   else if isprintable c then [c]
   else if c <=? 0xff then [92; 120] ++ hex_of [1; 0] c
   else if c <=? 0xffff then [92; 117] ++ hex_of [3; 2; 1; 0] c
   else [92; 85] ++ hex_of [7; 6; 5; 4; 3; 2; 1; 0] c)%N.

(** [repr(s)] of a [str]: single quotes, unless the text holds a single
    quote and no double quote. *)
Definition repr_str (s : pystr) : pystr :=
  let quote :=
    if existsb (N.eqb 39) s && negb (existsb (N.eqb 34) s) then 34%N else 39%N in
  [quote] ++ concat (map (repr_char quote) s) ++ [quote].

(** [repr(x)] of a [float]. *)
Definition repr_float (x : float) : pystr :=
  match Prim2SF x with
  | S754_nan => codes "nan"
  | S754_infinity s => if s then codes "-inf" else codes "inf"
  | _ => PyFloat.json_repr x
  end.

(** [repr(v)], which is also [str(v)] for a list or a dict. *)
Fixpoint repr (v : json) : pystr :=
  match v with
  | JNull => codes "None"
  | JBool b => if b then codes "True" else codes "False"
  | JInt z => PyFloat.dec z
  | JFloat f => repr_float f
  | JStr s => repr_str s
  | JArr l => codes "[" ++ Json.join (codes ", ") (map repr l) ++ codes "]"
  | JObj kvs =>
      codes "{"
      ++ Json.join (codes ", ")
           ((fix items (l : list (pystr * json)) : list pystr :=
               match l with
               | [] => []
               | (k, v) :: l' => (repr_str k ++ codes ": " ++ repr v) :: items l'
               end) kvs)
      ++ codes "}"
  end.

(** The dict that [get_point_data] returns, as a Python value. *)
Definition as_dict (data : PointData) : json :=
  JObj
    [(codes "gldas", JArr (map JFloat (gldas data)));
     (codes "cmip6_models",
      JObj (map (fun md : pystr * list float => (md.1, JArr (map JFloat md.2)))
              (cmip6_models data)));
     (codes "metadata",
      JObj [(codes "lat", md_lat (metadata data));
            (codes "lon", md_lon (metadata data));
            (codes "scenario", JStr (md_scenario (metadata data)));
            (codes "models", JArr (map JStr (md_models (metadata data))))])].

(** [str(data)] in [get_formatted_data(str(data))]. *)
Definition str_data (data : PointData) : pystr := repr (as_dict data).

End Repr.

(** *** The sidebar and the session state *)

(** [current_params]: what the two sliders and the select box return. *)
Definition params : Type := (Z * Z * pystr)%type.

Definition scenarios : list pystr :=
  [codes "ssp126"; codes "ssp245"; codes "ssp370"; codes "ssp585"].

(** The values that the widgets offer: a start year from 2010 to 2020, an
    end year from 2021 to 2050, one of the four scenarios. *)
Definition offered (p : params) : Prop :=
  let '(start_year, end_year, scenario) := p in
  2010 <= start_year <= 2020 /\ 2021 <= end_year <= 2050 /\ In scenario scenarios.

(** [st.session_state]: the analyzer and the parameters it was made for,
    both [None] at first.  [created] counts the analyzer objects made so
    far; a new object takes the count as its identity. *)
Record session_state : Type := {
  ss_analyzer : option TemperatureAnalyzer;
  ss_last_params : option params;
  ss_created : nat
}.

Definition new_session : session_state :=
  {| ss_analyzer := None; ss_last_params := None; ss_created := 0 |}.

(** [TemperatureAnalyzer(start_year, end_year, scenario)] as the script
    calls it.  [__init__] starts with [ee.Initialize()], which raises when
    the client has no credentials or cannot reach the service, and then no
    object is made; [initialize] is the outcome of that call. *)
Definition new_analyzer (initialize : result unit) (id : nat)
    (start_year end_year : Z) (scenario : pystr) : result TemperatureAnalyzer :=
  match initialize with
  | Ok _ => Ok (init id start_year end_year scenario)
  | Raise e => Raise e
  end.

(** The check at the head of every run of the script: a new analyzer is
    made when the parameters differ from the last ones.  An exception of
    [__init__] ends the run before either assignment, and the session
    stays as it was. *)
Definition reinitialize (current_params : params) (initialize : result unit)
    (st : session_state) : result unit * session_state :=
  if decide (ss_last_params st = Some current_params) then (Ok tt, st)
  else
    let '(start_year, end_year, scenario) := current_params in
    match new_analyzer initialize (ss_created st) start_year end_year scenario with
    | Ok analyzer =>
        (Ok tt,
         {| ss_analyzer := Some analyzer;
            ss_last_params := Some current_params;
            ss_created := S (ss_created st) |})
    | Raise e => (Raise e, st)
    end.

(** The session state after a sequence of runs, each with the values of
    the sidebar and the outcome that [ee.Initialize()] has during it. *)
Definition session_after (runs : list (params * result unit)) (st : session_state)
  : session_state :=
  fold_left (fun st run => snd (reinitialize run.1 run.2 st)) runs st.

(** For the statements below: the parameters of an analyzer, and the
    state of a session whose recorded parameters are those of the analyzer
    it holds. *)
Definition params_of (a : TemperatureAnalyzer) : params :=
  (start_year a, end_year a, scenario a).

Definition session_ok (st : session_state) : Prop :=
  forall p, ss_last_params st = Some p ->
    exists a, ss_analyzer st = Some a /\ params_of a = p /\ historical_cutoff a = 2022.

(** *** The formatting step and the statistics *)

Section Formatting.

Variable world : Type.
Variable image : Type.
Variable images_of : world -> ImageCollection -> result (list image).
Variable reduceRegion_mean : image -> Geometry -> Z -> pystr -> result float.
Variable image_date : image -> pystr.
Variable distinct_models : world -> ImageCollection -> result (list pystr).
Variable serve : world -> request -> world.
Variable valid_coordinates : json -> json -> bool.
Variable loads_point_data : pystr -> result PointData.
Variable isprintable : N -> bool.

(** [get_formatted_data(data_str)] under [@st.cache_data]: a stored table
    is returned; otherwise [format_data_for_plotting] runs, under its own
    [lru_cache], and its table is stored.  An exception stores nothing. *)
Definition get_formatted_data
    (analyzer : TemperatureAnalyzer) (data_str : pystr)
    (store : gmap pystr DataFrame) (c : Lru.cache (nat * pystr) DataFrame)
  : result DataFrame * gmap pystr DataFrame * Lru.cache (nat * pystr) DataFrame :=
  match store !! data_str with
  | Some df => (Ok df, store, c)
  | None =>
      match format_data_for_plotting loads_point_data analyzer data_str c with
      | (Ok df, c') => (Ok df, <[data_str := df]> store, c')
      | (Raise e, c') => (Raise e, store, c')
      end
  end.

(** The block under [st.spinner] after a click: the cached retrieval,
    then the formatting of [str(data)]. *)
Definition fetch_and_format
    (analyzer : TemperatureAnalyzer) (lat lon : float) (now : Z)
    (c : st_cache) (store : gmap pystr DataFrame)
    (lru : Lru.cache (nat * pystr) DataFrame) (r : remote world)
  : result DataFrame * st_cache * gmap pystr DataFrame
    * Lru.cache (nat * pystr) DataFrame * remote world :=
  match click images_of reduceRegion_mean image_date distinct_models serve
          valid_coordinates analyzer lat lon now c r with
  | (Ok data, c', r') =>
      let '(df, store', lru') :=
        get_formatted_data analyzer (str_data isprintable data) store lru in
      (df, c', store', lru', r')
  | (Raise e, c', r') => (Raise e, c', store, lru, r')
  end.

End Formatting.

Arguments get_formatted_data _ _ _ _ _ : assert.
Arguments fetch_and_format {world image} _ _ _ _ _ _ _ _ _ _ _ _ _ _ _ _.

(** [cmip6_cols] in [create_plot] and in [calculate_stats]: the columns
    that start with [CMIP6_], do not start with [CMIP6_std] and do not end
    with [mean], [upper] or [lower]. *)
Definition cmip6_cols (df : DataFrame) : list pystr :=
  filter
    (fun col =>
       startswith CMIP6_ col
       && negb (startswith (codes "CMIP6_std") col)
       && negb (existsb (fun suffix => endswith suffix col)
                  [codes "mean"; codes "upper"; codes "lower"]))
    (map fst (columns df)).

(** For the statements below: a model name that the filter of
    [cmip6_cols] lets through. *)
Definition plain_name (m : pystr) : Prop :=
  startswith (codes "std") m = false /\
  endswith (codes "mean") m = false /\
  endswith (codes "upper") m = false /\
  endswith (codes "lower") m = false.

(** [stats['model_count']] in [calculate_stats]. *)
Definition model_count (df : DataFrame) : nat := length (cmip6_cols df).

(** A dataset covers an axis of [n] months when each of its series has
    [n] values or more. *)
Definition covers (n : nat) (raw_data : PointData) : bool :=
  (n <=? length (gldas raw_data))%nat
  && forallb (fun md : pystr * list float => (n <=? length md.2)%nat) (cmip6_models raw_data).

(** For the statements below: two deferred lists that the gateway cannot
    tell apart (the same description, the same value in every state of the
    service), and two items of [cmip6_by_model] with such lists. *)
Definition same_answers {world} (x y : ee_List world float) : Prop :=
  describe x = describe y /\ forall w, evaluate x w = evaluate y w.

Definition same_answers_items {world} (it it' : pystr * ee_List world float) : Prop :=
  it.1 = it'.1 /\ same_answers it.2 it'.2.

(** For the statements below: the order of two items by their keys, as
    [sort_keys] compares them. *)
Definition key_le (a b : pystr * pystr) : Prop := Json.str_leb a.1 b.1 = true.

(** The position of the entry of a key in a cache, counted from the most
    recently used one. *)
Fixpoint position {K V} `{EqDecision K} (k : K) (c : Lru.cache K V) : option nat :=
  match c with
  | [] => None
  | (k', _) :: c' => if decide (k' = k) then Some 0%nat else S <$> position k c'
  end.

(* ===================================================================== *)
(** ** Tables as objects                                                  *)
(* ===================================================================== *)

(** A DataFrame is a mutable object, and [lru_cache] hands the object that
    it stored to every caller.  Here the frames made so far live in a
    heap, in the order of their creation; a reference is a position in the
    heap, and the cache of [format_data_for_plotting] holds references. *)
Definition ref : Type := nat.

Definition heap : Type := list DataFrame.

(** The frame behind a reference. *)
Definition frame_at (h : heap) (df : ref) : DataFrame :=
  nth df h {| nrows := 0; columns := [] |}.

(** The typed reading of a decoded dataset: the value that [json.loads]
    gives for the JSON text of the dict that [get_point_data] returns. *)
Fixpoint all_some {A} (l : list (option A)) : option (list A) :=
  match l with
  | [] => Some []
  | None :: _ => None
  | Some a :: l' =>
      match all_some l' with
      | Some r => Some (a :: r)
      | None => None
      end
  end.

Definition float_of (v : json) : option float :=
  match v with JFloat f => Some f | _ => None end.

Definition str_of (v : json) : option pystr :=
  match v with JStr s => Some s | _ => None end.

Definition floats_of (v : json) : option (list float) :=
  match v with JArr l => all_some (map float_of l) | _ => None end.

Definition series_of (v : json) : option (list (pystr * list float)) :=
  match v with
  | JObj kvs =>
      all_some
        (map (fun kv : pystr * json =>
                match floats_of kv.2 with
                | Some l => Some (kv.1, l)
                | None => None
                end) kvs)
  | _ => None
  end.

Definition metadata_of (v : json) : option Metadata :=
  match v with
  | JObj kvs =>
      match dict_get (codes "lat") kvs, dict_get (codes "lon") kvs,
            dict_get (codes "scenario") kvs, dict_get (codes "models") kvs with
      | Some lat, Some lon, Some (JStr s), Some (JArr ms) =>
          match all_some (map str_of ms) with
          | Some models =>
              Some {| md_lat := lat; md_lon := lon; md_scenario := s; md_models := models |}
          | None => None
          end
      | _, _, _, _ => None
      end
  | _ => None
  end.

Definition point_data_of (v : json) : option PointData :=
  match v with
  | JObj kvs =>
      match dict_get (codes "gldas") kvs, dict_get (codes "cmip6_models") kvs,
            dict_get (codes "metadata") kvs with
      | Some g, Some ms, Some md =>
          match floats_of g, series_of ms, metadata_of md with
          | Some g', Some ms', Some md' =>
              Some {| gldas := g'; cmip6_models := ms'; metadata := md' |}
          | _, _, _ => None
          end
      | _, _, _ => None
      end
  | _ => None
  end.

(** [json.loads] followed by the typed reading, for the concrete runs.
    These call the method on texts of point datasets and on texts that are
    not JSON.  For a JSON value of another shape the construction depends
    on how pandas reads mixed and non-numeric columns, which is not
    modelled; this decoder answers such a value with TypeError. *)
Definition loads_dataset (data_key : pystr) : result PointData :=
  match Json.loads data_key with
  | Raise e => Raise e
  | Ok v =>
      match point_data_of v with
      | Some raw_data => Ok raw_data
      | None => Raise TypeError
      end
  end.

Section TableObjects.

(** The typed reading of [json.loads(data_key)], as in the section on
    memoisation. *)
Variable loads_point_data : pystr -> result PointData.

(** State and exceptions: a program runs on the heap. *)
Definition prog (A : Type) : Type := heap -> result A * heap.

Definition pret {A} (a : A) : prog A := fun h => (Ok a, h).

Definition pbind {A B} (m : prog A) (k : A -> prog B) : prog B :=
  fun h =>
    match m h with
    | (Ok a, h') => k a h'
    | (Raise e, h') => (Raise e, h')
    end.

Definition plift {A} (x : result A) : prog A := fun h => (x, h).

(** A read of the heap. *)
Definition pread {A} (f : heap -> A) : prog A := fun h => (Ok (f h), h).

Notation "'let!' x ':=' m 'in' k" := (pbind m (fun x => k))
  (at level 10, x name, m at level 100, k at level 200).

(** [pd.DataFrame({'date': dates, name: values})]: a new object. *)
Definition new_DataFrame (dates : list (Z * Z)) (name : pystr) (values : list float)
  : prog ref :=
  fun h =>
    match DataFrame_of_dates dates name values with
    | Ok t => (Ok (length h), h ++ [t])
    | Raise e => (Raise e, h)
    end.

(** [df[name] = values]: the object [df] is changed in place. *)
Definition setitem_at (df : ref) (name : pystr) (values : list float) : prog unit :=
  fun h =>
    match setitem (frame_at h df) name values with
    | Ok t => (Ok tt, <[df := t]> h)
    | Raise e => (Raise e, h)
    end.

(** [for model, data in raw_data['cmip6_models'].items():
      df[f'CMIP6_{model}'] = data[:len(dates)]]. *)
Fixpoint add_models_at (n : nat) (df : ref) (items : list (pystr * list float))
  : prog unit :=
  match items with
  | [] => pret tt
  | (model, data) :: items' =>
      let! u := setitem_at df (CMIP6_ ++ model) (firstn n data) in
      add_models_at n df items'
  end.

(** [format_data_for_plotting] from the line after [json.loads] on,
    statement by statement: one frame is made, and every later statement
    writes into it. *)
Definition build_table (self : TemperatureAnalyzer) (raw_data : PointData) : prog ref :=
  let! dates := plift (date_range_months (start_year self) (end_year self)) in
  let n := length dates in
  let! df := new_DataFrame dates (codes "GLDAS") (firstn n (gldas raw_data)) in
  let! u := add_models_at n df (cmip6_models raw_data) in
  let! cmip6_cols :=
    pread (fun h => filter (startswith CMIP6_) (map fst (columns (frame_at h df)))) in
  let! mean := pread (fun h => mean_axis1 (frame_at h df) cmip6_cols) in
  let! u := setitem_at df (codes "CMIP6_mean") mean in
  let! std := pread (fun h => std_axis1 (frame_at h df) cmip6_cols) in
  let! u := setitem_at df (codes "CMIP6_std") std in
  let! upper :=
    pread (fun h => plus_twice (getitem (frame_at h df) (codes "CMIP6_mean"))
                      (getitem (frame_at h df) (codes "CMIP6_std"))) in
  let! u := setitem_at df (codes "CMIP6_upper") upper in
  let! lower :=
    pread (fun h => minus_twice (getitem (frame_at h df) (codes "CMIP6_mean"))
                      (getitem (frame_at h df) (codes "CMIP6_std"))) in
  let! u := setitem_at df (codes "CMIP6_lower") lower in
  pret df.

(** The undecorated [format_data_for_plotting] on the heap. *)
Definition format_data_for_plotting_steps (self : TemperatureAnalyzer) (data_key : pystr)
  : prog ref :=
  let! raw_data := plift (loads_point_data data_key) in
  build_table self raw_data.

(** [format_data_for_plotting] under [@lru_cache(maxsize=128)], on the
    heap.  A hit returns the reference that the cache holds: the caller
    gets the object that earlier callers were given. *)
Definition format_data_for_plotting_at
    (self : TemperatureAnalyzer) (data_key : pystr)
    (c : Lru.cache (nat * pystr) ref) (h : heap)
  : result ref * Lru.cache (nat * pystr) ref * heap :=
  Lru.call 128 (fun _ => format_data_for_plotting_steps self data_key)
    (ident self, data_key) c h.

(** The cache and the heap after a sequence of calls. *)
Fixpoint tables_after (calls : list (TemperatureAnalyzer * pystr))
    (s : Lru.cache (nat * pystr) ref * heap) : Lru.cache (nat * pystr) ref * heap :=
  match calls with
  | [] => s
  | (self, data_key) :: calls' =>
      let out := format_data_for_plotting_at self data_key s.1 s.2 in
      tables_after calls' (out.1.2, out.2)
  end.

(** For the statements below: the cache and the heap agree with the
    construction when every reference in the cache lies in the heap, the
    frame behind the reference of an analyzer and a text is the table that
    the construction gives for them, and no two entries hold the same
    reference. *)
Definition tables_ok (objs : list TemperatureAnalyzer)
    (s : Lru.cache (nat * pystr) ref * heap) : Prop :=
  (forall k df, Lru.lookup k s.1 = Some df -> (df < length s.2)%nat) /\
  (forall self key df,
     In self objs -> Lru.lookup (ident self, key) s.1 = Some df ->
     exists t, s.2 !! df = Some t /\
               format_data_for_plotting_body loads_point_data self key = Ok t) /\
  (forall k1 k2 df,
     Lru.lookup k1 s.1 = Some df -> Lru.lookup k2 s.1 = Some df -> k1 = k2).

End TableObjects.

(* ===================================================================== *)
(** * Theorems                                                            *)
(* ===================================================================== *)

(** Closed conjunctions of equations are settled by evaluation. *)
Ltac by_evaluation :=
  intros; repeat match goal with |- _ /\ _ => split end; vm_compute; reflexivity.

(** ** Test vectors *)

(** RFC 1321, appendix A.5. *)
Example md5_empty :
  MD5.hexdigest (encode (codes "")) = codes "d41d8cd98f00b204e9800998ecf8427e".
Proof. vm_compute. reflexivity. Qed.

Example md5_abc :
  MD5.hexdigest (encode (codes "abc")) = codes "900150983cd24fb0d6963f7d28e17f72".
Proof. vm_compute. reflexivity. Qed.

Example md5_digits :
  MD5.hexdigest
    (encode (codes "12345678901234567890123456789012345678901234567890123456789012345678901234567890"))
  = codes "57edf4a22be3c955ac49da2e2107b67a".
Proof. vm_compute. reflexivity. Qed.

(** The text that is hashed for a click at (40.00004, -105.0) under the
    given settings: sorted keys, coordinates rounded to four decimals. *)
Example key_text :
  Json.dumps
    (JObj [(codes "lat", JFloat (PyFloat.round 40.00004 4));
           (codes "lon", JFloat (PyFloat.round (-105) 4));
           (codes "start_year", JInt 2010); (codes "end_year", JInt 2012);
           (codes "scenario", JStr (codes "ssp585"))])
  = [123; 34; 101; 110; 100; 95; 121; 101; 97; 114; 34; 58; 32; 50; 48; 49; 50; 44; 32;
     34; 108; 97; 116; 34; 58; 32; 52; 48; 46; 48; 44; 32;
     34; 108; 111; 110; 34; 58; 32; 45; 49; 48; 53; 46; 48; 44; 32;
     34; 115; 99; 101; 110; 97; 114; 105; 111; 34; 58; 32; 34; 115; 115; 112; 53; 56; 53; 34; 44; 32;
     34; 115; 116; 97; 114; 116; 95; 121; 101; 97; 114; 34; 58; 32; 50; 48; 49; 48; 125]%N.
Proof. vm_compute. reflexivity. Qed.

Example round_half_even :
  PyFloat.json_repr (PyFloat.round 2.675 2) = codes "2.67" /\
  PyFloat.json_repr (PyFloat.round 0.00005 4) = codes "0.0001" /\
  PyFloat.json_repr (PyFloat.round (-0.00001) 4) = codes "-0.0" /\
  PyFloat.json_repr 1e16 = codes "1e+16" /\
  PyFloat.json_repr 0.1 = codes "0.1".
Proof. by_evaluation. Qed.

Example sample_statistics :
  nanmean [10; 20; 30]%float = 20%float /\
  nanstd [10; 20; 30]%float = 10%float /\
  nanmean [10; nan; 30]%float = 20%float /\
  nanstd [10]%float = nan /\
  nanmean [] = nan.
Proof. by_evaluation. Qed.

(** Of two decimals of seventeen digits at the same distance, [repr]
    takes the even one. *)
Example repr_tie :
  PyFloat.json_repr 2.92742156982421875 = codes "2.9274215698242188".
Proof. vm_compute. reflexivity. Qed.

(** Ten values, one of them far from the others: the order of the
    additions shows in the last digits.  A row of negative zeros has the
    mean 0.0. *)
Example pairwise_statistics :
  nanmean (1e16 :: repeat 1 9)%float = 1000000000000000.8%float /\
  nanstd (1e16 :: repeat 1 9)%float = 3162277660168379.5%float /\
  Prim2SF (nanmean [-0; -0]%float) = S754_zero false.
Proof. by_evaluation. Qed.

(** ** Dictionaries *)

Lemma dict_set_In {V} (k : pystr) (v : V) d k' v' :
  In (k', v') (dict_set k v d) -> (k' = k /\ v' = v) \/ In (k', v') d.
Proof.
  induction d as [|[k0 v0] d IH]; simpl.
  - intros [H|[]]. inversion H. auto.
  - destruct (decide (k0 = k)); simpl; intros [H|H].
    + inversion H. auto.
    + auto.
    + auto.
    + destruct (IH H) as [?|?]; auto.
Qed.

Lemma dict_set_keys {V} (k : pystr) (v : V) d k' :
  In k' (map fst (dict_set k v d)) <-> k' = k \/ In k' (map fst d).
Proof.
  induction d as [|[k0 v0] d IH]; simpl.
  - intuition.
  - destruct (decide (k0 = k)); simpl.
    + subst. intuition.
    + rewrite IH. intuition.
Qed.

Lemma dict_set_NoDup {V} (k : pystr) (v : V) d :
  List.NoDup (map fst d) -> List.NoDup (map fst (dict_set k v d)).
Proof.
  induction d as [|[k0 v0] d IH]; simpl; intros H.
  - constructor; [intros []|constructor].
  - inversion H as [|? ? Hnin Hnd]; subst.
    destruct (decide (k0 = k)); simpl.
    + subst. constructor; assumption.
    + constructor; [|auto].
      rewrite dict_set_keys. intros [?|?]; [congruence|contradiction].
Qed.

Lemma dict_get_set_eq {V} (k : pystr) (v : V) d : dict_get k (dict_set k v d) = Some v.
Proof.
  induction d as [|[k0 v0] d IH]; simpl.
  - destruct (decide (k = k)); congruence.
  - destruct (decide (k0 = k)) as [->|Hne]; simpl.
    + destruct (decide (k = k)); congruence.
    + destruct (decide (k0 = k)); congruence.
Qed.

Lemma dict_get_set_ne {V} (k k' : pystr) (v : V) d :
  k' <> k -> dict_get k' (dict_set k v d) = dict_get k' d.
Proof.
  intros Hne. induction d as [|[k0 v0] d IH]; simpl.
  - destruct (decide (k = k')); congruence.
  - destruct (decide (k0 = k)) as [->|Hne0]; simpl.
    + destruct (decide (k = k')); congruence.
    + destruct (decide (k0 = k')); congruence.
Qed.

Lemma dict_get_In {V} (k : pystr) (v : V) d : dict_get k d = Some v -> In (k, v) d.
Proof.
  induction d as [|[k0 v0] d IH]; simpl; [discriminate|].
  destruct (decide (k0 = k)) as [->|Hne]; intros H.
  - inversion H. auto.
  - auto.
Qed.

Lemma dict_get_None {V} (k : pystr) (d : list (pystr * V)) :
  dict_get k d = None <-> ~ In k (map fst d).
Proof.
  induction d as [|[k0 v0] d IH]; simpl.
  - intuition.
  - destruct (decide (k0 = k)) as [->|Hne].
    + split; [discriminate|]. intros H. exfalso. auto.
    + rewrite IH. intuition.
Qed.

(** ** Retrieval *)

Section RetrievalFacts.

Context {world image : Type}.
Context (images_of : world -> ImageCollection -> result (list image)).
Context (reduceRegion_mean : image -> Geometry -> Z -> pystr -> result float).
Context (image_date : image -> pystr).
Context (distinct_models : world -> ImageCollection -> result (list pystr)).
Context (serve : world -> request -> world).
Context (valid_coordinates : json -> json -> bool).

Local Abbreviation monthly :=
  (_calculate_monthly_average images_of reduceRegion_mean image_date).
Local Abbreviation fetch :=
  (get_point_data images_of reduceRegion_mean image_date
     distinct_models serve valid_coordinates).
Local Abbreviation fetch_items := (getInfo_items serve).
Local Abbreviation raw_readings := (raw_readings images_of reduceRegion_mean).
Local Abbreviation by_model := (by_model images_of reduceRegion_mean image_date).

Lemma mapM_monthly_reducer p band imgs :
  (let? feats := mapM (monthly_reducer reduceRegion_mean image_date p band) imgs in
   Ok (map temperature feats))%result
  = (let? raws := mapM (fun img => reduceRegion_mean img p 25000 band) imgs in
     Ok (map kelvin_to_celsius raws))%result.
Proof.
  induction imgs as [|img imgs IH]; simpl; [reflexivity|].
  unfold monthly_reducer at 1. simpl.
  destruct (reduceRegion_mean img p 25000 band) as [value|e]; simpl; [|reflexivity].
  simpl in IH.
  destruct (mapM (monthly_reducer reduceRegion_mean image_date p band) imgs);
    destruct (mapM (fun img0 => reduceRegion_mean img0 p 25000 band) imgs);
    simpl in *; congruence.
Qed.

(** What the service computes for a monthly-average request: the raw
    readings, each with 273.15 subtracted. *)
Lemma evaluate_monthly w c p band :
  evaluate (monthly c p band) w
  = (let? raws := raw_readings w c p band in Ok (map kelvin_to_celsius raws))%result.
Proof.
  unfold raw_readings. simpl.
  destruct (images_of w c) as [imgs|e]; simpl; [|reflexivity].
  apply mapM_monthly_reducer.
Qed.

Lemma getInfo_items_spec items r res r' :
  fetch_items items r = (Ok res, r') ->
  map fst res = map fst items /\
  forall m v, In (m, v) res ->
    exists x w, In (m, x) items /\ evaluate x w = Ok v.
Proof.
  revert r res r'. induction items as [|[m0 x0] items IH]; simpl; intros r res r' H.
  - inversion H. split; [reflexivity|]. intros ? ? [].
  - unfold bind, getInfo in H. simpl in H.
    destruct (evaluate x0 (service r)) as [v0|e] eqn:Hv; [|discriminate].
    destruct (fetch_items items _) as [[rest|e] r1] eqn:Hrest; [|discriminate].
    inversion H; subst. destruct (IH _ _ _ Hrest) as [Hk Hv'].
    split; [simpl; congruence|].
    intros m v [Heq|Hin].
    + inversion Heq; subst. eauto.
    + destruct (Hv' _ _ Hin) as (x & w & ? & ?). eauto 6.
Qed.

Lemma getInfo_items_sent items r res r' :
  fetch_items items r = (res, r') ->
  exists reqs, sent r' = reqs ++ sent r /\ (length reqs <= length items)%nat /\
    (forall v, res = Ok v -> length reqs = length items).
Proof.
  revert r res r'. induction items as [|[m0 x0] items IH]; simpl; intros r res r' H.
  - inversion H. exists []. repeat split; auto.
  - unfold bind, getInfo in H. simpl in H.
    destruct (evaluate x0 (service r)) as [v0|e] eqn:Hv.
    + destruct (fetch_items items _) as [[rest|e] r1] eqn:Hrest.
      * inversion H; subst. destruct (IH _ _ _ Hrest) as (reqs & Hs & Hl & Hok).
        exists (reqs ++ [describe x0]). simpl in Hs. rewrite Hs.
        rewrite <- app_assoc. simpl. repeat split; auto.
        -- rewrite length_app. simpl. lia.
        -- intros. rewrite length_app. simpl. rewrite (Hok rest eq_refl). lia.
      * inversion H; subst. destruct (IH _ _ _ Hrest) as (reqs & Hs & Hl & Hok).
        exists (reqs ++ [describe x0]). simpl in Hs. rewrite Hs.
        rewrite <- app_assoc. simpl. repeat split; auto.
        -- rewrite length_app. simpl. lia.
        -- discriminate.
    + inversion H; subst. exists [describe x0]. simpl. repeat split; auto.
      * lia.
      * discriminate.
Qed.

Lemma fold_dict_set_keys {V} (f : pystr -> V) models d m :
  In m (map fst (fold_left (fun d model => dict_set model (f model) d) models d))
  <-> In m models \/ In m (map fst d).
Proof.
  revert d. induction models as [|x models IH]; simpl; intros d.
  - intuition.
  - rewrite IH, dict_set_keys. intuition.
Qed.

Lemma fold_dict_set_NoDup {V} (f : pystr -> V) models d :
  List.NoDup (map fst d) ->
  List.NoDup (map fst (fold_left (fun d model => dict_set model (f model) d) models d)).
Proof.
  revert d. induction models as [|x models IH]; simpl; intros d H; [assumption|].
  apply IH, dict_set_NoDup, H.
Qed.

Lemma fold_dict_set_values {V} (f : pystr -> V) models d m x :
  In (m, x) (fold_left (fun d model => dict_set model (f model) d) models d) ->
  x = f m \/ In (m, x) d.
Proof.
  revert d. induction models as [|y models IH]; simpl; intros d H; [auto|].
  destruct (IH _ H) as [?|Hin]; [auto|].
  destruct (dict_set_In _ _ _ _ _ Hin) as [[-> ->]|?]; auto.
Qed.

(** The shape of a successful [get_point_data]. *)
Lemma get_point_data_inv self lat lon r d r' :
  fetch self lat lon r = (Ok d, r') ->
  exists models r1 r2,
    let point := Point (JFloat lon) (JFloat lat) in
    valid_coordinates (JFloat lon) (JFloat lat) = true /\
    distinct_models (service r) (filtered_cmip6 self) = Ok models /\
    r1 = Remote (serve (service r) (AggregateModels (filtered_cmip6 self)))
           (AggregateModels (filtered_cmip6 self) :: sent r) /\
    evaluate (monthly (filterBounds point (filtered_gldas self)) point (codes "Tair_f_inst"))
      (service r1) = Ok (gldas d) /\
    r2 = Remote
           (serve (service r1)
              (AggregateTemperature (filterBounds point (filtered_gldas self)) (codes "Tair_f_inst")))
           (AggregateTemperature (filterBounds point (filtered_gldas self)) (codes "Tair_f_inst")
            :: sent r1) /\
    fetch_items (by_model self point models) r2 = (Ok (cmip6_models d), r') /\
    metadata d = {| md_lat := JFloat lat; md_lon := JFloat lon;
                    md_scenario := scenario self; md_models := models |}.
Proof.
  unfold get_point_data, bind, lift, ee_Geometry_Point, getInfo, ret.
  cbn [evaluate describe service sent aggregate_models].
  intros H.
  destruct (valid_coordinates (JFloat lon) (JFloat lat)) eqn:Hvalid; [|discriminate].
  destruct (distinct_models (service r) (filtered_cmip6 self)) as [models|e] eqn:Hm;
    [|discriminate].
  match type of H with
  | context [evaluate ?x ?w] =>
      destruct (evaluate x w) as [g|e] eqn:Hg; [|discriminate]
  end.
  match type of H with
  | context [getInfo_items serve ?items ?r2] =>
      destruct (getInfo_items serve items r2) as [[ms|e] r3] eqn:Hms; [|discriminate]
  end.
  inversion H; subst; clear H.
  eexists models, _, _. cbn zeta. cbn [gldas cmip6_models metadata service sent].
  repeat split; try reflexivity; try assumption.
Qed.

End RetrievalFacts.

(** ** The aggregator *)

Lemma setitem_inv df name v df' :
  setitem df name v = Ok df' ->
  length v = nrows df /\
  df' = {| nrows := nrows df; columns := dict_set name (FloatCol v) (columns df) |}.
Proof.
  unfold setitem. destruct (decide (length v = nrows df)); [|discriminate].
  intros H. inversion H. auto.
Qed.

Lemma setitem_ok df name v :
  length v = nrows df ->
  setitem df name v
  = Ok {| nrows := nrows df; columns := dict_set name (FloatCol v) (columns df) |}.
Proof.
  intros H. unfold setitem. destruct (decide (length v = nrows df)); [reflexivity|contradiction].
Qed.

Lemma getitem_set_eq df name v :
  getitem {| nrows := nrows df; columns := dict_set name (FloatCol v) (columns df) |} name = v.
Proof. unfold getitem. simpl. rewrite dict_get_set_eq. reflexivity. Qed.

Lemma getitem_set_ne n n' cols name name' v :
  name' <> name ->
  getitem {| nrows := n; columns := dict_set name (FloatCol v) cols |} name'
  = getitem {| nrows := n'; columns := cols |} name'.
Proof. intros H. unfold getitem. simpl. rewrite dict_get_set_ne by assumption. reflexivity. Qed.

Lemma length_mean_axis1 df names : length (mean_axis1 df names) = nrows df.
Proof. unfold mean_axis1, rows. rewrite !length_map, length_seq. reflexivity. Qed.

Lemma length_std_axis1 df names : length (std_axis1 df names) = nrows df.
Proof. unfold std_axis1, rows. rewrite !length_map, length_seq. reflexivity. Qed.

Lemma length_plus_twice a b : length a = length b -> length (plus_twice a b) = length a.
Proof.
  intros H. unfold plus_twice. rewrite length_map, length_combine. lia.
Qed.

Lemma length_minus_twice a b : length a = length b -> length (minus_twice a b) = length a.
Proof.
  intros H. unfold minus_twice. rewrite length_map, length_combine. lia.
Qed.

Lemma add_models_inv n df items df' :
  add_models n df items = Ok df' ->
  Forall (fun md => length (firstn n md.2) = nrows df) items /\
  df' = {| nrows := nrows df; columns := model_columns n items (columns df) |}.
Proof.
  revert df. induction items as [|[m data] items IH]; cbn [add_models]; intros df H.
  - inversion H. split; [constructor|]. destruct df'; reflexivity.
  - destruct (setitem df (CMIP6_ ++ m) (firstn n data)) as [df1|e] eqn:Hs; [|discriminate].
    apply setitem_inv in Hs. destruct Hs as [Hl ->].
    apply IH in H. destruct H as [Hall ->]. simpl in *.
    split; [constructor; assumption|reflexivity].
Qed.

Lemma add_models_ok n df items :
  Forall (fun md => length (firstn n md.2) = nrows df) items ->
  add_models n df items
  = Ok {| nrows := nrows df; columns := model_columns n items (columns df) |}.
Proof.
  revert df. induction items as [|[m data] items IH]; cbn [add_models]; intros df H.
  - destruct df; reflexivity.
  - inversion H as [|? ? Hl Hall]; subst. simpl in Hl.
    rewrite setitem_ok by assumption. rewrite IH by assumption. reflexivity.
Qed.

Lemma add_models_short n df items m data :
  In (m, data) items -> length (firstn n data) <> nrows df ->
  exists e, add_models n df items = Raise e.
Proof.
  revert df. induction items as [|[m0 data0] items IH]; cbn [add_models]; intros df Hin Hl; [contradiction|].
  unfold setitem at 1.
  destruct (decide (length (firstn n data0) = nrows df)) as [Heq|Hne]; [|eauto].
  destruct Hin as [Hin|Hin].
  - inversion Hin; subst. contradiction.
  - apply IH; assumption.
Qed.

Lemma format_raw_data_ok self raw_data dates :
  date_range_months (start_year self) (end_year self) = Ok dates ->
  (length dates <= length (gldas raw_data))%nat ->
  Forall (fun md => length dates <= length md.2)%nat (cmip6_models raw_data) ->
  format_raw_data self raw_data = Ok (aggregated dates raw_data).
Proof.
  intros Hd Hg Hm. unfold format_raw_data. rewrite Hd. cbn [rbind].
  unfold DataFrame_of_dates.
  destruct (decide (length (firstn (length dates) (gldas raw_data)) = length dates)) as [_|Hne];
    [|rewrite length_firstn in Hne; lia].
  cbn [rbind]. rewrite add_models_ok.
  2:{ cbn [nrows]. eapply Forall_impl; [|exact Hm]. intros md H. cbn beta in *.
      rewrite length_firstn. lia. }
  cbn [rbind nrows columns].
  rewrite setitem_ok by apply length_mean_axis1. cbn [rbind nrows columns].
  rewrite setitem_ok by apply length_std_axis1. cbn [rbind nrows columns].
  set (cols1 := model_columns _ _ _).
  set (cmip6_cols := filter _ _).
  set (m := mean_axis1 _ _).
  set (cols2 := dict_set (codes "CMIP6_mean") _ _).
  set (sd := std_axis1 _ _).
  assert (Hm' : length m = length dates) by apply length_mean_axis1.
  assert (Hsd : length sd = length dates) by apply length_std_axis1.
  assert (Hgm : forall n,
             getitem {| nrows := n; columns := dict_set (codes "CMIP6_std") (FloatCol sd) cols2 |}
               (codes "CMIP6_mean") = m).
  { intros. rewrite (getitem_set_ne _ (length dates)) by (vm_compute; discriminate).
    apply (getitem_set_eq {| nrows := length dates; columns := cols1 |}). }
  assert (Hgs : forall n,
             getitem {| nrows := n; columns := dict_set (codes "CMIP6_std") (FloatCol sd) cols2 |}
               (codes "CMIP6_std") = sd).
  { intros. apply (getitem_set_eq {| nrows := n; columns := cols2 |}). }
  rewrite Hgm, Hgs.
  rewrite setitem_ok by (cbn [nrows]; rewrite length_plus_twice; lia).
  cbn [rbind nrows columns].
  rewrite (getitem_set_ne _ (length dates) _ (codes "CMIP6_upper") (codes "CMIP6_mean"))
    by (vm_compute; discriminate).
  rewrite (getitem_set_ne (length dates) (length dates) _ (codes "CMIP6_upper") (codes "CMIP6_std"))
    by (vm_compute; discriminate).
  rewrite Hgm, Hgs.
  rewrite setitem_ok by (cbn [nrows]; rewrite length_minus_twice; lia).
  reflexivity.
Qed.

Lemma format_raw_data_inv self raw_data t :
  format_raw_data self raw_data = Ok t ->
  exists dates,
    date_range_months (start_year self) (end_year self) = Ok dates /\
    (length dates <= length (gldas raw_data))%nat /\
    Forall (fun md => length dates <= length md.2)%nat (cmip6_models raw_data) /\
    t = aggregated dates raw_data.
Proof.
  intros H. pose proof H as H'. unfold format_raw_data in H'.
  destruct (date_range_months (start_year self) (end_year self)) as [dates|e] eqn:Hd;
    [|discriminate].
  cbn [rbind] in H'. unfold DataFrame_of_dates in H'.
  destruct (decide (length (firstn (length dates) (gldas raw_data)) = length dates)) as [Hg|_];
    [|discriminate].
  cbn [rbind] in H'.
  match type of H' with
  | context [add_models ?n ?df ?items] =>
      destruct (add_models n df items) as [df1|e] eqn:Ha; [|discriminate]
  end.
  apply add_models_inv in Ha. destruct Ha as [Hall _]. cbn [nrows] in Hall.
  assert (Hg' : (length dates <= length (gldas raw_data))%nat).
  { rewrite length_firstn in Hg. lia. }
  assert (Hm : Forall (fun md => length dates <= length md.2)%nat (cmip6_models raw_data)).
  { eapply Forall_impl; [|exact Hall]. intros md Hl. cbn beta in *.
    rewrite length_firstn in Hl. lia. }
  exists dates. repeat split; try assumption.
  rewrite (format_raw_data_ok self raw_data dates Hd Hg' Hm) in H.
  inversion H. reflexivity.
Qed.

Lemma startswith_app p s : startswith p (p ++ s) = true.
Proof.
  induction p as [|c p IH]; simpl; [reflexivity|].
  rewrite N.eqb_refl, IH. reflexivity.
Qed.

Lemma model_columns_In n items cols name c :
  In (name, c) (model_columns n items cols) ->
  In (name, c) cols \/
  exists m data, In (m, data) items /\ name = CMIP6_ ++ m /\ c = FloatCol (firstn n data).
Proof.
  unfold model_columns. revert cols.
  induction items as [|[m data] items IH]; simpl; intros cols H; [auto|].
  destruct (IH _ H) as [Hin|(m' & data' & ? & ? & ?)].
  - destruct (dict_set_In _ _ _ _ _ Hin) as [[-> ->]|?]; [|auto].
    right. exists m, data. auto.
  - right. exists m', data'. auto.
Qed.

Lemma model_columns_get_other n items cols name :
  startswith CMIP6_ name = false ->
  dict_get name (model_columns n items cols) = dict_get name cols.
Proof.
  intros Hn. unfold model_columns. revert cols.
  induction items as [|[m data] items IH]; cbn [fold_left]; intros cols; [reflexivity|].
  rewrite IH. apply dict_get_set_ne.
  intros Heq. rewrite Heq in Hn. cbn [fst] in Hn.
  rewrite startswith_app in Hn. discriminate.
Qed.

(** The historical column of the table is the historical series, cut to
    the axis. *)
Lemma aggregated_GLDAS dates raw_data :
  getitem (aggregated dates raw_data) (codes "GLDAS")
  = firstn (length dates) (gldas raw_data).
Proof.
  unfold aggregated, getitem. cbn [columns].
  rewrite !dict_get_set_ne by (vm_compute; discriminate).
  rewrite model_columns_get_other by reflexivity.
  reflexivity.
Qed.

(** Every float column of the table other than the four statistics holds
    a series of the dataset, cut to the axis and otherwise untouched. *)
Lemma aggregated_verbatim dates raw_data name v :
  In (name, FloatCol v) (columns (aggregated dates raw_data)) ->
  ~ In name stat_names ->
  (name = codes "GLDAS" /\ v = firstn (length dates) (gldas raw_data)) \/
  exists m data,
    In (m, data) (cmip6_models raw_data) /\ name = CMIP6_ ++ m /\
    v = firstn (length dates) data.
Proof.
  unfold aggregated. cbn [columns]. intros Hin Hns.
  repeat match type of Hin with
  | In _ (dict_set ?k _ _) =>
      apply dict_set_In in Hin; destruct Hin as [[-> _]|Hin];
      [exfalso; apply Hns; unfold stat_names; simpl; tauto|]
  end.
  apply model_columns_In in Hin. destruct Hin as [Hin|(m & data & ? & ? & Heq)].
  - simpl in Hin. destruct Hin as [Hin|[Hin|[]]]; [discriminate|].
    inversion Hin. auto.
  - inversion Heq. right. eauto.
Qed.

(** ** Claims about retrieval *)

Section RetrievalClaims.

Context {world image : Type}.
Context (images_of : world -> ImageCollection -> result (list image)).
Context (reduceRegion_mean : image -> Geometry -> Z -> pystr -> result float).
Context (image_date : image -> pystr).
Context (distinct_models : world -> ImageCollection -> result (list pystr)).
Context (serve : world -> request -> world).
Context (valid_coordinates : json -> json -> bool).

Local Abbreviation fetch :=
  (get_point_data images_of reduceRegion_mean image_date
     distinct_models serve valid_coordinates).
Local Abbreviation raw_readings := (raw_readings images_of reduceRegion_mean).

(** C10: after a successful [get_point_data], the identifiers listed in
    [metadata['models']] are exactly the keys of [cmip6_models], no key
    occurs twice, and every listed model has its series. *)
Theorem metadata_models_match_series self lat lon r d r' :
  fetch self lat lon r = (Ok d, r') ->
  (forall m, In m (md_models (metadata d)) <-> In m (map fst (cmip6_models d))) /\
  List.NoDup (map fst (cmip6_models d)) /\
  (forall m, In m (md_models (metadata d)) ->
     exists series, dict_get m (cmip6_models d) = Some series).
Proof.
  intros H. apply get_point_data_inv in H.
  destruct H as (models & r1 & r2 & _ & _ & _ & _ & _ & Hitems & Hmeta).
  apply getInfo_items_spec in Hitems. destruct Hitems as [Hkeys _].
  rewrite Hmeta. cbn [md_models]. rewrite Hkeys.
  assert (Hiff : forall m,
             In m models <->
             In m (map fst (by_model images_of reduceRegion_mean image_date self
                              (Point (JFloat lon) (JFloat lat)) models))).
  { intros m. unfold by_model. rewrite fold_dict_set_keys. simpl. tauto. }
  split; [exact Hiff|]. split.
  - apply fold_dict_set_NoDup. constructor.
  - intros m Hm.
    destruct (dict_get m (cmip6_models d)) as [series|] eqn:Hget; [eauto|].
    apply dict_get_None in Hget. exfalso. apply Hget.
    rewrite Hkeys. apply Hiff, Hm.
Qed.

(** C2: the gateway values are moved from Kelvin to Celsius by
    [kelvin_to_celsius], which sends 273.15 to 0.0 and 298.15 to 25.0; the
    series that [get_point_data] returns are the raw readings with this
    subtraction applied to each, and the table built from them carries the
    series unchanged: its historical column and every column that is not
    one of the four statistics are a returned series cut to the axis. *)
Theorem kelvin_converted_once self lat lon r d r' t :
  fetch self lat lon r = (Ok d, r') ->
  format_raw_data self d = Ok t ->
  let point := Point (JFloat lon) (JFloat lat) in
  (kelvin_to_celsius 273.15 = 0%float /\ kelvin_to_celsius 298.15 = 25%float) /\
  (exists w raws,
     raw_readings w (filterBounds point (filtered_gldas self)) point (codes "Tair_f_inst")
     = Ok raws /\
     gldas d = map kelvin_to_celsius raws /\
     getitem t (codes "GLDAS") = firstn (nrows t) (map kelvin_to_celsius raws)) /\
  (forall m series, In (m, series) (cmip6_models d) ->
     exists w raws,
       raw_readings w
         (filterBounds point (filter_eq (codes "model") m (filtered_cmip6 self)))
         point (codes "tas") = Ok raws /\
       series = map kelvin_to_celsius raws) /\
  (forall name v, In (name, FloatCol v) (columns t) -> ~ In name stat_names ->
     (name = codes "GLDAS" /\ v = firstn (nrows t) (gldas d)) \/
     exists m series,
       In (m, series) (cmip6_models d) /\ name = CMIP6_ ++ m /\
       v = firstn (nrows t) series).
Proof.
  intros H Ht point.
  apply get_point_data_inv in H.
  destruct H as (models & r1 & r2 & _ & _ & _ & Hg & _ & Hitems & _).
  apply format_raw_data_inv in Ht. destruct Ht as (dates & _ & _ & _ & ->).
  split; [split; vm_compute; reflexivity|].
  split; [|split].
  - rewrite evaluate_monthly in Hg.
    destruct (raw_readings (service r1) _ _ _) as [raws|e] eqn:Hraw; [|discriminate].
    inversion Hg as [Hgl]. exists (service r1), raws.
    split; [exact Hraw|]. split; [reflexivity|].
    rewrite aggregated_GLDAS, <- Hgl. reflexivity.
  - intros m series Hin.
    apply getInfo_items_spec in Hitems. destruct Hitems as [_ Hvals].
    destruct (Hvals _ _ Hin) as (x & w & Hx & Hev).
    apply fold_dict_set_values in Hx. destruct Hx as [->|[]].
    rewrite evaluate_monthly in Hev.
    destruct (raw_readings w _ _ _) as [raws|e] eqn:Hraw; [|discriminate].
    inversion Hev. eauto.
  - intros name v Hin Hns. apply aggregated_verbatim; assumption.
Qed.

End RetrievalClaims.

Lemma metadata_models_match_series_witness :
  Stub.run = (Ok Stub.data, snd Stub.run) /\
  (forall m, In m [codes "A"; codes "B"] <-> In m (map fst (cmip6_models Stub.data))) /\
  List.NoDup (map fst (cmip6_models Stub.data)).
Proof.
  assert (H : Stub.run = (Ok Stub.data, snd Stub.run)) by (vm_compute; reflexivity).
  split; [exact H|].
  destruct (metadata_models_match_series (Stub.images_of 12) Stub.reduceRegion_mean
              Stub.image_date Stub.distinct_models Stub.serve Stub.valid_coordinates
              Stub.analyzer 40 (-105) Stub.fresh Stub.data (snd Stub.run) H)
    as (Hk & Hnd & _).
  split; assumption.
Defined.

Lemma kelvin_converted_once_witness :
  Stub.run = (Ok Stub.data, snd Stub.run) /\
  format_raw_data Stub.analyzer Stub.data = Ok (aggregated Stub.axis Stub.data) /\
  kelvin_to_celsius 273.15 = 0%float /\ kelvin_to_celsius 298.15 = 25%float.
Proof.
  assert (H : Stub.run = (Ok Stub.data, snd Stub.run)) by (vm_compute; reflexivity).
  assert (Ht : format_raw_data Stub.analyzer Stub.data = Ok (aggregated Stub.axis Stub.data))
    by (vm_compute; reflexivity).
  split; [exact H|]. split; [exact Ht|].
  exact (proj1 (kelvin_converted_once (Stub.images_of 12) Stub.reduceRegion_mean
                  Stub.image_date Stub.distinct_models Stub.serve Stub.valid_coordinates
                  Stub.analyzer 40 (-105) Stub.fresh Stub.data (snd Stub.run) _ H Ht)).
Defined.


(** ** Claims about the aggregated table *)

Lemma add_models_short_ValueError n df items m data :
  In (m, data) items -> length (firstn n data) <> nrows df ->
  add_models n df items = Raise ValueError.
Proof.
  revert df. induction items as [|[m0 data0] items IH]; cbn [add_models];
    intros df Hin Hl; [contradiction|].
  unfold setitem at 1.
  destruct (decide (length (firstn n data0) = nrows df)) as [Heq|Hne]; [|reflexivity].
  destruct Hin as [Hin|Hin].
  - inversion Hin; subst. contradiction.
  - apply IH; assumption.
Qed.

(** A series shorter than the axis stops the construction: pandas refuses
    a column whose length differs from the index. *)
Lemma short_series_raises self raw_data dates :
  date_range_months (start_year self) (end_year self) = Ok dates ->
  (length (gldas raw_data) < length dates)%nat \/
  (exists m data, In (m, data) (cmip6_models raw_data) /\
                  (length data < length dates)%nat) ->
  format_raw_data self raw_data = Raise ValueError.
Proof.
  intros Hd Hshort. unfold format_raw_data. rewrite Hd. cbn [rbind].
  unfold DataFrame_of_dates.
  destruct (decide (length (firstn (length dates) (gldas raw_data)) = length dates)) as [Hg|Hg];
    [|reflexivity].
  cbn [rbind].
  destruct Hshort as [Hs|(m & data & Hin & Hs)].
  - rewrite length_firstn in Hg. lia.
  - rewrite (add_models_short_ValueError _ _ _ m data Hin); [reflexivity|].
    cbn [nrows]. rewrite length_firstn. lia.
Qed.

(** C5: with an axis of twelve months, a historical series of eleven
    values, or a model series of eleven values, is not padded: the
    construction raises ValueError. *)
Theorem short_series_not_padded :
  date_range_months 2010 2010 = Ok Stub.axis /\
  length Stub.axis = 12%nat /\
  format_raw_data Stub.analyzer Stub.short_history = Raise ValueError /\
  format_raw_data Stub.analyzer Stub.short_model = Raise ValueError.
Proof. by_evaluation. Qed.

(** C6: with no model at all and a historical series of eleven values
    for an axis of twelve months, the construction raises ValueError at the
    historical column. *)
Theorem no_models_short_history_raises :
  cmip6_models Stub.no_models_short_history = [] /\
  DataFrame_of_dates Stub.axis (codes "GLDAS")
    (firstn (length Stub.axis) (gldas Stub.no_models_short_history)) = Raise ValueError /\
  format_raw_data Stub.analyzer Stub.no_models_short_history = Raise ValueError.
Proof. by_evaluation. Qed.

Lemma map_const_seq {A} (c : A) a n : map (fun _ => c) (seq a n) = repeat c n.
Proof.
  revert a. induction n as [|n IH]; simpl; intros a; [reflexivity|].
  rewrite IH. reflexivity.
Qed.

Lemma map_repeat {A B} (f : A -> B) x n : map f (repeat x n) = repeat (f x) n.
Proof. induction n as [|n IH]; simpl; [reflexivity|]. rewrite IH. reflexivity. Qed.

Lemma combine_repeat {A B} (x : A) (y : B) n :
  combine (repeat x n) (repeat y n) = repeat (x, y) n.
Proof. induction n as [|n IH]; simpl; [reflexivity|]. rewrite IH. reflexivity. Qed.

Lemma firstn_repeat {A} (x : A) k n : (k <= n)%nat -> firstn k (repeat x n) = repeat x k.
Proof.
  revert n. induction k as [|k IH]; intros n H; [reflexivity|].
  destruct n as [|n]; [lia|]. simpl. rewrite IH by lia. reflexivity.
Qed.

(** With no model and a historical series that covers the axis, the
    table is built; it has the date column, the historical column and the
    four statistics, each of them missing in every row. *)
Lemma no_models_all_missing self raw_data dates :
  date_range_months (start_year self) (end_year self) = Ok dates ->
  cmip6_models raw_data = [] ->
  (length dates <= length (gldas raw_data))%nat ->
  format_raw_data self raw_data
  = Ok {| nrows := length dates;
          columns :=
            [(codes "date", DateCol dates);
             (codes "GLDAS", FloatCol (firstn (length dates) (gldas raw_data)));
             (codes "CMIP6_mean", FloatCol (repeat nan (length dates)));
             (codes "CMIP6_std", FloatCol (repeat nan (length dates)));
             (codes "CMIP6_upper", FloatCol (repeat nan (length dates)));
             (codes "CMIP6_lower", FloatCol (repeat nan (length dates)))] |}.
Proof.
  intros Hd Hm Hg.
  rewrite (format_raw_data_ok self raw_data dates Hd Hg) by (rewrite Hm; constructor).
  unfold aggregated. rewrite Hm. unfold model_columns. cbn [fold_left].
  change (filter (startswith CMIP6_) (map fst _)) with (@nil pystr).
  unfold mean_axis1, std_axis1, rows. cbn [nrows map].
  rewrite !map_map. cbn [map]. rewrite !map_const_seq.
  unfold plus_twice, minus_twice. rewrite combine_repeat, !map_repeat.
  reflexivity.
Qed.

(** A row in which no model has a value gets missing statistics. *)
Lemma nothing_valid_missing row :
  count_valid row = 0%nat ->
  nanmean row = nan /\ nanstd row = nan /\
  PrimFloat.add (nanmean row) (PrimFloat.mul 2 (nanstd row)) = nan /\
  PrimFloat.sub (nanmean row) (PrimFloat.mul 2 (nanstd row)) = nan.
Proof.
  intros H. unfold nanmean, nanstd. rewrite H. simpl.
  by_evaluation.
Qed.

Lemma dict_set_new {V} (k : pystr) (v : V) d :
  ~ In k (map fst d) -> dict_set k v d = d ++ [(k, v)].
Proof.
  induction d as [|[k0 v0] d IH]; simpl; intros H; [reflexivity|].
  destruct (decide (k0 = k)) as [->|Hne]; [exfalso; auto|].
  rewrite IH by auto. reflexivity.
Qed.

Lemma dict_get_NoDup {V} (k : pystr) (v : V) d :
  List.NoDup (map fst d) -> In (k, v) d -> dict_get k d = Some v.
Proof.
  induction d as [|[k0 v0] d IH]; simpl; intros Hnd Hin; [contradiction|].
  inversion Hnd as [|? ? Hnin Hnd']; subst.
  destruct Hin as [Heq|Hin].
  - inversion Heq; subst. destruct (decide (k = k)); congruence.
  - destruct (decide (k0 = k)) as [->|Hne]; [|auto].
    exfalso. apply Hnin. change k with (fst (k, v)). apply in_map, Hin.
Qed.

(** With distinct model identifiers the loop appends one column per
    model, in the order of the dict. *)
Lemma model_columns_app n items cols :
  List.NoDup (map fst items) ->
  (forall md, In md items -> ~ In (CMIP6_ ++ md.1) (map fst cols)) ->
  model_columns n items cols = cols ++ map (model_column n) items.
Proof.
  unfold model_columns. revert cols.
  induction items as [|md items IH]; cbn [fold_left map]; intros cols Hnd Hfresh.
  - rewrite app_nil_r. reflexivity.
  - inversion Hnd as [|? ? Hnin Hnd']; subst.
    rewrite dict_set_new by (apply Hfresh; left; reflexivity).
    rewrite IH; [rewrite <- app_assoc; reflexivity|assumption|].
    intros md' Hin. rewrite map_app, in_app_iff. cbn [map fst].
    intros [H|[H|[]]].
    + apply (Hfresh md'); [right; assumption|exact H].
    + apply app_inv_head in H. apply Hnin. rewrite H. apply in_map, Hin.
Qed.


Lemma CMIP6_not_base m dates g :
  ~ In (CMIP6_ ++ m) (map fst [(codes "date", DateCol dates); (codes "GLDAS", FloatCol g)]).
Proof.
  cbn [map fst]. intros [H|[H|[]]];
    apply (f_equal (startswith CMIP6_)) in H; rewrite startswith_app in H; discriminate.
Qed.




(** The four statistics columns of a table, without any assumption on
    the dataset: the bounds are the mean plus and minus twice the std. *)
Lemma aggregated_bounds dates raw_data :
  let t := aggregated dates raw_data in
  getitem t (codes "CMIP6_upper")
  = plus_twice (getitem t (codes "CMIP6_mean")) (getitem t (codes "CMIP6_std")) /\
  getitem t (codes "CMIP6_lower")
  = minus_twice (getitem t (codes "CMIP6_mean")) (getitem t (codes "CMIP6_std")).
Proof.
  unfold aggregated, getitem. cbn [columns].
  rewrite !dict_get_set_eq.
  rewrite !(dict_get_set_ne (codes "CMIP6_lower")) by (vm_compute; discriminate).
  rewrite !dict_get_set_eq.
  rewrite !(dict_get_set_ne (codes "CMIP6_upper")) by (vm_compute; discriminate).
  rewrite !dict_get_set_eq.
  rewrite !(dict_get_set_ne (codes "CMIP6_std")) by (vm_compute; discriminate).
  rewrite !dict_get_set_eq.
  split; reflexivity.
Qed.


(** C4: with the models [a] (10.0 every month) and [mean] (20.0 every
    month) the ensemble mean is 15.0, but it is written into the column
    [CMIP6_mean], which is the column of the model [mean]; the std is then
    taken over 10.0 and 15.0 and is 3.5355339059327378, not the sample
    standard deviation 7.0710678118654755 of the model values 10.0 and
    20.0. *)
Theorem model_called_mean_breaks_std :
  let t := aggregated Stub.axis Stub.model_called_mean in
  format_raw_data Stub.analyzer Stub.model_called_mean = Ok t /\
  getitem t (codes "CMIP6_mean") = repeat 15%float 12 /\
  getitem t (codes "CMIP6_std") = repeat 3.5355339059327378%float 12 /\
  nanmean [10; 20]%float = 15%float /\
  nanstd [10; 20]%float = 7.0710678118654755%float /\
  nanstd [10; 15]%float = 3.5355339059327378%float /\
  map fst (columns t)
  = [codes "date"; codes "GLDAS"; codes "CMIP6_a"; codes "CMIP6_mean";
     codes "CMIP6_std"; codes "CMIP6_upper"; codes "CMIP6_lower"].
Proof. by_evaluation. Qed.

(** ** The end-to-end scenario *)

Lemma mapM_Ok_repeat {A} (x : A) n : mapM (fun a => Ok a) (repeat x n) = Ok (repeat x n).
Proof. induction n as [|n IH]; simpl; [reflexivity|]. rewrite IH. reflexivity. Qed.

Lemma stub_evaluate n c p band v :
  Stub.images_of n tt c = Ok (repeat v n) ->
  evaluate (_calculate_monthly_average (Stub.images_of n) Stub.reduceRegion_mean
              Stub.image_date c p band) tt
  = Ok (repeat (kelvin_to_celsius v) n).
Proof.
  intros H. rewrite evaluate_monthly. unfold raw_readings. rewrite H. cbn [rbind].
  unfold Stub.reduceRegion_mean. rewrite mapM_Ok_repeat. cbn [rbind].
  rewrite map_repeat. reflexivity.
Qed.

(** The retrieval of the scenario against the stub gateway. *)
Lemma stub_get_point_data n :
  fst (Stub.get_point_data n Stub.scenario_analyzer 40 (-105) Stub.fresh)
  = Ok (Stub.scenario_data n).
Proof.
  unfold Stub.get_point_data, get_point_data, bind, lift, ret, ee_Geometry_Point, getInfo.
  cbn [Stub.valid_coordinates evaluate describe aggregate_models Stub.distinct_models
       service sent Stub.fresh Stub.serve].
  rewrite (stub_evaluate n _ _ _ 273.15%float) by reflexivity.
  unfold by_model. cbn [fold_left dict_set].
  destruct (decide (codes "A" = codes "B")) as [Heq|_]; [vm_compute in Heq; discriminate|].
  cbn [dict_set getInfo_items]. unfold bind, getInfo, ret.
  cbn [evaluate describe service sent Stub.serve].
  rewrite (stub_evaluate n _ _ _ 283.15%float) by reflexivity.
  rewrite (stub_evaluate n _ _ _ 293.15%float) by reflexivity.
  cbn [fst]. reflexivity.
Qed.

Lemma scenario_axis_ok :
  date_range_months (start_year Stub.scenario_analyzer) (end_year Stub.scenario_analyzer)
  = Ok Stub.scenario_axis.
Proof. vm_compute. reflexivity. Qed.

Lemma scenario_table_ok n :
  (36 <= n)%nat ->
  format_raw_data Stub.scenario_analyzer (Stub.scenario_data n) = Ok Stub.scenario_table.
Proof.
  intros Hn.
  rewrite (format_raw_data_ok _ _ _ scenario_axis_ok).
  - f_equal. unfold Stub.scenario_table, aggregated, model_columns.
    change (length Stub.scenario_axis) with 36%nat.
    cbn [gldas cmip6_models Stub.scenario_data fold_left fst snd].
    rewrite !(firstn_repeat _ 36 n) by assumption.
    rewrite !(firstn_repeat _ 36 36) by lia.
    vm_compute. reflexivity.
  - change (length Stub.scenario_axis) with 36%nat. cbn [gldas Stub.scenario_data].
    rewrite repeat_length. exact Hn.
  - change (length Stub.scenario_axis) with 36%nat. cbn [cmip6_models Stub.scenario_data].
    repeat constructor; cbn [snd]; rewrite repeat_length; exact Hn.
Qed.

Lemma scenario_table_inv n t :
  format_raw_data Stub.scenario_analyzer (Stub.scenario_data n) = Ok t ->
  t = Stub.scenario_table.
Proof.
  intros Ht. pose proof Ht as Hinv. apply format_raw_data_inv in Hinv.
  destruct Hinv as (dates & Hd & Hg & _ & _).
  rewrite scenario_axis_ok in Hd. inversion Hd; subst dates.
  change (length Stub.scenario_axis) with 36%nat in Hg.
  cbn [gldas Stub.scenario_data] in Hg. rewrite repeat_length in Hg.
  rewrite (scenario_table_ok n Hg) in Ht. inversion Ht. reflexivity.
Qed.

(** C3 as stated fails: whatever the number of values that the gateway
    returns, the table of the scenario does not have 24 rows, and its std
    column is not 5.0. *)
Lemma scenario_not_24_rows_nor_std_5 :
  ~ (exists n d t,
       fst (Stub.get_point_data n Stub.scenario_analyzer 40 (-105) Stub.fresh) = Ok d /\
       format_raw_data Stub.scenario_analyzer d = Ok t /\
       (nrows t = 24%nat \/ In 5%float (getitem t (codes "CMIP6_std")))).
Proof.
  intros (n & d & t & Hd & Ht & H).
  rewrite stub_get_point_data in Hd. inversion Hd; subst d.
  apply scenario_table_inv in Ht. subst t.
  destruct H as [H|H].
  - vm_compute in H. discriminate H.
  - assert (Hstd : getitem Stub.scenario_table (codes "CMIP6_std")
                   = repeat 7.0710678118654755%float 36) by (vm_compute; reflexivity).
    rewrite Hstd in H. apply repeat_spec in H.
    apply (f_equal (fun x => PrimFloat.ltb x 6)) in H. vm_compute in H. discriminate H.
Qed.

(** C3, amended: when the gateway returns at least 36 values per series,
    the table of the scenario has 36 rows, a historical column of 0.0, an
    ensemble mean of 15.0 and an ensemble std of 7.0710678118654755 (the
    sample formula) in every row, with the bounds at the mean plus and
    minus twice that std. *)
Theorem scenario_table_36_rows n :
  (36 <= n)%nat ->
  fst (Stub.get_point_data n Stub.scenario_analyzer 40 (-105) Stub.fresh)
  = Ok (Stub.scenario_data n) /\
  format_raw_data Stub.scenario_analyzer (Stub.scenario_data n) = Ok Stub.scenario_table /\
  nrows Stub.scenario_table = 36%nat /\
  getitem Stub.scenario_table (codes "GLDAS") = repeat 0%float 36 /\
  getitem Stub.scenario_table (codes "CMIP6_A") = repeat 10%float 36 /\
  getitem Stub.scenario_table (codes "CMIP6_B") = repeat 20%float 36 /\
  getitem Stub.scenario_table (codes "CMIP6_mean") = repeat 15%float 36 /\
  getitem Stub.scenario_table (codes "CMIP6_std") = repeat 7.0710678118654755%float 36 /\
  getitem Stub.scenario_table (codes "CMIP6_upper")
  = repeat (15 + 2 * 7.0710678118654755)%float 36 /\
  getitem Stub.scenario_table (codes "CMIP6_lower")
  = repeat (15 - 2 * 7.0710678118654755)%float 36.
Proof.
  intros Hn. split; [apply stub_get_point_data|].
  split; [apply scenario_table_ok, Hn|].
  by_evaluation.
Qed.

Lemma scenario_table_36_rows_witness :
  (36 <= 36)%nat /\
  format_raw_data Stub.scenario_analyzer (Stub.scenario_data 36) = Ok Stub.scenario_table /\
  nrows Stub.scenario_table = 36%nat.
Proof.
  assert (H : (36 <= 36)%nat) by lia.
  split; [exact H|].
  destruct (scenario_table_36_rows 36 H) as (_ & Ht & Hrows & _).
  split; assumption.
Defined.

(** ** Memoisation *)

Section LruFacts.

Context {K V : Type} `{EqDecision K}.

Lemma lookup_removelast (k : K) (c : Lru.cache K V) v :
  Lru.lookup k (removelast c) = Some v -> Lru.lookup k c = Some v.
Proof.
  induction c as [|[k0 v0] c IH]; [discriminate|].
  destruct c as [|kv c']; [discriminate|].
  change (removelast ((k0, v0) :: kv :: c')) with ((k0, v0) :: removelast (kv :: c')).
  cbn [Lru.lookup]. destruct (decide (k0 = k)); [auto|]. exact IH.
Qed.

Lemma lookup_remove_ne (k k' : K) (c : Lru.cache K V) :
  k' <> k -> Lru.lookup k' (Lru.remove k c) = Lru.lookup k' c.
Proof.
  intros Hne. induction c as [|[k0 v0] c IH]; [reflexivity|].
  cbn [Lru.remove Lru.lookup].
  destruct (decide (k0 = k)) as [->|Hk].
  - destruct (decide (k = k')); [congruence|reflexivity].
  - cbn [Lru.lookup]. destruct (decide (k0 = k')); [reflexivity|exact IH].
Qed.

Lemma lookup_store (maxsize : nat) (k k' : K) (v : V) (c : Lru.cache K V) v' :
  Lru.lookup k' (Lru.store maxsize k v c) = Some v' ->
  (k' = k /\ v' = v) \/ Lru.lookup k' c = Some v'.
Proof.
  unfold Lru.store. cbn [Lru.lookup].
  destruct (decide (k = k')) as [->|Hne].
  - intros H. inversion H. auto.
  - destruct (decide (maxsize <= length c)%nat); intros H; right;
      [apply lookup_removelast|]; exact H.
Qed.

Lemma lookup_store_eq (maxsize : nat) (k : K) (v : V) (c : Lru.cache K V) :
  Lru.lookup k (Lru.store maxsize k v c) = Some v.
Proof.
  unfold Lru.store. cbn [Lru.lookup]. destruct (decide (k = k)); congruence.
Qed.

(** After a call that returned a value, the value is in the cache under
    its key. *)
Lemma call_stores {S} maxsize (f : K -> S -> result V * S) k c s v c' s' :
  Lru.call maxsize f k c s = (Ok v, c', s') -> Lru.lookup k c' = Some v.
Proof.
  unfold Lru.call. destruct (Lru.lookup k c) as [v0|] eqn:Hl.
  - intros H. inversion H; subst. cbn [Lru.lookup].
    destruct (decide (k = k)); congruence.
  - destruct (f k s) as [[v0|e] s0]; intros H; inversion H; subst.
    apply lookup_store_eq.
Qed.


(** A miss runs the function once. *)
Lemma call_miss {S} maxsize (f : K -> S -> result V * S) k c s :
  Lru.lookup k c = None ->
  Lru.call maxsize f k c s
  = match f k s with
    | (Ok v, s') => (Ok v, Lru.store maxsize k v c, s')
    | (Raise e, s') => (Raise e, c, s')
    end.
Proof. intros H. unfold Lru.call. rewrite H. reflexivity. Qed.

End LruFacts.

(** *** Tables as objects *)

Lemma covers_spec n raw_data :
  covers n raw_data = true <->
  (n <= length (gldas raw_data))%nat /\
  Forall (fun md : pystr * list float => (n <= length md.2)%nat) (cmip6_models raw_data).
Proof.
  unfold covers. rewrite andb_true_iff, Nat.leb_le, forallb_forall, List.Forall_forall.
  split; intros [Hg Hm]; (split; [exact Hg|]); intros md Hin;
    [apply Nat.leb_le|apply Nat.leb_le]; auto.
Qed.

Lemma lookup_touch {K V} `{EqDecision K} (k k' : K) (v : V) (c : Lru.cache K V) :
  Lru.lookup k c = Some v -> Lru.lookup k' ((k, v) :: Lru.remove k c) = Lru.lookup k' c.
Proof.
  intros H. cbn [Lru.lookup]. destruct (decide (k = k')) as [<-|Hne]; [symmetry; exact H|].
  apply lookup_remove_ne. congruence.
Qed.

Lemma same_ident objs (s s' : TemperatureAnalyzer) :
  List.NoDup (map ident objs) -> In s objs -> In s' objs -> ident s = ident s' -> s = s'.
Proof.
  induction objs as [|a objs IH]; intros Hnd Hs Hs' Hid; [destruct Hs|].
  cbn [map] in Hnd. inversion Hnd as [|? ? Hnotin Hnd']; subst.
  destruct Hs as [->|Hs], Hs' as [->|Hs'].
  - reflexivity.
  - exfalso. apply Hnotin. rewrite Hid. apply in_map, Hs'.
  - exfalso. apply Hnotin. rewrite <- Hid. apply in_map, Hs.
  - apply IH; assumption.
Qed.

Lemma frame_at_last (h : heap) t : frame_at (h ++ [t]) (length h) = t.
Proof. unfold frame_at. apply nth_middle. Qed.

Lemma insert_last (h : heap) t t' : <[length h := t']> (h ++ [t]) = h ++ [t'].
Proof. induction h as [|x h IH]; [reflexivity|]. cbn. f_equal. exact IH. Qed.

Lemma lookup_new (h : heap) t : (h ++ [t]) !! length h = Some t.
Proof. induction h as [|x h IH]; [reflexivity|exact IH]. Qed.

Lemma lookup_app_junk (h junk : heap) df t :
  h !! df = Some t -> (h ++ junk) !! df = Some t.
Proof. intros H. apply lookup_app_l_Some, H. Qed.

(** A write into the newest frame is the update of that frame. *)
Lemma setitem_at_last (h : heap) t name values :
  setitem_at (length h) name values (h ++ [t])
  = match setitem t name values with
    | Ok t' => (Ok tt, h ++ [t'])
    | Raise e => (Raise e, h ++ [t])
    end.
Proof.
  unfold setitem_at. rewrite frame_at_last.
  destruct (setitem t name values); [rewrite insert_last|]; reflexivity.
Qed.

Lemma add_models_at_last n (h : heap) items t :
  exists t',
    add_models_at n (length h) items (h ++ [t])
    = (match add_models n t items with Ok _ => Ok tt | Raise e => Raise e end, h ++ [t']) /\
    forall t'', add_models n t items = Ok t'' -> t' = t''.
Proof.
  revert t. induction items as [|[model data] items IH]; intros t; cbn [add_models_at add_models].
  - exists t. split; [reflexivity|]. intros t'' H. injection H as <-. reflexivity.
  - unfold pbind. rewrite setitem_at_last.
    destruct (setitem t (CMIP6_ ++ model) (firstn n data)) as [t1|e].
    + apply IH.
    + exists t. split; [reflexivity|]. intros t'' H. discriminate H.
Qed.

(** The statements of the construction, run on the heap, make one new
    frame and leave it holding the table of [format_raw_data]; no frame
    that was on the heap is written to.  When the construction raises, the
    heap is left with the frames it had and at most one unfinished frame,
    which nothing refers to. *)
Lemma build_table_spec self raw_data (h : heap) :
  exists junk,
    build_table self raw_data h
    = (match format_raw_data self raw_data with
       | Ok _ => Ok (length h)
       | Raise e => Raise e
       end, h ++ junk) /\
    forall t, format_raw_data self raw_data = Ok t -> junk = [t].
Proof.
  unfold build_table, format_raw_data, pbind, plift, pread, pret.
  destruct (date_range_months (start_year self) (end_year self)) as [dates|e]; cbn [rbind].
  2:{ exists []. rewrite app_nil_r. split; [reflexivity|]. intros t H. discriminate H. }
  unfold new_DataFrame.
  destruct (DataFrame_of_dates dates (codes "GLDAS") (firstn (length dates) (gldas raw_data)))
    as [t0|e]; cbn [rbind].
  2:{ exists []. rewrite app_nil_r. split; [reflexivity|]. intros t H. discriminate H. }
  destruct (add_models_at_last (length dates) h (cmip6_models raw_data) t0) as (t1 & -> & Ht1).
  destruct (add_models (length dates) t0 (cmip6_models raw_data)) as [t1'|e]; cbn [rbind].
  2:{ exists [t1]. split; [reflexivity|]. intros t H. discriminate H. }
  rewrite (Ht1 t1' eq_refl). clear Ht1 t1.
  rewrite !frame_at_last, setitem_at_last.
  destruct (setitem t1' (codes "CMIP6_mean") _) as [t2|e]; cbn [rbind].
  2:{ exists [t1']. split; [reflexivity|]. intros t H. discriminate H. }
  rewrite !frame_at_last, setitem_at_last.
  destruct (setitem t2 (codes "CMIP6_std") _) as [t3|e]; cbn [rbind].
  2:{ exists [t2]. split; [reflexivity|]. intros t H. discriminate H. }
  rewrite !frame_at_last, setitem_at_last.
  destruct (setitem t3 (codes "CMIP6_upper") _) as [t4|e]; cbn [rbind].
  2:{ exists [t3]. split; [reflexivity|]. intros t H. discriminate H. }
  rewrite !frame_at_last, setitem_at_last.
  destruct (setitem t4 (codes "CMIP6_lower") _) as [t5|e]; cbn [rbind].
  2:{ exists [t4]. split; [reflexivity|]. intros t H. discriminate H. }
  exists [t5]. split; [reflexivity|]. intros t H. injection H as <-. reflexivity.
Qed.

Section TableObjectsFacts.

Context (loads_point_data : pystr -> result PointData).

Local Abbreviation body := (format_data_for_plotting_body loads_point_data).
Local Abbreviation steps := (format_data_for_plotting_steps loads_point_data).
Local Abbreviation format_at := (format_data_for_plotting_at loads_point_data).
Local Abbreviation after := (tables_after loads_point_data).
Local Abbreviation ok := (tables_ok loads_point_data).

Lemma steps_spec self key (h : heap) :
  exists junk,
    steps self key h
    = (match body self key with Ok _ => Ok (length h) | Raise e => Raise e end, h ++ junk) /\
    forall t, body self key = Ok t -> junk = [t].
Proof.
  unfold format_data_for_plotting_steps, format_data_for_plotting_body, pbind, plift.
  destruct (loads_point_data key) as [raw_data|e]; cbn [rbind].
  - apply build_table_spec.
  - exists []. rewrite app_nil_r. split; [reflexivity|]. intros t H. discriminate H.
Qed.

(** One call: the frames of the heap stay as they are, and the cache and
    the heap still agree with the construction. *)
Lemma format_at_ok objs self key s :
  List.NoDup (map ident objs) -> In self objs -> ok objs s ->
  let out := format_at self key s.1 s.2 in
  (exists junk, out.2 = s.2 ++ junk) /\ ok objs (out.1.2, out.2).
Proof.
  intros Hnd Hself (Hin & Hval & Hinj). destruct s as [c h]. cbn [fst snd] in *.
  unfold format_data_for_plotting_at, Lru.call.
  destruct (Lru.lookup (ident self, key) c) as [df|] eqn:Hl.
  - cbn [fst snd]. split; [exists []; rewrite app_nil_r; reflexivity|].
    split; [|split]; cbn [fst snd].
    + intros k df0. rewrite (lookup_touch _ _ _ _ Hl). apply Hin.
    + intros s0 key0 df0 Hs0. rewrite (lookup_touch _ _ _ _ Hl). apply Hval, Hs0.
    + intros k1 k2 df0. rewrite !(lookup_touch _ _ _ _ Hl). apply Hinj.
  - destruct (steps_spec self key h) as (junk & -> & Hjunk).
    destruct (body self key) as [t|e] eqn:Hb; cbn [fst snd].
    + rewrite (Hjunk t eq_refl). split; [eauto|].
      split; [|split]; cbn [fst snd].
      * intros k df0 H. rewrite length_app. cbn [length].
        apply lookup_store in H. destruct H as [[_ ->]|H]; [lia|].
        specialize (Hin _ _ H). lia.
      * intros s0 key0 df0 Hs0 H. apply lookup_store in H.
        destruct H as [[Hk ->]|H].
        -- injection Hk as Hid ->.
           rewrite (same_ident objs s0 self Hnd Hs0 Hself Hid).
           exists t. split; [|exact Hb].
           apply lookup_new.
        -- destruct (Hval _ _ _ Hs0 H) as (t0 & Ht0 & Hb0).
           exists t0. split; [apply lookup_app_junk, Ht0|exact Hb0].
      * intros k1 k2 df0 H1 H2.
        apply lookup_store in H1. apply lookup_store in H2.
        destruct H1 as [[-> ->]|H1], H2 as [[-> Hd]|H2].
        -- reflexivity.
        -- specialize (Hin _ _ H2). lia.
        -- specialize (Hin _ _ H1). lia.
        -- apply (Hinj _ _ _ H1 H2).
    + split; [eauto|]. split; [|split]; cbn [fst snd].
      * intros k df0 H. rewrite length_app. specialize (Hin _ _ H). lia.
      * intros s0 key0 df0 Hs0 H. destruct (Hval _ _ _ Hs0 H) as (t0 & Ht0 & Hb0).
        exists t0. split; [apply lookup_app_junk, Ht0|exact Hb0].
      * exact Hinj.
Qed.

Lemma tables_after_ok objs calls s :
  List.NoDup (map ident objs) -> Forall (fun call => In call.1 objs) calls -> ok objs s ->
  (exists junk, (after calls s).2 = s.2 ++ junk) /\ ok objs (after calls s).
Proof.
  intros Hnd. revert s. induction calls as [|[self key] calls IH]; intros s Hcalls Hok.
  - cbn [tables_after]. split; [exists []; rewrite app_nil_r; reflexivity|exact Hok].
  - inversion Hcalls as [|? ? Hself Hrest]; subst. cbn [fst] in Hself.
    cbn [tables_after].
    destruct (format_at_ok objs self key s Hnd Hself Hok) as [[junk Hj] Hok'].
    cbn zeta in Hj, Hok'.
    destruct (IH _ Hrest Hok') as [[junk' Hj'] Hok''].
    split; [|exact Hok''].
    exists (junk ++ junk'). rewrite Hj'. cbn [snd]. rewrite Hj, app_assoc. reflexivity.
Qed.

Lemma tables_ok_empty objs : ok objs ([], []).
Proof.
  split; [|split]; cbn [fst snd]; intros; discriminate.
Qed.

(** A call on a dataset that covers the axis returns a reference to the
    table of the dataset. *)
Lemma format_at_table objs self key s raw_data dates :
  List.NoDup (map ident objs) -> In self objs -> ok objs s ->
  loads_point_data key = Ok raw_data ->
  date_range_months (start_year self) (end_year self) = Ok dates ->
  covers (length dates) raw_data = true ->
  let out := format_at self key s.1 s.2 in
  exists df,
    out.1.1 = Ok df /\ out.2 !! df = Some (aggregated dates raw_data) /\
    Lru.lookup (ident self, key) out.1.2 = Some df /\
    (Lru.lookup (ident self, key) s.1 = None -> df = length s.2) /\
    (forall df', Lru.lookup (ident self, key) s.1 = Some df' -> df = df' /\ out.2 = s.2).
Proof.
  intros Hnd Hself (Hin & Hval & Hinj) Hloads Hdates Hcov. destruct s as [c h].
  cbn [fst snd] in *.
  assert (Hb : body self key = Ok (aggregated dates raw_data)).
  { unfold format_data_for_plotting_body. rewrite Hloads. cbn [rbind].
    apply covers_spec in Hcov. destruct Hcov as [Hg Hm].
    apply format_raw_data_ok; assumption. }
  unfold format_data_for_plotting_at, Lru.call.
  destruct (Lru.lookup (ident self, key) c) as [df|] eqn:Hl.
  - cbn [fst snd]. exists df.
    destruct (Hval _ _ _ Hself Hl) as (t & Ht & Hbt).
    rewrite Hb in Hbt. injection Hbt as <-.
    split; [reflexivity|]. split; [exact Ht|]. split.
    + cbn [Lru.lookup]. destruct (decide ((ident self, key) = (ident self, key)));
        [reflexivity|contradiction].
    + split; [intros H; discriminate H|].
      intros df' H. injection H as <-. auto.
  - destruct (steps_spec self key h) as (junk & -> & Hjunk).
    rewrite Hb in *. rewrite (Hjunk _ eq_refl). cbn [fst snd].
    exists (length h). split; [reflexivity|]. split.
    + apply lookup_new.
    + split; [apply lookup_store_eq|]. split; [reflexivity|].
      intros df' H. discriminate H.
Qed.

(** C8: tables as the objects they are.  Take analyzer objects with
    distinct identities and any three histories of calls of
    [format_data_for_plotting] on them, and make two calls for the same
    point dataset, given as a text or as two texts, on analyzers with the
    same year range, one call after the first history and one after the
    second, where the dataset covers the axis of these years.  Both calls
    return a table, and the two tables are the same field for field: each
    is the table [aggregated] of the dataset, whatever the analyzer object,
    its scenario, and the state of the cache and of the heap.  When the
    cache does not hold the second call, its table is an object of its own,
    made by a second run of the construction; when it does, the call
    returns the very object that the cache holds and writes nothing.  No
    call ever writes to a frame that exists: after the third history every
    frame that was on the heap before the first call is unchanged, and both
    tables still hold what they held when they were returned. *)
Theorem tables_are_reproducible_and_never_written objs self1 self2 data_key1 data_key2
    raw_data dates history1 history2 history3 :
  List.NoDup (map ident objs) ->
  In self1 objs -> In self2 objs ->
  Forall (fun call => In call.1 objs) (history1 ++ history2 ++ history3) ->
  start_year self2 = start_year self1 -> end_year self2 = end_year self1 ->
  loads_point_data data_key1 = Ok raw_data ->
  loads_point_data data_key2 = Ok raw_data ->
  date_range_months (start_year self1) (end_year self1) = Ok dates ->
  covers (length dates) raw_data = true ->
  let s0 := tables_after loads_point_data history1 ([], []) in
  let first := format_data_for_plotting_at loads_point_data self1 data_key1 s0.1 s0.2 in
  let s1 := tables_after loads_point_data history2 (first.1.2, first.2) in
  let second := format_data_for_plotting_at loads_point_data self2 data_key2 s1.1 s1.2 in
  let s2 := tables_after loads_point_data history3 (second.1.2, second.2) in
  exists df1 df2,
    first.1.1 = Ok df1 /\ second.1.1 = Ok df2 /\
    first.2 !! df1 = Some (aggregated dates raw_data) /\
    second.2 !! df2 = Some (aggregated dates raw_data) /\
    (Lru.lookup (ident self2, data_key2) s1.1 = None ->
     df2 = length s1.2 /\ df2 <> df1) /\
    (forall df, Lru.lookup (ident self2, data_key2) s1.1 = Some df ->
                df2 = df /\ second.2 = s1.2) /\
    (forall df t, s0.2 !! df = Some t -> s2.2 !! df = Some t) /\
    s2.2 !! df1 = Some (aggregated dates raw_data) /\
    s2.2 !! df2 = Some (aggregated dates raw_data).
Proof.
  intros Hnd Hs1 Hs2 Hcalls Hsy Hey Hloads1 Hloads2 Hdates Hcov s0 first s1 second s2.
  apply Forall_app in Hcalls. destruct Hcalls as [Hc1 Hcalls].
  apply Forall_app in Hcalls. destruct Hcalls as [Hc2 Hc3].
  destruct (tables_after_ok objs history1 ([], []) Hnd Hc1 (tables_ok_empty objs))
    as [_ Hok0]. fold s0 in Hok0.
  destruct (format_at_ok objs self1 data_key1 s0 Hnd Hs1 Hok0) as [[j1 Hj1] Hok1].
  cbn zeta in Hj1, Hok1. fold first in Hj1, Hok1.
  destruct (format_at_table objs self1 data_key1 s0 raw_data dates Hnd Hs1 Hok0 Hloads1 Hdates
              Hcov) as (df1 & Hr1 & Ht1 & _). cbn zeta in Hr1, Ht1. fold first in Hr1, Ht1.
  destruct (tables_after_ok objs history2 (first.1.2, first.2) Hnd Hc2 Hok1)
    as [[j2 Hj2] Hok2]. fold s1 in Hj2, Hok2. cbn [snd] in Hj2.
  assert (Hdates2 : date_range_months (start_year self2) (end_year self2) = Ok dates)
    by (rewrite Hsy, Hey; exact Hdates).
  destruct (format_at_ok objs self2 data_key2 s1 Hnd Hs2 Hok2) as [[j3 Hj3] Hok3].
  cbn zeta in Hj3, Hok3. fold second in Hj3, Hok3.
  destruct (format_at_table objs self2 data_key2 s1 raw_data dates Hnd Hs2 Hok2 Hloads2
              Hdates2 Hcov) as (df2 & Hr2 & Ht2 & _ & Hmiss & Hhit).
  cbn zeta in Hr2, Ht2, Hmiss, Hhit. fold second in Hr2, Ht2, Hhit.
  destruct (tables_after_ok objs history3 (second.1.2, second.2) Hnd Hc3 Hok3)
    as [[j4 Hj4] _]. fold s2 in Hj4. cbn [snd] in Hj4.
  exists df1, df2.
  split; [exact Hr1|]. split; [exact Hr2|]. split; [exact Ht1|]. split; [exact Ht2|].
  split; [|split; [exact Hhit|split; [|split]]].
  - intros Hnone. specialize (Hmiss Hnone). split; [exact Hmiss|].
    apply lookup_lt_Some in Ht1. rewrite Hmiss, Hj2, length_app. lia.
  - intros df t H. rewrite Hj4, Hj3, Hj2, Hj1.
    do 3 apply lookup_app_junk. apply lookup_app_junk, H.
  - rewrite Hj4, Hj3, Hj2. do 2 apply lookup_app_junk. apply lookup_app_junk, Ht1.
  - rewrite Hj4. apply lookup_app_junk, Ht2.
Qed.

End TableObjectsFacts.

Lemma all_some_map {A B} (f : B -> option A) (g : A -> B) (l : list A) :
  (forall a, f (g a) = Some a) -> all_some (map f (map g l)) = Some l.
Proof.
  intros H. induction l as [|a l IH]; [reflexivity|].
  cbn [map all_some]. rewrite H, IH. reflexivity.
Qed.

Ltac compare_keys :=
  repeat first
    [ progress cbn [dict_get fst snd]
    | match goal with
      | |- context [decide (?a = ?b)] =>
          let E := fresh "E" in
          destruct (decide (a = b)) as [E|E];
          [try (vm_compute in E; discriminate E)|try (exfalso; apply E; reflexivity)];
          clear E
      end ].

Lemma floats_of_floats g : floats_of (JArr (map JFloat g)) = Some g.
Proof. apply (all_some_map float_of JFloat). reflexivity. Qed.

Lemma series_of_items (ms : list (pystr * list float)) :
  series_of (JObj (map (fun md : pystr * list float => (md.1, JArr (map JFloat md.2))) ms))
  = Some ms.
Proof.
  unfold series_of. induction ms as [|[m data] ms IH]; [reflexivity|].
  cbn [map all_some fst snd]. rewrite floats_of_floats, IH. reflexivity.
Qed.

Lemma metadata_of_items lat lon s models :
  metadata_of
    (JObj [(codes "lat", lat); (codes "lon", lon); (codes "scenario", JStr s);
           (codes "models", JArr (map JStr models))])
  = Some {| md_lat := lat; md_lon := lon; md_scenario := s; md_models := models |}.
Proof.
  unfold metadata_of. compare_keys.
  rewrite (all_some_map str_of JStr models) by reflexivity. reflexivity.
Qed.

(** The typed reading gives back the dataset from the dict that
    [get_point_data] returns. *)
Lemma point_data_of_as_dict raw_data : point_data_of (as_dict raw_data) = Some raw_data.
Proof.
  destruct raw_data as [g ms [lat lon s models]].
  unfold as_dict, point_data_of.
  cbn [gldas cmip6_models metadata md_lat md_lon md_scenario md_models].
  compare_keys.
  rewrite floats_of_floats, series_of_items, metadata_of_items. reflexivity.
Qed.
(** The object that a call returns is the object that the cache holds.
    A caller that wrote to the table it was given would write to that
    object, and the next call on the same analyzer and text would return
    the changed frame.  Nothing in the repository writes to a table. *)
Example a_returned_table_is_the_cached_object :
  let text := Json.dumps (as_dict Stub.data) in
  let first := format_data_for_plotting_at loads_dataset Stub.analyzer text [] [] in
  let written := snd (setitem_at 0%nat (codes "GLDAS") (repeat 1%float 12) first.2) in
  let second :=
    format_data_for_plotting_at loads_dataset Stub.analyzer text first.1.2 written in
  first.1.1 = Ok 0%nat /\ second.1.1 = Ok 0%nat /\
  getitem (frame_at first.2 0%nat) (codes "GLDAS") = repeat 0%float 12 /\
  getitem (frame_at second.2 0%nat) (codes "GLDAS") = repeat 1%float 12.
Proof. by_evaluation. Qed.

Lemma tables_are_reproducible_and_never_written_witness :
  let text := Json.dumps (as_dict Stub.data) in
  let spaced := codes " " ++ text in
  let other := init 1 2010 2010 (codes "ssp126") in
  let objs := [Stub.analyzer; other] in
  let history1 := [(Stub.analyzer, Json.dumps (as_dict Stub.short_model))] in
  let history2 := [(Stub.analyzer, codes "not JSON")] in
  let history3 := [(Stub.analyzer, text); (other, spaced)] in
  let s0 := tables_after loads_dataset history1 ([], []) in
  let first := format_data_for_plotting_at loads_dataset Stub.analyzer text s0.1 s0.2 in
  let s1 := tables_after loads_dataset history2 (first.1.2, first.2) in
  let second := format_data_for_plotting_at loads_dataset other spaced s1.1 s1.2 in
  let s2 := tables_after loads_dataset history3 (second.1.2, second.2) in
  loads_dataset text = Ok Stub.data /\
  loads_dataset spaced = Ok Stub.data /\
  length s0.2 = 1%nat /\
  Lru.lookup (ident other, spaced) s1.1 = None /\
  first.1.1 = Ok 1%nat /\ second.1.1 = Ok 2%nat /\
  length s2.2 = 3%nat /\
  s2.2 !! 1%nat = Some (aggregated Stub.axis Stub.data) /\
  s2.2 !! 2%nat = Some (aggregated Stub.axis Stub.data).
Proof.
  intros text spaced other objs history1 history2 history3 s0 first s1 second s2.
  assert (Hnd : List.NoDup (map ident objs)).
  { cbn. constructor; [intros [H|[]]; discriminate H|].
    constructor; [intros []|constructor]. }
  assert (Hs1 : In Stub.analyzer objs) by (left; reflexivity).
  assert (Hs2 : In other objs) by (right; left; reflexivity).
  assert (Hcalls : Forall (fun call : TemperatureAnalyzer * pystr => In call.1 objs)
                     (history1 ++ history2 ++ history3)).
  { repeat constructor; cbn [fst]; assumption. }
  assert (Hloads1 : loads_dataset text = Ok Stub.data) by (vm_compute; reflexivity).
  assert (Hloads2 : loads_dataset spaced = Ok Stub.data) by (vm_compute; reflexivity).
  assert (Hdates : date_range_months (start_year Stub.analyzer) (end_year Stub.analyzer)
                   = Ok Stub.axis) by (vm_compute; reflexivity).
  assert (Hcov : covers (length Stub.axis) Stub.data = true) by (vm_compute; reflexivity).
  assert (Hheap : length s0.2 = 1%nat) by (vm_compute; reflexivity).
  assert (Hnone : Lru.lookup (ident other, spaced) s1.1 = None) by (vm_compute; reflexivity).
  assert (H1 : first.1.1 = Ok 1%nat) by (vm_compute; reflexivity).
  assert (H2 : second.1.1 = Ok 2%nat) by (vm_compute; reflexivity).
  assert (Hlen : length s2.2 = 3%nat) by (vm_compute; reflexivity).
  destruct (tables_are_reproducible_and_never_written loads_dataset objs Stub.analyzer other
              text spaced Stub.data Stub.axis history1 history2 history3
              Hnd Hs1 Hs2 Hcalls eq_refl eq_refl Hloads1 Hloads2 Hdates Hcov)
    as (df1 & df2 & Hr1 & Hr2 & _ & _ & _ & _ & _ & Hend1 & Hend2).
  fold s0 first s1 second s2 in Hr1, Hr2, Hend1, Hend2.
  rewrite H1 in Hr1. injection Hr1 as <-. rewrite H2 in Hr2. injection Hr2 as <-.
  repeat split; assumption.
Defined.

Section RetrievalCache.

Context {world image : Type}.
Context (images_of : world -> ImageCollection -> result (list image)).
Context (reduceRegion_mean : image -> Geometry -> Z -> pystr -> result float).
Context (image_date : image -> pystr).
Context (distinct_models : world -> ImageCollection -> result (list pystr)).
Context (serve : world -> request -> world).
Context (valid_coordinates : json -> json -> bool).

Local Abbreviation fetch :=
  (get_point_data images_of reduceRegion_mean image_date
     distinct_models serve valid_coordinates).
Local Abbreviation cached_fetch :=
  (get_cached_data images_of reduceRegion_mean image_date
     distinct_models serve valid_coordinates).
Local Abbreviation lru_fetch :=
  (get_point_data_cached images_of reduceRegion_mean image_date serve valid_coordinates).

(** A first call of [get_cached_data] on a key that the store does not
    hold runs [get_point_data]. *)
Lemma get_cached_data_miss analyzer lat lon now key (c : st_cache) r :
  c !! key = None ->
  cached_fetch analyzer lat lon now key c r
  = match fetch analyzer lat lon r with
    | (Ok v, r') => (Ok v, <[key := (v, now)]> c, r')
    | (Raise e, r') => (Raise e, c, r')
    end.
Proof. intros H. unfold get_cached_data. rewrite H. reflexivity. Qed.

(** A call on a key stored less than [ttl] seconds ago returns the stored
    value and leaves the store and the gateway as they are. *)
Lemma get_cached_data_hit analyzer lat lon now key (c : st_cache) r v t :
  c !! key = Some (v, t) -> now < t + ttl ->
  cached_fetch analyzer lat lon now key c r = (Ok v, c, r).
Proof.
  intros H Ht. unfold get_cached_data. rewrite H.
  destruct (Z.ltb_spec now (t + ttl)); [reflexivity|lia].
Qed.


End RetrievalCache.


(** ** The cache key *)

Lemma hex_digit_In n : In (MD5.hex_digit n) hexchars.
Proof.
  unfold MD5.hex_digit. fold hexchars.
  destruct (Nat.lt_ge_cases (Z.to_nat n) (length hexchars)) as [Hlt|Hge].
  - apply nth_In, Hlt.
  - rewrite nth_overflow by exact Hge. vm_compute. auto.
Qed.

Lemma hex_of_bytes_hex bs : Forall (fun c => In c hexchars) (MD5.hex_of_bytes bs).
Proof.
  induction bs as [|b bs IH]; cbn [MD5.hex_of_bytes]; [constructor|].
  constructor; [apply hex_digit_In|]. constructor; [apply hex_digit_In|exact IH].
Qed.

Lemma hexdigest_length msg : length (MD5.hexdigest msg) = 32%nat.
Proof.
  unfold MD5.hexdigest, MD5.digest. destruct (MD5.digest_state msg) as [a b c d].
  reflexivity.
Qed.

(** Every key is a text of 32 hexadecimal characters. *)
Lemma cache_key_hex lat lon kwargs :
  length (_generate_cache_key lat lon kwargs) = 32%nat /\
  Forall (fun c => In c hexchars) (_generate_cache_key lat lon kwargs).
Proof.
  unfold _generate_cache_key. split; [apply hexdigest_length|apply hex_of_bytes_hex].
Qed.

Lemma number_value_kind neg ids fds ex :
  (exists z, Json.number_value neg ids fds ex = JInt z) \/
  (exists f, Json.number_value neg ids fds ex = JFloat f).
Proof. unfold Json.number_value. destruct fds, ex; eauto. Qed.

Lemma match_number_kind s v r :
  Json.match_number s = Some (v, r) -> (exists z, v = JInt z) \/ (exists f, v = JFloat f).
Proof.
  unfold Json.match_number.
  destruct (Json.scan_sign s) as [neg s1].
  destruct (Json.scan_int s1) as [[ids s2]|]; [|discriminate].
  destruct (Json.scan_frac s2) as [fds s3].
  destruct (Json.scan_exp s3) as [ex s4].
  intros H. injection H as <- _. apply number_value_kind.
Qed.

Ltac hex_cases H :=
  unfold hexchars in H; vm_compute in H;
  repeat (destruct H as [H|H]; [subst|]); [..|contradiction].

Lemma startswith_cons p ps c s :
  startswith (p :: ps) (c :: s) = (p =? c)%N && startswith ps s.
Proof. reflexivity. Qed.

Lemma not_alse rest :
  Forall (fun c => In c hexchars) rest -> startswith [97; 108; 115; 101]%N rest = false.
Proof.
  intros H. destruct rest as [|a [|b rest]]; [reflexivity| |].
  - rewrite startswith_cons. apply andb_false_r.
  - inversion H as [|? ? _ H']; subst. inversion H' as [|? ? Hb _]; subst.
    rewrite !startswith_cons.
    hex_cases Hb; cbn [N.eqb Pos.eqb andb]; apply andb_false_r.
Qed.

(** The first-character tests of the scanner on a known first character. *)
Ltac head_tests :=
  repeat match goal with
  | |- context [startswith (codes ?p) (_ :: _)] =>
      let l := eval vm_compute in (codes p) in
      change (codes p) with l; rewrite startswith_cons
  end;
  repeat match goal with
  | |- context [N.eqb ?a ?b] =>
      let v := eval vm_compute in (N.eqb a b) in change (N.eqb a b) with v
  end;
  cbn [andb].

(** On a text that starts with a hexadecimal character, and whose other
    characters are hexadecimal too, the scanner tries a number and nothing
    else. *)
Lemma scan_scalar_hex c rest :
  In c hexchars -> Forall (fun c => In c hexchars) rest ->
  Json.scan_scalar (c :: rest) = Json.match_number (c :: rest).
Proof.
  intros Hc Hrest. pose proof (not_alse rest Hrest) as Halse.
  unfold Json.scan_scalar.
  hex_cases Hc; head_tests; rewrite ?Halse;
    destruct (Json.match_number _) as [[v r]|]; reflexivity.
Qed.

Lemma scan_once_hex fuel c rest :
  In c hexchars -> Json.scan_once (S fuel) (c :: rest) = Json.scan_scalar (c :: rest).
Proof. intros Hc. hex_cases Hc; reflexivity. Qed.

(** [json.loads] of a text of hexadecimal characters fails or gives a
    number. *)
Lemma loads_hex s :
  s <> [] -> Forall (fun c => In c hexchars) s ->
  Json.loads s = Raise JSONDecodeError \/
  (exists z, Json.loads s = Ok (JInt z)) \/ (exists f, Json.loads s = Ok (JFloat f)).
Proof.
  intros Hne Hs. destruct s as [|c rest]; [contradiction|].
  inversion Hs as [|? ? Hc Hrest]; subst.
  assert (Hloads : Json.loads (c :: rest)
                   = match Json.match_number (c :: rest) with
                     | Some (v, r) =>
                         match Json.skip_ws r with
                         | [] => Ok v
                         | _ :: _ => Raise JSONDecodeError
                         end
                     | None => Raise JSONDecodeError
                     end).
  { rewrite <- (scan_scalar_hex c rest Hc Hrest).
    rewrite <- (scan_once_hex (length (c :: rest)) c rest Hc).
    pose proof Hc as Hc'.
    hex_cases Hc'; reflexivity. }
  rewrite Hloads.
  destruct (Json.match_number (c :: rest)) as [[v r]|] eqn:Hm; [|auto].
  destruct (Json.skip_ws r); [|auto].
  destruct (match_number_kind _ _ _ Hm) as [[z ->]|[f ->]]; eauto.
Qed.

Section KeyAsArgument.

Context {world image : Type}.
Context (images_of : world -> ImageCollection -> result (list image)).
Context (reduceRegion_mean : image -> Geometry -> Z -> pystr -> result float).
Context (image_date : image -> pystr).
Context (serve : world -> request -> world).
Context (valid_coordinates : json -> json -> bool).

Local Abbreviation body :=
  (get_point_data_cached_body images_of reduceRegion_mean image_date serve
     valid_coordinates).
Local Abbreviation lru_fetch :=
  (get_point_data_cached images_of reduceRegion_mean image_date serve valid_coordinates).

(** The body of [get_point_data_cached] on a text of hexadecimal
    characters: the text is not a JSON document, or it is a JSON number,
    which has no items; either way the call raises with the gateway
    untouched. *)
Lemma body_on_hex self key r :
  key <> [] -> Forall (fun c => In c hexchars) key ->
  body self key r = (Raise JSONDecodeError, r) \/ body self key r = (Raise TypeError, r).
Proof.
  intros Hne Hhex. unfold get_point_data_cached_body, bind, lift.
  destruct (loads_hex key Hne Hhex) as [->|[[z ->]|[f ->]]]; auto.
Qed.

(** C9, amended: called with a key made by [_generate_cache_key], on a
    cache that does not hold it, [get_point_data_cached] raises before any
    request is sent and stores nothing; the exception is JSONDecodeError,
    or TypeError when the digest reads as a JSON number. *)
Theorem digest_key_raises_before_any_request self lat lon kwargs c r :
  let key := _generate_cache_key lat lon kwargs in
  Lru.lookup (ident self, key) c = None ->
  lru_fetch self key c r = (Raise JSONDecodeError, c, r) \/
  lru_fetch self key c r = (Raise TypeError, c, r).
Proof.
  intros key Hmiss. unfold get_point_data_cached.
  rewrite call_miss by exact Hmiss.
  destruct (cache_key_hex lat lon kwargs) as [Hlen Hhex]. fold key in Hlen, Hhex.
  assert (Hne : key <> []) by (intros E; rewrite E in Hlen; discriminate Hlen).
  destruct (body_on_hex self key r Hne Hhex) as [-> | ->]; auto.
Qed.

End KeyAsArgument.

(** C9 as stated fails: the key of the point (60.1547, -105.0) under the
    settings 2010, 2050, ssp585 is a digest made of decimal digits only,
    [json.loads] reads it as an int, and the call raises TypeError, not a
    JSON decoding error. *)
Lemma decimal_digest_raises_TypeError :
  let key := _generate_cache_key 60.1547 (-105) (key_kwargs Stub.default_analyzer) in
  key = codes "30327364044454766078085610736335" /\
  Json.loads key = Ok (JInt 30327364044454766078085610736335) /\
  Stub.get_point_data_cached 12 Stub.default_analyzer key [] Stub.fresh
  = (Raise TypeError, [], Stub.fresh).
Proof. by_evaluation. Qed.

Lemma digest_key_raises_before_any_request_witness :
  let key := _generate_cache_key 40 (-105) (key_kwargs Stub.analyzer) in
  Lru.lookup (ident Stub.analyzer, key) ([] : Lru.cache (nat * pystr) CachedPointData) = None /\
  Stub.get_point_data_cached 12 Stub.analyzer key [] Stub.fresh
  = (Raise JSONDecodeError, [], Stub.fresh).
Proof.
  intros key.
  assert (Hmiss : Lru.lookup (ident Stub.analyzer, key)
                    ([] : Lru.cache (nat * pystr) CachedPointData) = None) by reflexivity.
  split; [exact Hmiss|].
  destruct (digest_key_raises_before_any_request (Stub.images_of 12) Stub.reduceRegion_mean
              Stub.image_date Stub.serve Stub.valid_coordinates
              Stub.analyzer 40%float (-105)%float (key_kwargs Stub.analyzer) [] Stub.fresh Hmiss)
    as [H|H]; [exact H|].
  exfalso.
  assert (Hrun : fst (fst (Stub.get_point_data_cached 12 Stub.analyzer key [] Stub.fresh))
                 = Raise JSONDecodeError) by (vm_compute; reflexivity).
  unfold Stub.get_point_data_cached in Hrun. fold key in H. rewrite H in Hrun.
  discriminate Hrun.
Defined.

(** *** Collisions *)

Lemma bounded_search (P : nat -> Prop) (dec : forall i, {P i} + {~ P i}) n :
  (exists i, (i <= n)%nat /\ P i) \/ (forall i, (i <= n)%nat -> ~ P i).
Proof.
  induction n as [|n IH].
  - destruct (dec 0%nat) as [H|H].
    + left. exists 0%nat. auto.
    + right. intros i Hi. replace i with 0%nat by lia. exact H.
  - destruct IH as [(i & Hi & HP)|Hnone].
    + left. exists i. split; [lia|exact HP].
    + destruct (dec (S n)) as [H|H].
      * left. exists (S n). auto.
      * right. intros i Hi. destruct (Nat.eq_dec i (S n)) as [->|Hne]; [exact H|].
        apply Hnone. lia.
Qed.

(** [n + 1] values below [n] cannot be pairwise distinct. *)
Lemma pigeonhole n (f : nat -> nat) :
  (forall i, (i <= n)%nat -> (f i < n)%nat) ->
  exists i j, (i < j <= n)%nat /\ f i = f j.
Proof.
  revert f. induction n as [|n IH]; intros f Hf.
  - specialize (Hf 0%nat (Nat.le_refl 0)). lia.
  - destruct (bounded_search (fun i => f i = f (S n)) (fun i => Nat.eq_dec _ _) n)
      as [(i & Hi & Heq)|Hnone].
    + exists i, (S n). split; [lia|exact Heq].
    + set (g := fun i => if Nat.eq_dec (f i) n then f (S n) else f i).
      assert (Hg : forall i, (i <= n)%nat -> (g i < n)%nat).
      { intros i Hi. unfold g. pose proof (Hf i ltac:(lia)). pose proof (Hf (S n) ltac:(lia)).
        pose proof (Hnone i Hi).
        destruct (Nat.eq_dec (f i) n); lia. }
      destruct (IH g Hg) as (i & j & Hij & Heq).
      unfold g in Heq.
      destruct (Nat.eq_dec (f i) n) as [Hi|Hi], (Nat.eq_dec (f j) n) as [Hj|Hj].
      * exists i, j. split; [lia|congruence].
      * exfalso. apply (Hnone j ltac:(lia)). congruence.
      * exfalso. apply (Hnone i ltac:(lia)). congruence.
      * exists i, j. split; [lia|exact Heq].
Qed.

Lemma pigeonhole_Z (N : Z) (g : Z -> Z) :
  (forall i, 0 <= g i < N) -> exists i j, 0 <= i < j /\ g i = g j.
Proof.
  intros Hg.
  destruct (pigeonhole (Z.to_nat N) (fun i => Z.to_nat (g (Z.of_nat i)))) as (i & j & Hij & Heq).
  - intros i _. pose proof (Hg (Z.of_nat i)). apply Z2Nat.inj_lt; lia.
  - exists (Z.of_nat i), (Z.of_nat j). split; [lia|].
    pose proof (Hg (Z.of_nat i)). pose proof (Hg (Z.of_nat j)).
    apply Z2Nat.inj; lia.
Qed.

Lemma add32_range x y : 0 <= MD5.add32 x y < 2 ^ 32.
Proof. unfold MD5.add32, MD5.wrap32. apply Z.mod_pos_bound. reflexivity. Qed.

Lemma compress_range st m : word_range (MD5.compress st m).
Proof. unfold MD5.compress, word_range. cbn [MD5.sa MD5.sb MD5.sc MD5.sd].
  repeat split; apply add32_range. Qed.

Lemma digest_state_range msg : word_range (MD5.digest_state msg).
Proof.
  unfold MD5.digest_state.
  assert (H : forall blocks st, word_range st -> word_range (fold_left MD5.compress blocks st)).
  { induction blocks as [|b blocks IH]; intros st Hst; [exact Hst|].
    cbn [fold_left]. apply IH, compress_range. }
  apply H. unfold word_range. cbn [MD5.init MD5.sa MD5.sb MD5.sc MD5.sd]. lia.
Qed.

Lemma digit_bound B M a x : 0 <= a < B -> 0 <= x < M -> 0 <= a + B * x < B * M.
Proof.
  intros Ha Hx. split; [nia|].
  assert (B * x <= B * (M - 1)) by (apply Z.mul_le_mono_nonneg_l; lia).
  lia.
Qed.

Lemma state_code_bound st : word_range st -> 0 <= state_code st < 2 ^ 128.
Proof.
  unfold word_range, state_code. destruct st as [a b c d]. cbn [MD5.sa MD5.sb MD5.sc MD5.sd].
  intros (Ha & Hb & Hc & Hd).
  change (2 ^ 128) with (2 ^ 32 * (2 ^ 32 * (2 ^ 32 * 2 ^ 32))).
  repeat apply digit_bound; assumption.
Qed.

Lemma digit_unique B a1 x1 a2 x2 :
  0 <= a1 < B -> 0 <= a2 < B -> a1 + B * x1 = a2 + B * x2 -> a1 = a2 /\ x1 = x2.
Proof.
  intros H1 H2 H.
  destruct (Z.div_mod_unique B x1 x2 a1 a2) as [Hq Hr]; [left; exact H1|left; exact H2|lia|].
  split; assumption.
Qed.

Lemma state_code_inj st1 st2 :
  word_range st1 -> word_range st2 -> state_code st1 = state_code st2 -> st1 = st2.
Proof.
  unfold word_range, state_code. destruct st1 as [a1 b1 c1 d1], st2 as [a2 b2 c2 d2].
  cbn [MD5.sa MD5.sb MD5.sc MD5.sd].
  intros (Ha1 & Hb1 & Hc1 & Hd1) (Ha2 & Hb2 & Hc2 & Hd2) H.
  apply digit_unique in H; [|assumption|assumption]. destruct H as [-> H].
  apply digit_unique in H; [|assumption|assumption]. destruct H as [-> H].
  apply digit_unique in H; [|assumption|assumption]. destruct H as [-> ->].
  reflexivity.
Qed.

Lemma hexdigest_of_state m1 m2 :
  MD5.digest_state m1 = MD5.digest_state m2 -> MD5.hexdigest m1 = MD5.hexdigest m2.
Proof. intros H. unfold MD5.hexdigest, MD5.digest. rewrite H. reflexivity. Qed.

(** Two requests that differ in the end year only and have the same
    fingerprint exist: there are more end years than digests. *)
Lemma fingerprint_collision :
  exists e1 e2,
    2010 < e1 /\ 2010 < e2 /\ e1 <> e2 /\
    fingerprint (init 0 2010 e1 (codes "ssp585")) 40 (-105)
    = fingerprint (init 0 2010 e2 (codes "ssp585")) 40 (-105).
Proof.
  set (msg := fun e : Z =>
    encode (Json.dumps (JObj (fold_left (fun d kv => dict_set kv.1 kv.2 d)
                                (key_kwargs (init 0 2010 e (codes "ssp585")))
                                [(codes "lat", JFloat (PyFloat.round 40 4));
                                 (codes "lon", JFloat (PyFloat.round (-105) 4))])))).
  destruct (pigeonhole_Z (2 ^ 128) (fun i => state_code (MD5.digest_state (msg (2011 + i)))))
    as (i & j & Hij & Heq).
  - intros i. apply state_code_bound, digest_state_range.
  - exists (2011 + i), (2011 + j). repeat split; try lia.
    apply state_code_inj in Heq; try apply digest_state_range.
    apply (hexdigest_of_state (msg (2011 + i)) (msg (2011 + j))), Heq.
Qed.

(** Two doubles that [==] holds of are the same double, unless both are
    zeros. *)
Lemma eqb_same_double (x y : float) :
  PrimFloat.eqb x y = true ->
  x = y \/ exists s1 s2, Prim2SF x = S754_zero s1 /\ Prim2SF y = S754_zero s2.
Proof.
  intros H. rewrite FloatAxioms.eqb_spec in H. unfold SFeqb, SFcompare in H.
  destruct (Prim2SF x) as [sx|sx| |sx mx ex] eqn:Hx,
           (Prim2SF y) as [sy|sy| |sy my ey] eqn:Hy;
    try discriminate H; try (destruct sx; discriminate H); try (destruct sy; discriminate H).
  - right. eauto.
  - left. rewrite <- (SF2Prim_Prim2SF x), <- (SF2Prim_Prim2SF y), Hx, Hy.
    destruct sx, sy; try discriminate H; reflexivity.
  - left. rewrite <- (SF2Prim_Prim2SF x), <- (SF2Prim_Prim2SF y), Hx, Hy.
    change (Pos.compare_cont Eq mx my) with (Pos.compare mx my) in H.
    destruct sx, sy; try discriminate H;
      destruct (Z.compare_spec ex ey) as [->| |]; try discriminate H;
      destruct (Pos.compare_spec mx my) as [->| |]; try discriminate H; reflexivity.
Qed.

(** Requests with the same scenario, the same years and coordinates that
    round to the same double have the same key. *)
Lemma equal_parameters_equal_fingerprint s1 lat1 lon1 s2 lat2 lon2 :
  scenario s1 = scenario s2 ->
  start_year s1 = start_year s2 ->
  end_year s1 = end_year s2 ->
  PyFloat.round lat1 4 = PyFloat.round lat2 4 ->
  PyFloat.round lon1 4 = PyFloat.round lon2 4 ->
  fingerprint s1 lat1 lon1 = fingerprint s2 lat2 lon2.
Proof.
  intros Hs Hy He Hlat Hlon.
  unfold fingerprint, _generate_cache_key, key_kwargs.
  rewrite Hs, Hy, He, Hlat, Hlon. reflexivity.
Qed.

(** Away from zero the key follows the parameters: two requests with the
    same scenario, the same years and coordinates that are equal after
    rounding have the same key, as long as no rounded coordinate is a
    zero. *)
Lemma same_parameters_same_fingerprint s1 lat1 lon1 s2 lat2 lon2 :
  same_parameters (s1, lat1, lon1) (s2, lat2, lon2) ->
  PrimFloat.eqb (PyFloat.round lat1 4) 0 = false ->
  PrimFloat.eqb (PyFloat.round lon1 4) 0 = false ->
  fingerprint s1 lat1 lon1 = fingerprint s2 lat2 lon2.
Proof.
  intros (Hs & Hy & He & Hlat & Hlon) Hlat0 Hlon0. unfold rounded_equal in Hlat, Hlon.
  assert (Hzero : forall x s, Prim2SF x = S754_zero s -> PrimFloat.eqb x 0 = true).
  { intros x s Hx. rewrite FloatAxioms.eqb_spec, Hx. reflexivity. }
  apply equal_parameters_equal_fingerprint; try assumption.
  - destruct (eqb_same_double _ _ Hlat) as [H|(sa & sb & Ha & _)]; [exact H|].
    rewrite (Hzero _ _ Ha) in Hlat0. discriminate Hlat0.
  - destruct (eqb_same_double _ _ Hlon) as [H|(sa & sb & Ha & _)]; [exact H|].
    rewrite (Hzero _ _ Ha) in Hlon0. discriminate Hlon0.
Qed.

(** C7: the key function misses the sign of a zero.  Take two clicks a
    hundred-thousandth of a degree on either side of the equator, at the
    same longitude and under the same settings.  Their latitudes are equal
    after rounding to four decimals (-0.0 == 0.0), so the two requests
    have the same scenario, the same years and the same rounded
    coordinates; but [round] keeps the sign of the zero, the text that is
    hashed holds -0.0 for one click and 0.0 for the other, and the two
    requests get different keys. *)
Theorem signed_zero_gets_its_own_key :
  let south := (Stub.default_analyzer, (-0.00001)%float, (-105)%float) in
  let north := (Stub.default_analyzer, 0.00001%float, (-105)%float) in
  same_parameters south north /\
  PyFloat.json_repr (PyFloat.round (-0.00001) 4) = codes "-0.0" /\
  PyFloat.json_repr (PyFloat.round 0.00001 4) = codes "0.0" /\
  fingerprint Stub.default_analyzer (-0.00001) (-105)
  = codes "178f54338ecdd11ed356c3f08cddbda7" /\
  fingerprint Stub.default_analyzer 0.00001 (-105)
  = codes "466aaaf177494484cf77fa8436ef42fd" /\
  fingerprint Stub.default_analyzer (-0.00001) (-105)
  <> fingerprint Stub.default_analyzer 0.00001 (-105).
Proof.
  intros south north.
  split; [cbv [south north same_parameters]; by_evaluation|].
  split; [vm_compute; reflexivity|]. split; [vm_compute; reflexivity|].
  split; [vm_compute; reflexivity|]. split; [vm_compute; reflexivity|].
  intros H. vm_compute in H. discriminate H.
Qed.

(* ===================================================================== *)
(** * Further properties of the code                                      *)
(* ===================================================================== *)

(** ** The key function *)

(** X1: whatever the coordinates and the keyword arguments, the key that
    [_generate_cache_key] returns is a text of exactly 32 characters, each
    of them one of 0-9 and a-f. *)
Theorem cache_key_is_hex_digest lat lon kwargs :
  length (_generate_cache_key lat lon kwargs) = 32%nat /\
  Forall (fun c => In c (codes "0123456789abcdef")) (_generate_cache_key lat lon kwargs).
Proof.
  unfold _generate_cache_key. split; [apply hexdigest_length|apply hex_of_bytes_hex].
Qed.

(** ** The application script *)

(** A text that starts with an opening brace and a single quote is not a
    JSON document. *)
Lemma loads_brace_quote rest : Json.loads (123 :: 39 :: rest)%N = Raise JSONDecodeError.
Proof. reflexivity. Qed.

Lemma str_data_head isprintable data :
  exists rest, str_data isprintable data = (123 :: 39 :: rest)%N.
Proof. eexists. unfold str_data, as_dict. cbn [repr]. reflexivity. Qed.

Section FormattingStep.

Context {world image : Type}.
Context (images_of : world -> ImageCollection -> result (list image)).
Context (reduceRegion_mean : image -> Geometry -> Z -> pystr -> result float).
Context (image_date : image -> pystr).
Context (distinct_models : world -> ImageCollection -> result (list pystr)).
Context (serve : world -> request -> world).
Context (valid_coordinates : json -> json -> bool).
Context (loads_point_data : pystr -> result PointData).
Context (isprintable : N -> bool).

Local Abbreviation on_click :=
  (click images_of reduceRegion_mean image_date distinct_models serve valid_coordinates).
Local Abbreviation block :=
  (fetch_and_format images_of reduceRegion_mean image_date distinct_models serve
     valid_coordinates loads_point_data isprintable).

(** X2: the application passes [str(data)] to [format_data_for_plotting].
    That text starts with an opening brace and a single quote, so
    [json.loads] refuses it for every dataset.  Hence the block that
    fetches and formats never yields a table: when the retrieval returns a
    dataset the block raises JSONDecodeError, otherwise it raises what the
    retrieval raised; and nothing is ever stored in the two caches of the
    formatting step. *)
Theorem formatting_step_never_returns_a_table analyzer lat lon now (c : st_cache) r :
  (forall s e, Json.loads s = Raise e -> loads_point_data s = Raise e) ->
  (forall data, Json.loads (str_data isprintable data) = Raise JSONDecodeError) /\
  (let '(out, _, store', lru', _) := block analyzer lat lon now c ∅ [] r in
   store' = ∅ /\ lru' = [] /\
   match fst (fst (on_click analyzer lat lon now c r)) with
   | Ok _ => out = Raise JSONDecodeError
   | Raise e => out = Raise e
   end).
Proof.
  intros Hloads.
  assert (Hstr : forall data, Json.loads (str_data isprintable data) = Raise JSONDecodeError).
  { intros data. destruct (str_data_head isprintable data) as [rest ->].
    apply loads_brace_quote. }
  split; [exact Hstr|].
  unfold fetch_and_format.
  destruct (on_click analyzer lat lon now c r) as [[[data|e] c'] r']; cbn [fst].
  - unfold get_formatted_data. rewrite lookup_empty.
    unfold format_data_for_plotting, Lru.call. cbn [Lru.lookup].
    unfold format_data_for_plotting_body.
    rewrite (Hloads _ _ (Hstr data)). cbn [rbind]. auto.
  - auto.
Qed.

End FormattingStep.

Lemma formatting_step_never_returns_a_table_witness :
  let loads := fun s => match Json.loads s with Ok _ => Ok Stub.data | Raise e => Raise e end in
  (forall s e, Json.loads s = Raise e -> loads s = Raise e) /\
  fst (fst (Stub.click 12 Stub.analyzer 40 (-105) 0 ∅ Stub.fresh)) = Ok Stub.data /\
  Json.loads (str_data (fun _ => true) Stub.data) = Raise JSONDecodeError.
Proof.
  intros loads.
  assert (H : forall s e, Json.loads s = Raise e -> loads s = Raise e).
  { intros s e Hs. unfold loads. rewrite Hs. reflexivity. }
  split; [exact H|]. split; [vm_compute; reflexivity|].
  exact (proj1 (formatting_step_never_returns_a_table (Stub.images_of 12)
                  Stub.reduceRegion_mean Stub.image_date Stub.distinct_models Stub.serve
                  Stub.valid_coordinates loads (fun _ => true)
                  Stub.analyzer 40%float (-105)%float 0 ∅ Stub.fresh H) Stub.data).
Defined.

(** The text that the application passes for the dataset of the stub
    gateway. *)
Example str_data_text :
  str_data (fun _ => true)
    {| gldas := [0; 1.5]%float;
       cmip6_models := [(codes "A", [10]%float)];
       metadata := {| md_lat := JFloat 40; md_lon := JFloat (-105);
                      md_scenario := codes "ssp585"; md_models := [codes "A"] |} |}
  = codes "{'gldas': [0.0, 1.5], 'cmip6_models': {'A': [10.0]}, 'metadata': {'lat': 40.0, 'lon': -105.0, 'scenario': 'ssp585', 'models': ['A']}}".
Proof. vm_compute. reflexivity. Qed.

(** *** The sidebar *)

Lemma length_months {A} (f : nat -> list A) l :
  (forall y, length (f y) = 12%nat) -> length (flat_map f l) = (12 * length l)%nat.
Proof.
  intros Hf. induction l as [|y l IH]; [reflexivity|].
  cbn [flat_map]. rewrite length_app, Hf, IH. cbn [length]. lia.
Qed.

(** The axis has twelve months for each year from the first to the last. *)
Lemma date_range_months_length a b dates :
  date_range_months a b = Ok dates -> length dates = (12 * Z.to_nat (b - a + 1))%nat.
Proof.
  unfold date_range_months.
  destruct ((1678 <=? a) && (a <=? 2262) && (1677 <=? b) && (b <=? 2261)); [|discriminate].
  intros H. injection H as <-.
  rewrite length_months; [rewrite length_seq; reflexivity|].
  intros y. reflexivity.
Qed.

(** X3: for every setting that the sidebar offers, the start year is
    before the end year, the month axis of the analyzer exists (the years
    fit a pandas Timestamp), and it has twelve months for each year from the
    start year to the end year: between 24 and 492 months. *)
Theorem offered_settings_give_an_axis id p :
  offered p ->
  let '(start, stop, scenario) := p in
  let analyzer := init id start stop scenario in
  start < stop /\
  exists dates,
    date_range_months (start_year analyzer) (end_year analyzer) = Ok dates /\
    Z.of_nat (length dates) = 12 * (stop - start + 1) /\
    (24 <= length dates <= 492)%nat.
Proof.
  destruct p as [[start stop] scenario]. intros (Hs & He & _).
  cbn [init start_year end_year]. split; [lia|].
  destruct (date_range_months start stop) as [dates|e] eqn:Hd.
  - exists dates. split; [reflexivity|].
    apply date_range_months_length in Hd. lia.
  - exfalso. unfold date_range_months in Hd.
    replace ((1678 <=? start) && (start <=? 2262) && (1677 <=? stop) && (stop <=? 2261))
      with true in Hd; [discriminate Hd|].
    symmetry. rewrite !andb_true_iff, !Z.leb_le. lia.
Qed.

Lemma offered_settings_give_an_axis_witness :
  offered (2010, 2050, codes "ssp585") /\
  exists dates, date_range_months 2010 2050 = Ok dates /\ length dates = 492%nat.
Proof.
  assert (H : offered (2010, 2050, codes "ssp585")).
  { cbn. repeat split; try lia. auto. }
  split; [exact H|].
  destruct (offered_settings_give_an_axis 0 (2010, 2050, codes "ssp585") H)
    as (_ & dates & Hd & Hl & _).
  exists dates. split; [exact Hd|lia].
Defined.

(** *** The session state *)

Lemma reinitialize_ok p initialize st :
  session_ok st -> session_ok (snd (reinitialize p initialize st)).
Proof.
  intros H. unfold reinitialize.
  destruct (decide (ss_last_params st = Some p)); [exact H|].
  destruct p as [[s e] sc]. destruct initialize as [u|err]; cbn [new_analyzer snd]; [|exact H].
  intros q Hq. cbn in Hq. injection Hq as <-.
  eexists. repeat split; reflexivity.
Qed.

Lemma session_after_ok runs st : session_ok st -> session_ok (session_after runs st).
Proof.
  unfold session_after. revert st.
  induction runs as [|[p initialize] runs IH]; intros st H; [exact H|].
  cbn [fold_left fst snd]. apply IH, reinitialize_ok, H.
Qed.

Lemma reinitialize_same p initialize st :
  ss_last_params st = Some p -> reinitialize p initialize st = (Ok tt, st).
Proof.
  intros H. unfold reinitialize.
  destruct (decide (ss_last_params st = Some p)); [reflexivity|contradiction].
Qed.

(** X4: the session through any sequence of runs of the script, runs in
    which [ee.Initialize()] raised included.  At every moment the
    parameters that the session records are those of the analyzer it
    holds, whose historical cutoff is 2022.  A run that gets past the check
    ends with an analyzer for the years and the scenario of that run and
    with these recorded, and a further run with the same parameters makes
    no new object and leaves the session as it is, whatever
    [ee.Initialize()] would do then.  A run raises at the check only when
    its parameters are not the recorded ones and [ee.Initialize()] raises;
    the session is then left as it was. *)
Theorem session_analyzer_follows_sidebar runs p initialize :
  let st := session_after runs new_session in
  session_ok st /\
  match reinitialize p initialize st with
  | (Ok _, st') =>
      (exists a, ss_analyzer st' = Some a /\
                 start_year a = p.1.1 /\ end_year a = p.1.2 /\ scenario a = p.2 /\
                 historical_cutoff a = 2022) /\
      ss_last_params st' = Some p /\
      forall initialize', reinitialize p initialize' st' = (Ok tt, st')
  | (Raise e, st') =>
      initialize = Raise e /\ st' = st /\ ss_last_params st <> Some p
  end.
Proof.
  intros st.
  assert (Hok : session_ok st).
  { apply session_after_ok. intros q Hq. discriminate Hq. }
  split; [exact Hok|].
  destruct (decide (ss_last_params st = Some p)) as [Hlast|Hlast].
  - rewrite (reinitialize_same p initialize st Hlast).
    split; [|split; [exact Hlast|]].
    + destruct (Hok p Hlast) as (a & Ha & Hp & Hcut). exists a. split; [exact Ha|].
      unfold params_of in Hp. subst p. cbn [fst snd]. repeat split. exact Hcut.
    + intros initialize'. apply reinitialize_same, Hlast.
  - unfold reinitialize at 1.
    destruct (decide (ss_last_params st = Some p)); [contradiction|].
    destruct p as [[s e] sc]. destruct initialize as [u|err]; cbn [new_analyzer].
    + split; [|split; [reflexivity|]].
      * eexists. repeat split; reflexivity.
      * intros initialize'. apply reinitialize_same. reflexivity.
    + split; [reflexivity|]. split; [reflexivity|exact Hlast].
Qed.

(** ** The aggregated table *)

Lemma covers_false n raw_data :
  covers n raw_data = false ->
  (length (gldas raw_data) < n)%nat \/
  exists m data, In (m, data) (cmip6_models raw_data) /\ (length data < n)%nat.
Proof.
  unfold covers. rewrite andb_false_iff, Nat.leb_gt. intros [H|H]; [auto|].
  right. induction (cmip6_models raw_data) as [|[m data] items IH]; [discriminate H|].
  cbn [forallb] in H. apply andb_false_iff in H. destruct H as [H|H].
  - apply Nat.leb_gt in H. exists m, data. split; [left; reflexivity|exact H].
  - destruct (IH H) as (m' & data' & Hin & Hlt). exists m', data'. split; [right|]; assumption.
Qed.

Lemma date_range_months_ok a b :
  1678 <= a <= 2262 -> 1677 <= b <= 2261 ->
  exists dates, date_range_months a b = Ok dates.
Proof.
  intros Ha Hb. unfold date_range_months.
  destruct (Z.leb_spec 1678 a), (Z.leb_spec a 2262), (Z.leb_spec 1677 b), (Z.leb_spec b 2261);
    try lia.
  cbn [andb]. eauto.
Qed.

(** X5: the outcome of building the table, in full, for the years that
    pandas can date: a start year from 1678 to 2262 and an end year from
    1677 to 2261.  The axis then has twelve months for each year from the
    start year to the end year.  The construction raises ValueError as soon
    as the historical series or one model series has fewer values than the
    axis has months, and in every other case it returns the table.  It
    raises nothing else. *)
Theorem format_raw_data_outcome self raw_data :
  1678 <= start_year self <= 2262 ->
  1677 <= end_year self <= 2261 ->
  exists dates,
    date_range_months (start_year self) (end_year self) = Ok dates /\
    Z.of_nat (length dates) = 12 * Z.max 0 (end_year self - start_year self + 1) /\
    format_raw_data self raw_data
    = if covers (length dates) raw_data then Ok (aggregated dates raw_data)
      else Raise ValueError.
Proof.
  intros Hs He.
  destruct (date_range_months_ok _ _ Hs He) as [dates Hd].
  exists dates. split; [exact Hd|]. split.
  - rewrite (date_range_months_length _ _ _ Hd). lia.
  - destruct (covers (length dates) raw_data) eqn:Hc.
    + apply covers_spec in Hc. destruct Hc as [Hg Hm].
      apply format_raw_data_ok; assumption.
    + apply (short_series_raises self raw_data dates Hd), covers_false, Hc.
Qed.

Lemma format_raw_data_outcome_witness :
  let short :=
    {| gldas := repeat 0%float 11;
       cmip6_models := cmip6_models Stub.data;
       metadata := metadata Stub.data |} in
  1678 <= start_year Stub.analyzer <= 2262 /\
  1677 <= end_year Stub.analyzer <= 2261 /\
  format_raw_data Stub.analyzer Stub.data = Ok (aggregated Stub.axis Stub.data) /\
  format_raw_data Stub.analyzer short = Raise ValueError.
Proof.
  intros short.
  assert (Hs : 1678 <= start_year Stub.analyzer <= 2262) by (cbn; lia).
  assert (He : 1677 <= end_year Stub.analyzer <= 2261) by (cbn; lia).
  assert (Hax : date_range_months (start_year Stub.analyzer) (end_year Stub.analyzer)
                = Ok Stub.axis) by (vm_compute; reflexivity).
  split; [exact Hs|]. split; [exact He|]. split.
  - destruct (format_raw_data_outcome Stub.analyzer Stub.data Hs He) as (dates & Hd & _ & H).
    rewrite Hax in Hd. injection Hd as <-. rewrite H. reflexivity.
  - destruct (format_raw_data_outcome Stub.analyzer short Hs He) as (dates & Hd & _ & H).
    rewrite Hax in Hd. injection Hd as <-. rewrite H. reflexivity.
Defined.

Lemma model_columns_NoDup n items cols :
  List.NoDup (map fst cols) -> List.NoDup (map fst (model_columns n items cols)).
Proof.
  unfold model_columns. revert cols.
  induction items as [|md items IH]; cbn [fold_left]; intros cols H; [exact H|].
  apply IH, dict_set_NoDup, H.
Qed.

(** X6: for the years that pandas can date (a start year from 1678 to
    2262, an end year from 1677 to 2261), a table that the construction
    returns has twelve rows for each year from the start year to the end
    year of the analyzer; its [date] column is the month axis; every one of
    its columns has as many values as the table has rows; and no two
    columns have the same name. *)
Theorem table_is_well_formed self raw_data t :
  1678 <= start_year self <= 2262 ->
  1677 <= end_year self <= 2261 ->
  format_raw_data self raw_data = Ok t ->
  Z.of_nat (nrows t) = 12 * Z.max 0 (end_year self - start_year self + 1) /\
  (exists dates,
     date_range_months (start_year self) (end_year self) = Ok dates /\
     dict_get (codes "date") (columns t) = Some (DateCol dates)) /\
  Forall (fun nc : pystr * column => column_length nc.2 = nrows t) (columns t) /\
  List.NoDup (map fst (columns t)).
Proof.
  intros _ _ Ht. apply format_raw_data_inv in Ht.
  destruct Ht as (dates & Hd & Hg & Hm & ->).
  split; [|split; [|split]].
  - cbn [aggregated nrows]. rewrite (date_range_months_length _ _ _ Hd). lia.
  - exists dates. split; [exact Hd|].
    unfold aggregated. cbn [columns].
    rewrite !dict_get_set_ne by (vm_compute; discriminate).
    rewrite model_columns_get_other by reflexivity. reflexivity.
  - apply List.Forall_forall. intros [name col] Hin. cbn [snd].
    unfold aggregated in *. cbn [columns nrows] in *.
    repeat match type of Hin with
    | In _ (dict_set ?k _ _) =>
        apply dict_set_In in Hin; destruct Hin as [[_ ->]|Hin]
    end; cbn [column_length].
    + rewrite length_minus_twice; rewrite length_mean_axis1; [reflexivity|].
      rewrite length_std_axis1. reflexivity.
    + rewrite length_plus_twice; rewrite length_mean_axis1; [reflexivity|].
      rewrite length_std_axis1. reflexivity.
    + apply length_std_axis1.
    + apply length_mean_axis1.
    + apply model_columns_In in Hin. destruct Hin as [Hin|(m & data & Hin & _ & ->)].
      * destruct Hin as [Hin|[Hin|[]]]; injection Hin as _ <-; cbn [column_length];
          [reflexivity|]. rewrite length_firstn. lia.
      * cbn [column_length]. rewrite length_firstn.
        rewrite List.Forall_forall in Hm. specialize (Hm _ Hin). cbn [snd] in Hm. lia.
  - unfold aggregated. cbn [columns].
    repeat apply dict_set_NoDup. apply model_columns_NoDup.
    cbn [map fst]. constructor; [|constructor; [intros []|constructor]].
    intros [H|[]]. vm_compute in H. discriminate H.
Qed.

Lemma table_is_well_formed_witness :
  1678 <= start_year Stub.scenario_analyzer <= 2262 /\
  1677 <= end_year Stub.scenario_analyzer <= 2261 /\
  format_raw_data Stub.scenario_analyzer (Stub.scenario_data 36) = Ok Stub.scenario_table /\
  Z.of_nat (nrows Stub.scenario_table) = 36.
Proof.
  assert (Hs : 1678 <= start_year Stub.scenario_analyzer <= 2262) by (cbn; lia).
  assert (He : 1677 <= end_year Stub.scenario_analyzer <= 2261) by (cbn; lia).
  assert (H : format_raw_data Stub.scenario_analyzer (Stub.scenario_data 36)
              = Ok Stub.scenario_table) by (vm_compute; reflexivity).
  split; [exact Hs|]. split; [exact He|]. split; [exact H|].
  exact (proj1 (table_is_well_formed Stub.scenario_analyzer (Stub.scenario_data 36)
                  Stub.scenario_table Hs He H)).
Defined.

Lemma add_models_firstn n df items items' :
  map (fun md : pystr * list float => (md.1, firstn n md.2)) items
  = map (fun md : pystr * list float => (md.1, firstn n md.2)) items' ->
  add_models n df items = add_models n df items'.
Proof.
  revert df items'. induction items as [|[m data] items IH]; intros df [|[m' data'] items'] H;
    try discriminate H; [reflexivity|].
  cbn [map fst snd] in H. injection H as Hm Hdata Hrest. subst m'.
  cbn [add_models]. rewrite Hdata.
  destruct (setitem df (CMIP6_ ++ m) (firstn n data')); [|reflexivity].
  apply IH, Hrest.
Qed.

(** X7: the table depends on the first [len(dates)] values of each
    series only.  Two datasets whose series agree on these values, under
    the same model names in the same order, give the same outcome, whatever
    the later values of the series and whatever the metadata. *)
Theorem table_ignores_tail_and_metadata self d1 d2 dates :
  date_range_months (start_year self) (end_year self) = Ok dates ->
  firstn (length dates) (gldas d1) = firstn (length dates) (gldas d2) ->
  map (fun md : pystr * list float => (md.1, firstn (length dates) md.2)) (cmip6_models d1)
  = map (fun md : pystr * list float => (md.1, firstn (length dates) md.2)) (cmip6_models d2) ->
  format_raw_data self d1 = format_raw_data self d2.
Proof.
  intros Hd Hg Hm. unfold format_raw_data. rewrite Hd. cbn [rbind].
  rewrite Hg.
  destruct (DataFrame_of_dates dates (codes "GLDAS") (firstn (length dates) (gldas d2)))
    as [df|e]; [|reflexivity].
  cbn [rbind]. rewrite (add_models_firstn _ _ _ _ Hm). reflexivity.
Qed.

Lemma table_ignores_tail_and_metadata_witness :
  let longer :=
    {| gldas := repeat 0%float 12 ++ [99%float];
       cmip6_models := [(codes "A", repeat 10%float 12 ++ [99%float]);
                        (codes "B", repeat 20%float 12)];
       metadata := {| md_lat := JFloat 0; md_lon := JFloat 0;
                      md_scenario := codes "ssp126"; md_models := [] |} |} in
  date_range_months 2010 2010 = Ok Stub.axis /\
  format_raw_data Stub.analyzer Stub.data = format_raw_data Stub.analyzer longer.
Proof.
  intros longer.
  assert (Hd : date_range_months (start_year Stub.analyzer) (end_year Stub.analyzer)
               = Ok Stub.axis) by (vm_compute; reflexivity).
  split; [exact Hd|].
  apply (table_ignores_tail_and_metadata Stub.analyzer Stub.data longer Stub.axis Hd);
    vm_compute; reflexivity.
Defined.

(** *** Float facts *)

Lemma add_nan (a : float) : PrimFloat.add a nan = nan.
Proof.
  rewrite <- (SF2Prim_Prim2SF (PrimFloat.add a nan)), add_spec.
  change (Prim2SF nan) with S754_nan. unfold SF64add, SFadd.
  destruct (Prim2SF a); reflexivity.
Qed.

Lemma sub_nan (a : float) : PrimFloat.sub a nan = nan.
Proof.
  rewrite <- (SF2Prim_Prim2SF (PrimFloat.sub a nan)), sub_spec.
  change (Prim2SF nan) with S754_nan. unfold SF64sub, SFsub.
  destruct (Prim2SF a); reflexivity.
Qed.

Lemma count_valid_le row : (count_valid row <= length row)%nat.
Proof.
  unfold count_valid. induction row as [|x row IH]; [reflexivity|].
  cbn [filter]. destruct (negb (is_nan x)); cbn [length]; lia.
Qed.

Lemma nanstd_short row : (length row <= 1)%nat -> nanstd row = nan.
Proof.
  intros H. unfold nanstd. pose proof (count_valid_le row).
  destruct (decide (count_valid row <= 1)%nat); [reflexivity|lia].
Qed.

Lemma plus_twice_nan a n : length a = n -> plus_twice a (repeat nan n) = repeat nan n.
Proof.
  intros <-. unfold plus_twice. induction a as [|x a IH]; [reflexivity|].
  cbn [length repeat combine map fst snd]. rewrite IH.
  change (PrimFloat.mul 2 nan) with nan. rewrite add_nan. reflexivity.
Qed.

Lemma minus_twice_nan a n : length a = n -> minus_twice a (repeat nan n) = repeat nan n.
Proof.
  intros <-. unfold minus_twice. induction a as [|x a IH]; [reflexivity|].
  cbn [length repeat combine map fst snd]. rewrite IH.
  change (PrimFloat.mul 2 nan) with nan. rewrite sub_nan. reflexivity.
Qed.

Lemma dict_set_keys_shape {V} (k : pystr) (v : V) d :
  map fst (dict_set k v d) = map fst d \/ map fst (dict_set k v d) = map fst d ++ [k].
Proof.
  induction d as [|[k0 v0] d IH]; cbn [dict_set map fst app]; [auto|].
  destruct (decide (k0 = k)) as [->|Hne]; cbn [map fst]; [auto|].
  destruct IH as [-> | ->]; auto.
Qed.

(** The loop over the models adds at most one column per model. *)
Lemma model_columns_filter n items cols :
  (length (filter (startswith CMIP6_) (map fst (model_columns n items cols)))
   <= length (filter (startswith CMIP6_) (map fst cols)) + length items)%nat.
Proof.
  unfold model_columns. revert cols.
  induction items as [|md items IH]; cbn [fold_left length]; intros cols; [lia|].
  etransitivity; [apply IH|]. cbn beta.
  destruct (dict_set_keys_shape (CMIP6_ ++ md.1) (FloatCol (firstn n md.2)) cols) as [H|H];
    unfold pystr in *; rewrite H.
  - lia.
  - rewrite filter_app, length_app. cbn [filter].
    destruct (startswith CMIP6_ (CMIP6_ ++ md.1)); cbn [length]; lia.
Qed.

Lemma std_of_short_rows df names :
  (length names <= 1)%nat -> std_axis1 df names = repeat nan (nrows df).
Proof.
  intros H. unfold std_axis1, rows. rewrite map_map.
  rewrite <- (map_const_seq nan 0 (nrows df)).
  apply map_ext. intros i. apply nanstd_short. rewrite length_map. exact H.
Qed.

(** X8: with a single model, or none, there is no spread to compute:
    in every row of the table the ensemble std and both bounds are
    missing (NaN). *)
Theorem single_model_has_no_spread self raw_data t :
  format_raw_data self raw_data = Ok t ->
  (length (cmip6_models raw_data) <= 1)%nat ->
  getitem t (codes "CMIP6_std") = repeat nan (nrows t) /\
  getitem t (codes "CMIP6_upper") = repeat nan (nrows t) /\
  getitem t (codes "CMIP6_lower") = repeat nan (nrows t).
Proof.
  intros Ht Hone. apply format_raw_data_inv in Ht. destruct Ht as (dates & _ & _ & _ & ->).
  destruct (aggregated_bounds dates raw_data) as [Hup Hlo]. cbn zeta in Hup, Hlo.
  assert (Hstd : getitem (aggregated dates raw_data) (codes "CMIP6_std")
                 = repeat nan (length dates)).
  { unfold aggregated, getitem. cbn [columns].
    rewrite !(dict_get_set_ne (codes "CMIP6_lower")) by (vm_compute; discriminate).
    rewrite !(dict_get_set_ne (codes "CMIP6_upper")) by (vm_compute; discriminate).
    rewrite dict_get_set_eq.
    rewrite std_of_short_rows; [reflexivity|].
    etransitivity; [apply model_columns_filter|].
    change (length (filter _ (map fst [_; _]))) with 0%nat. lia. }
  assert (Hmean : length (getitem (aggregated dates raw_data) (codes "CMIP6_mean"))
                  = length dates).
  { unfold aggregated, getitem. cbn [columns].
    rewrite !(dict_get_set_ne (codes "CMIP6_lower")) by (vm_compute; discriminate).
    rewrite !(dict_get_set_ne (codes "CMIP6_upper")) by (vm_compute; discriminate).
    rewrite !(dict_get_set_ne (codes "CMIP6_std")) by (vm_compute; discriminate).
    rewrite dict_get_set_eq. apply length_mean_axis1. }
  cbn [aggregated nrows]. fold (aggregated dates raw_data).
  rewrite Hup, Hlo, Hstd.
  rewrite plus_twice_nan, minus_twice_nan by exact Hmean. auto.
Qed.

Lemma single_model_has_no_spread_witness :
  let one :=
    {| gldas := repeat 0%float 12;
       cmip6_models := [(codes "A", repeat 10%float 12)];
       metadata := metadata Stub.data |} in
  format_raw_data Stub.analyzer one = Ok (aggregated Stub.axis one) /\
  getitem (aggregated Stub.axis one) (codes "CMIP6_std") = repeat nan 12 /\
  getitem (aggregated Stub.axis one) (codes "CMIP6_mean") = repeat 10%float 12.
Proof.
  intros one.
  assert (H : format_raw_data Stub.analyzer one = Ok (aggregated Stub.axis one))
    by (vm_compute; reflexivity).
  assert (Hone : (length (cmip6_models one) <= 1)%nat) by (vm_compute; lia).
  split; [exact H|]. split; [|vm_compute; reflexivity].
  exact (proj1 (single_model_has_no_spread Stub.analyzer one _ H Hone)).
Defined.

(** *** The statistics per row *)





(** *** The columns of the table and the model count *)

Lemma startswith_app_both p q s : startswith (p ++ q) (p ++ s) = startswith q s.
Proof.
  induction p as [|c p IH]; [reflexivity|].
  cbn [app startswith]. rewrite N.eqb_refl. exact IH.
Qed.

(** A pattern without an underscore matches the head of a text up to its
    first underscore or not at all. *)
Lemma startswith_before_underscore q a b :
  ~ In 95%N q -> startswith q (a ++ 95%N :: b) = startswith q a.
Proof.
  revert a. induction q as [|x q IH]; intros a Hq; [destruct a; reflexivity|].
  destruct a as [|y a]; cbn [app startswith].
  - destruct (N.eqb_spec x 95) as [->|_]; [|reflexivity].
    exfalso. apply Hq. left. reflexivity.
  - rewrite IH; [reflexivity|]. intros H. apply Hq. right. exact H.
Qed.

Lemma endswith_model suffix m :
  ~ In 95%N suffix -> endswith suffix (CMIP6_ ++ m) = endswith suffix m.
Proof.
  intros H. unfold endswith. rewrite rev_app_distr.
  change (rev CMIP6_) with (95 :: [54; 80; 73; 77; 67])%N.
  apply startswith_before_underscore. rewrite <- in_rev. exact H.
Qed.

Lemma plain_not_stat m : plain_name m -> ~ In (CMIP6_ ++ m) stat_names.
Proof.
  intros (Hstd & Hmean & Hupper & Hlower) Hin.
  change stat_names
    with [CMIP6_ ++ codes "mean"; CMIP6_ ++ codes "std";
          CMIP6_ ++ codes "upper"; CMIP6_ ++ codes "lower"] in Hin.
  destruct Hin as [H|[H|[H|[H|[]]]]]; apply app_inv_head in H; subst m.
  - vm_compute in Hmean. discriminate Hmean.
  - vm_compute in Hstd. discriminate Hstd.
  - vm_compute in Hupper. discriminate Hupper.
  - vm_compute in Hlower. discriminate Hlower.
Qed.

Lemma stat_fresh names s :
  Forall plain_name names -> In s stat_names ->
  ~ In s ([codes "date"; codes "GLDAS"] ++ map (app CMIP6_) names).
Proof.
  intros Hplain Hs Hin. apply in_app_iff in Hin. destruct Hin as [Hin|Hin].
  - destruct Hin as [<-|[<-|[]]]; vm_compute in Hs;
      repeat (destruct Hs as [Hs|Hs]; [discriminate Hs|]); exact Hs.
  - apply in_map_iff in Hin. destruct Hin as (m & <- & Hm).
    rewrite List.Forall_forall in Hplain. exact (plain_not_stat m (Hplain m Hm) Hs).
Qed.

Lemma dict_set_fresh_keys {V} (k : pystr) (v : V) d :
  ~ In k (map fst d) -> map fst (dict_set k v d) = map fst d ++ [k].
Proof. intros H. rewrite dict_set_new by exact H. rewrite map_app. reflexivity. Qed.

Lemma keys_after_four_sets {V} (d : list (pystr * V)) k1 k2 k3 k4 v1 v2 v3 v4 :
  List.NoDup [k1; k2; k3; k4] ->
  (forall k, In k [k1; k2; k3; k4] -> ~ In k (map fst d)) ->
  map fst (dict_set k4 v4 (dict_set k3 v3 (dict_set k2 v2 (dict_set k1 v1 d))))
  = map fst d ++ [k1; k2; k3; k4].
Proof.
  intros Hnd Hfresh.
  assert (H1 : map fst (dict_set k1 v1 d) = map fst d ++ [k1]).
  { apply dict_set_fresh_keys, Hfresh. cbn. auto. }
  assert (H2 : map fst (dict_set k2 v2 (dict_set k1 v1 d)) = map fst d ++ [k1; k2]).
  { rewrite dict_set_fresh_keys, H1; [rewrite <- app_assoc; reflexivity|].
    rewrite H1, in_app_iff. intros [H|[H|[]]].
    - revert H. apply Hfresh. cbn. auto.
    - subst k2. inversion Hnd as [|? ? Hn _]. apply Hn. cbn. auto. }
  assert (H3 : map fst (dict_set k3 v3 (dict_set k2 v2 (dict_set k1 v1 d)))
               = map fst d ++ [k1; k2; k3]).
  { rewrite dict_set_fresh_keys, H2; [rewrite <- app_assoc; reflexivity|].
    rewrite H2, in_app_iff. intros [H|H].
    - revert H. apply Hfresh. cbn. auto.
    - inversion Hnd as [|? ? Hn1 Hnd']. inversion Hnd' as [|? ? Hn2 _].
      destruct H as [H|[H|[]]]; subst k3; [apply Hn1|apply Hn2]; cbn; auto. }
  rewrite dict_set_fresh_keys, H3; [rewrite <- app_assoc; reflexivity|].
  rewrite H3, in_app_iff. intros [H|H].
  - revert H. apply Hfresh. cbn. auto.
  - inversion Hnd as [|? ? Hn1 Hnd']. inversion Hnd' as [|? ? Hn2 Hnd''].
    inversion Hnd'' as [|? ? Hn3 _].
    destruct H as [H|[H|[H|[]]]]; subst k4; [apply Hn1|apply Hn2|apply Hn3]; cbn; auto.
Qed.

Lemma NoDup_stat_names : List.NoDup stat_names.
Proof.
  unfold stat_names. repeat constructor; cbn [In]; intros H;
    repeat (destruct H as [H|H]; [vm_compute in H; discriminate H|]); exact H.
Qed.

(** The columns of the table, in order, for distinct plain model names:
    the date, the historical series, one column per model, the four
    statistics. *)
Lemma aggregated_layout dates raw_data :
  let names := map fst (cmip6_models raw_data) in
  List.NoDup names -> Forall plain_name names ->
  map fst (columns (aggregated dates raw_data))
  = [codes "date"; codes "GLDAS"] ++ map (app CMIP6_) names ++ stat_names.
Proof.
  intros names Hnd Hplain. unfold aggregated. cbn [columns].
  set (n := length dates).
  set (base := [(codes "date", DateCol dates);
                (codes "GLDAS", FloatCol (firstn n (gldas raw_data)))]).
  assert (Hcols : map fst (model_columns n (cmip6_models raw_data) base)
                  = [codes "date"; codes "GLDAS"] ++ map (app CMIP6_) names).
  { rewrite model_columns_app; [|exact Hnd|intros md _; apply CMIP6_not_base].
    unfold names. rewrite map_app, !map_map. reflexivity. }
  rewrite keys_after_four_sets.
  - rewrite Hcols, <- app_assoc. reflexivity.
  - exact NoDup_stat_names.
  - intros k Hk. rewrite Hcols. apply stat_fresh; assumption.
Qed.

Lemma filter_all {A} (f : A -> bool) l : Forall (fun x => f x = true) l -> filter f l = l.
Proof.
  induction 1 as [|x l Hx _ IH]; [reflexivity|]. cbn [filter]. rewrite Hx, IH. reflexivity.
Qed.

(** X10: [calculate_stats] counts the models by filtering the column
    names.  For a table built from distinct model names none of which
    starts with [std] or ends with [mean], [upper] or [lower], the columns
    are, in order, the date, the historical series, one column per model
    and the four statistics; the filter keeps exactly the model columns;
    and [model_count] is the number of models. *)
Theorem model_count_counts_models self raw_data t :
  format_raw_data self raw_data = Ok t ->
  let names := map fst (cmip6_models raw_data) in
  List.NoDup names ->
  Forall plain_name names ->
  map fst (columns t)
  = [codes "date"; codes "GLDAS"] ++ map (app CMIP6_) names
    ++ [codes "CMIP6_mean"; codes "CMIP6_std"; codes "CMIP6_upper"; codes "CMIP6_lower"] /\
  cmip6_cols t = map (app CMIP6_) names /\
  model_count t = length (cmip6_models raw_data).
Proof.
  intros Ht names Hnd Hplain.
  apply format_raw_data_inv in Ht. destruct Ht as (dates & _ & _ & _ & ->).
  pose proof (aggregated_layout dates raw_data Hnd Hplain) as Hlayout. fold names in Hlayout.
  assert (Hcols : cmip6_cols (aggregated dates raw_data) = map (app CMIP6_) names).
  { unfold cmip6_cols. rewrite Hlayout, !filter_app.
    change (filter _ [codes "date"; codes "GLDAS"]) with (@nil pystr).
    change (filter _ stat_names) with (@nil pystr).
    rewrite app_nil_r. cbn [app]. apply filter_all.
    rewrite List.Forall_forall. intros col Hcol. apply in_map_iff in Hcol.
    destruct Hcol as (m & <- & Hm).
    rewrite List.Forall_forall in Hplain.
    destruct (Hplain m Hm) as (Hstd & Hmean & Hupper & Hlower).
    change (codes "CMIP6_std") with (CMIP6_ ++ codes "std").
    rewrite startswith_app, startswith_app_both, Hstd. cbn [existsb].
    rewrite !endswith_model, Hmean, Hupper, Hlower; [reflexivity|..];
      intros H; vm_compute in H; repeat (destruct H as [H|H]; [discriminate H|]); exact H. }
  split; [exact Hlayout|]. split; [exact Hcols|].
  unfold model_count. rewrite Hcols. unfold names. rewrite !length_map. reflexivity.
Qed.

Lemma model_count_counts_models_witness :
  format_raw_data Stub.analyzer Stub.data = Ok (aggregated Stub.axis Stub.data) /\
  model_count (aggregated Stub.axis Stub.data) = 2%nat.
Proof.
  assert (H : format_raw_data Stub.analyzer Stub.data = Ok (aggregated Stub.axis Stub.data))
    by (vm_compute; reflexivity).
  assert (Hnd : List.NoDup (map fst (cmip6_models Stub.data))).
  { repeat constructor; cbn; [|tauto]. intros [E|[]]. vm_compute in E. discriminate E. }
  assert (Hplain : Forall plain_name (map fst (cmip6_models Stub.data))).
  { repeat constructor; vm_compute; reflexivity. }
  split; [exact H|].
  exact (proj2 (proj2 (model_count_counts_models Stub.analyzer Stub.data _ H Hnd Hplain))).
Defined.

(** A model whose name ends with [mean] is built into the table and left
    out of the count. *)
Example model_count_misses_a_name :
  let raw_data :=
    {| gldas := repeat 0%float 12;
       cmip6_models := [(codes "A", repeat 10%float 12);
                        (codes "ensmean", repeat 20%float 12)];
       metadata := metadata Stub.data |} in
  format_raw_data Stub.analyzer raw_data = Ok (aggregated Stub.axis raw_data) /\
  cmip6_cols (aggregated Stub.axis raw_data) = [codes "CMIP6_A"] /\
  model_count (aggregated Stub.axis raw_data) = 1%nat.
Proof. by_evaluation. Qed.

(** ** The requests of a retrieval *)

Section RetrievalTrace.

Context {world image : Type}.
Context (images_of : world -> ImageCollection -> result (list image)).
Context (reduceRegion_mean : image -> Geometry -> Z -> pystr -> result float).
Context (image_date : image -> pystr).
Context (distinct_models : world -> ImageCollection -> result (list pystr)).
Context (serve : world -> request -> world).
Context (valid_coordinates : json -> json -> bool).

Local Abbreviation fetch :=
  (get_point_data images_of reduceRegion_mean image_date
     distinct_models serve valid_coordinates).
Local Abbreviation lru_fetch :=
  (get_point_data_cached images_of reduceRegion_mean image_date serve valid_coordinates).
Local Abbreviation monthly :=
  (_calculate_monthly_average images_of reduceRegion_mean image_date).

(** The requests of the loop over [cmip6_by_model.items()], most recent
    first. *)
Lemma getInfo_items_trace (items : list (pystr * ee_List world float)) r res r' :
  getInfo_items serve items r = (Ok res, r') ->
  sent r' = rev (map (fun it => describe it.2) items) ++ sent r.
Proof.
  revert r res r'. induction items as [|[m x] items IH]; cbn [getInfo_items]; intros r res r' H.
  - injection H as _ <-. reflexivity.
  - unfold bind, getInfo in H. cbn [service sent] in H.
    destruct (evaluate x (service r)) as [v|e]; [|discriminate H].
    match type of H with
    | context [getInfo_items serve items ?r1] =>
        destruct (getInfo_items serve items r1) as [[rest|e] r2] eqn:Hrest; [|discriminate H]
    end.
    injection H as _ <-. rewrite (IH _ _ _ Hrest). cbn [sent map rev snd].
    rewrite <- app_assoc. reflexivity.
Qed.

(** X11: a retrieval that returns a dataset has sent exactly these
    requests, in this order: the list of the distinct models of the
    projection collection under the scenario and the years of the
    analyzer; the historical series at the point, from the start year to
    the earlier of the historical cutoff and the end year; then one
    projection series per model of the dataset, at the point, under the
    scenario and the years of the analyzer.  That is two requests and one
    per model. *)
Theorem retrieval_requests self lat lon r d r' :
  fetch self lat lon r = (Ok d, r') ->
  let point := Point (JFloat lon) (JFloat lat) in
  let cmip6 model_filter bounds :=
    {| ic_id := codes "NASA/GDDP-CMIP6"; ic_select := Some (codes "tas");
       ic_filter_eq := (codes "scenario", scenario self) :: model_filter;
       ic_filterDate := Some ((start_year self, 1, 1), (end_year self, 12, 31));
       ic_filterBounds := bounds |} in
  let historical :=
    {| ic_id := codes "NASA/GLDAS/V021/NOAH/G025/T3H"; ic_select := Some (codes "Tair_f_inst");
       ic_filter_eq := [];
       ic_filterDate :=
         Some ((start_year self, 1, 1),
               (Z.min (historical_cutoff self) (end_year self), 12, 31));
       ic_filterBounds := Some point |} in
  rev (sent r')
  = rev (sent r)
    ++ [AggregateModels (cmip6 [] None);
        AggregateTemperature historical (codes "Tair_f_inst")]
    ++ map (fun m => AggregateTemperature (cmip6 [(codes "model", m)] (Some point)) (codes "tas"))
         (map fst (cmip6_models d)) /\
  length (sent r') = (length (sent r) + 2 + length (cmip6_models d))%nat.
Proof.
  intros H point cmip6 historical.
  apply get_point_data_inv in H.
  destruct H as (models & r1 & r2 & _ & _ & -> & _ & -> & Hitems & _).
  pose proof (getInfo_items_spec serve _ _ _ _ Hitems) as [Hkeys _].
  apply getInfo_items_trace in Hitems. cbn [sent] in Hitems.
  assert (Hreq : map (fun it : pystr * ee_List world float => describe it.2)
                   (by_model images_of reduceRegion_mean image_date self point models)
                 = map (fun m => AggregateTemperature (cmip6 [(codes "model", m)] (Some point))
                                   (codes "tas"))
                     (map fst (cmip6_models d))).
  { rewrite Hkeys, map_map. apply map_ext_in. intros [m x] Hin. cbn [fst snd].
    unfold by_model in Hin. apply fold_dict_set_values in Hin.
    destruct Hin as [->|[]]. reflexivity. }
  fold point in Hitems. rewrite Hreq in Hitems.
  split.
  - rewrite Hitems, rev_app_distr, rev_involutive. cbn [rev app].
    rewrite <- !app_assoc. reflexivity.
  - rewrite Hitems, length_app, length_rev, !length_map. cbn [length]. lia.
Qed.

(** X12: [get_point_data_cached] is written for a key that is the JSON
    text of the parameters.  When a call that misses the cache returns a
    value, the key is a JSON object with the items [lon] and [lat]; these
    two values and the scenario of the analyzer are what the returned
    metadata holds; exactly two requests were sent, the historical series
    and then the projection series at the point of the key; and the value
    is in the cache under the key. *)
Theorem cached_retrieval_reads_the_key self key c r d c' r' :
  Lru.lookup (ident self, key) c = None ->
  lru_fetch self key c r = (Ok d, c', r') ->
  exists kvs lon lat,
    Json.loads key = Ok (JObj kvs) /\
    dict_get (codes "lon") kvs = Some lon /\ dict_get (codes "lat") kvs = Some lat /\
    c_lon d = lon /\ c_lat d = lat /\ c_scenario d = scenario self /\
    sent r'
    = [AggregateTemperature (filterBounds (Point lon lat) (filtered_cmip6 self)) (codes "tas");
       AggregateTemperature (filterBounds (Point lon lat) (filtered_gldas self))
         (codes "Tair_f_inst")]
      ++ sent r /\
    Lru.lookup (ident self, key) c' = Some d.
Proof.
  intros Hmiss H. unfold get_point_data_cached in H. rewrite call_miss in H by exact Hmiss.
  unfold get_point_data_cached_body, bind, lift, ee_Geometry_Point, getInfo, ret in H.
  destruct (Json.loads key) as [params|e]; [|discriminate H].
  destruct params as [| | | | |?|kvs]; try discriminate H.
  match type of H with context [?f (JObj kvs) _] => unfold f in H end.
  destruct (dict_get (codes "lon") kvs) as [lon|] eqn:Hlon; cbv beta iota in H;
    [|discriminate H].
  destruct (dict_get (codes "lat") kvs) as [lat|] eqn:Hlat; cbv beta iota in H;
    [|discriminate H].
  destruct (valid_coordinates lon lat); cbv beta iota in H; [|discriminate H].
  cbn [service sent describe] in H.
  match type of H with
  | context [evaluate ?x ?w] =>
      destruct (evaluate x w) as [g|e]; cbv beta iota in H; [|discriminate H]
  end.
  cbn [service sent describe] in H.
  match type of H with
  | context [evaluate ?x ?w] =>
      destruct (evaluate x w) as [m|e]; cbv beta iota in H; [|discriminate H]
  end.
  injection H as <- <- <-. exists kvs, lon, lat. cbn [c_lon c_lat c_scenario sent].
  repeat split; try reflexivity; try assumption. apply lookup_store_eq.
Qed.

(** X13: a key that is not such a text stops [get_point_data_cached]
    before any request, and nothing is stored, so that a later call runs
    again.  The exception tells what was wrong: the decoder's exception for
    a text that is not JSON, TypeError for a JSON value that is not an
    object, KeyError for an object without [lon] or without [lat].  The
    statement is for keys of at most 256 characters, which stay clear of
    the limits that the interpreter puts on the digits of an int and on
    the depth of nesting. *)
Theorem malformed_key_sends_nothing self key c r :
  (length key <= 256)%nat ->
  Lru.lookup (ident self, key) c = None ->
  match Json.loads key with
  | Raise e => lru_fetch self key c r = (Raise e, c, r)
  | Ok (JObj kvs) =>
      match dict_get (codes "lon") kvs, dict_get (codes "lat") kvs with
      | Some _, Some _ => True
      | _, _ => lru_fetch self key c r = (Raise KeyError, c, r)
      end
  | Ok _ => lru_fetch self key c r = (Raise TypeError, c, r)
  end.
Proof.
  intros _ Hmiss. unfold get_point_data_cached. rewrite call_miss by exact Hmiss.
  unfold get_point_data_cached_body, bind, lift.
  destruct (Json.loads key) as [params|e]; [|reflexivity].
  destruct params as [| | | | |?|kvs]; try reflexivity.
  match goal with |- context [?f (JObj kvs) _] => unfold f end.
  destruct (dict_get (codes "lon") kvs) as [lon|]; [|reflexivity].
  destruct (dict_get (codes "lat") kvs) as [lat|]; [exact I|reflexivity].
Qed.

End RetrievalTrace.

Lemma retrieval_requests_witness :
  Stub.run = (Ok Stub.data, snd Stub.run) /\
  length (sent (snd Stub.run)) = 4%nat.
Proof.
  assert (H : Stub.run = (Ok Stub.data, snd Stub.run)) by (vm_compute; reflexivity).
  split; [exact H|].
  exact (proj2 (retrieval_requests (Stub.images_of 12) Stub.reduceRegion_mean
                  Stub.image_date Stub.distinct_models Stub.serve Stub.valid_coordinates
                  Stub.analyzer 40%float (-105)%float Stub.fresh Stub.data (snd Stub.run) H)).
Defined.

(** The JSON text of a point: the text that [_generate_cache_key] hashes
    when it is given no keyword. *)
Lemma cached_retrieval_reads_the_key_witness :
  let key := Json.dumps (JObj [(codes "lat", JFloat 40); (codes "lon", JFloat (-105))]) in
  let out := Stub.get_point_data_cached 12 Stub.analyzer key [] Stub.fresh in
  Lru.lookup (ident Stub.analyzer, key) ([] : Lru.cache (nat * pystr) CachedPointData) = None /\
  out.1.1 = Ok {| c_gldas := repeat 0%float 12; c_cmip6 := [];
                  c_lat := JFloat 40; c_lon := JFloat (-105);
                  c_scenario := codes "ssp585" |} /\
  length (sent out.2) = 2%nat.
Proof.
  intros key out.
  assert (Hmiss : Lru.lookup (ident Stub.analyzer, key)
                    ([] : Lru.cache (nat * pystr) CachedPointData) = None) by reflexivity.
  assert (Hd : out.1.1 = Ok {| c_gldas := repeat 0%float 12; c_cmip6 := [];
                               c_lat := JFloat 40; c_lon := JFloat (-105);
                               c_scenario := codes "ssp585" |})
    by (vm_compute; reflexivity).
  split; [exact Hmiss|]. split; [exact Hd|].
  revert Hd. unfold out.
  destruct (Stub.get_point_data_cached 12 Stub.analyzer key [] Stub.fresh)
    as [[res c'] r'] eqn:Hout.
  cbn [fst snd]. intros ->.
  destruct (cached_retrieval_reads_the_key (Stub.images_of 12) Stub.reduceRegion_mean
              Stub.image_date Stub.serve Stub.valid_coordinates
              Stub.analyzer key [] Stub.fresh _ c' r' Hmiss Hout)
    as (kvs & lon & lat & _ & _ & _ & _ & _ & _ & Hsent & _).
  rewrite Hsent. reflexivity.
Defined.

Lemma malformed_key_sends_nothing_witness :
  (length (codes "{}") <= 256)%nat /\
  Lru.lookup (ident Stub.analyzer, codes "{}")
    ([] : Lru.cache (nat * pystr) CachedPointData) = None /\
  Stub.get_point_data_cached 12 Stub.analyzer (codes "{}") [] Stub.fresh
  = (Raise KeyError, [], Stub.fresh).
Proof.
  assert (Hlen : (length (codes "{}") <= 256)%nat) by (vm_compute; lia).
  assert (Hmiss : Lru.lookup (ident Stub.analyzer, codes "{}")
                    ([] : Lru.cache (nat * pystr) CachedPointData) = None) by reflexivity.
  split; [exact Hlen|]. split; [exact Hmiss|].
  exact (malformed_key_sends_nothing (Stub.images_of 12) Stub.reduceRegion_mean
           Stub.image_date Stub.serve Stub.valid_coordinates
           Stub.analyzer (codes "{}") [] Stub.fresh Hlen Hmiss).
Defined.

(** ** The caches of the two memoised methods *)

Section LruBounds.

Context {K V : Type} `{EqDecision K}.

Lemma length_remove (k : K) (c : Lru.cache K V) v :
  Lru.lookup k c = Some v -> S (length (Lru.remove k c)) = length c.
Proof.
  induction c as [|[k0 v0] c IH]; cbn [Lru.lookup Lru.remove]; [discriminate|].
  destruct (decide (k0 = k)); [reflexivity|].
  intros H. cbn [length]. rewrite IH by exact H. reflexivity.
Qed.

Lemma length_removelast {A} (l : list A) : l <> [] -> S (length (removelast l)) = length l.
Proof.
  induction l as [|x [|y l] IH]; intros H; [contradiction|reflexivity|].
  change (removelast (x :: y :: l)) with (x :: removelast (y :: l)).
  cbn [length]. rewrite IH; [reflexivity|discriminate].
Qed.

(** A call never makes the cache longer than [maxsize]. *)
Lemma call_length {St} (maxsize : nat) (f : K -> St -> result V * St) k c s :
  (0 < maxsize)%nat -> (length c <= maxsize)%nat ->
  (length (Lru.call maxsize f k c s).1.2 <= maxsize)%nat.
Proof.
  intros Hpos Hlen. unfold Lru.call.
  destruct (Lru.lookup k c) as [v|] eqn:Hl.
  - cbn [fst snd length]. rewrite (length_remove k c v Hl). exact Hlen.
  - destruct (f k s) as [[v|e] s']; cbn [fst snd]; [|exact Hlen].
    unfold Lru.store. cbn [length].
    destruct (decide (maxsize <= length c)%nat) as [Hfull|Hroom]; [|lia].
    rewrite length_removelast; [exact Hlen|].
    intros ->. cbn [length] in Hfull. lia.
Qed.

(** Where the entry of a key stands after a call on another key, or on
    the same: at most one place further from the front, with the same
    value, as long as it was not the last of a full cache. *)
Lemma position_lookup (k : K) (c : Lru.cache K V) p :
  position k c = Some p -> (p < length c)%nat /\ exists v, Lru.lookup k c = Some v.
Proof.
  revert p. induction c as [|[k0 v0] c IH]; cbn [position Lru.lookup]; intros p; [discriminate|].
  destruct (decide (k0 = k)).
  - intros H. injection H as <-. cbn [length]. split; [lia|eauto].
  - destruct (position k c) as [q|]; [|discriminate].
    cbn. intros H. injection H as <-. destruct (IH q eq_refl) as [Hq Hv].
    cbn [length]. split; [lia|exact Hv].
Qed.

Lemma position_remove (k k' : K) (c : Lru.cache K V) p :
  k' <> k -> position k c = Some p ->
  exists q, position k (Lru.remove k' c) = Some q /\ (q <= p)%nat.
Proof.
  intros Hne. revert p.
  induction c as [|[k0 v0] c IH]; cbn [position Lru.remove]; intros p; [discriminate|].
  destruct (decide (k0 = k)) as [->|Hk].
  - intros H. injection H as <-.
    destruct (decide (k = k')); [congruence|].
    cbn [position]. destruct (decide (k = k)); [|contradiction]. eauto.
  - destruct (position k c) as [q|] eqn:Hq; [|discriminate].
    cbn. intros H. injection H as <-.
    destruct (decide (k0 = k')).
    + exists q. split; [exact Hq|lia].
    + cbn [position]. destruct (decide (k0 = k)); [contradiction|].
      destruct (IH q eq_refl) as (q' & -> & Hle). exists (S q'). split; [reflexivity|lia].
Qed.

Lemma position_removelast (k : K) (c : Lru.cache K V) p :
  position k c = Some p -> (S p < length c)%nat ->
  position k (removelast c) = Some p /\ Lru.lookup k (removelast c) = Lru.lookup k c.
Proof.
  revert p. induction c as [|[k0 v0] c IH]; intros p Hp Hlen; [discriminate Hp|].
  destruct c as [|kv c']; [cbn [length] in Hlen; lia|].
  change (removelast ((k0, v0) :: kv :: c')) with ((k0, v0) :: removelast (kv :: c')).
  set (rest := kv :: c') in *.
  cbn [position Lru.lookup] in Hp |- *. destruct (decide (k0 = k)); [auto|].
  destruct (position k rest) as [q|] eqn:Hq; [|discriminate Hp].
  cbn in Hp. injection Hp as <-.
  destruct (IH q eq_refl) as [-> Hl]; [cbn [length] in Hlen; lia|].
  split; [reflexivity|exact Hl].
Qed.

Lemma call_position {St} (maxsize : nat) (f : K -> St -> result V * St) k k' c s p v :
  position k c = Some p -> Lru.lookup k c = Some v -> (S p < maxsize)%nat ->
  exists q, position k (Lru.call maxsize f k' c s).1.2 = Some q /\ (q <= S p)%nat /\
            Lru.lookup k (Lru.call maxsize f k' c s).1.2 = Some v.
Proof.
  intros Hp Hv Hlt. unfold Lru.call.
  destruct (decide (k' = k)) as [->|Hne].
  - rewrite Hv. cbn [fst snd position Lru.lookup].
    destruct (decide (k = k)); [|contradiction]. exists 0%nat. repeat split; [lia].
  - destruct (Lru.lookup k' c) as [v'|] eqn:Hl.
    + cbn [fst snd position Lru.lookup]. destruct (decide (k' = k)); [contradiction|].
      destruct (position_remove k k' c p Hne Hp) as (q & -> & Hq).
      rewrite lookup_remove_ne by congruence.
      exists (S q). repeat split; [lia|exact Hv].
    + destruct (f k' s) as [[v'|e] s']; cbn [fst snd].
      * unfold Lru.store. cbn [position Lru.lookup].
        destruct (decide (k' = k)); [contradiction|].
        destruct (decide (maxsize <= length c)%nat) as [Hfull|Hroom].
        -- destruct (position_removelast k c p Hp) as [-> ->]; [lia|].
           exists (S p). repeat split; [lia|exact Hv].
        -- rewrite Hp. exists (S p). repeat split; [lia|exact Hv].
      * exists p. repeat split; [exact Hp|lia|exact Hv].
Qed.

Lemma call_lookup_other {St} (maxsize : nat) (f : K -> St -> result V * St) k k' c s v :
  k' <> k -> Lru.lookup k (Lru.call maxsize f k' c s).1.2 = Some v -> Lru.lookup k c = Some v.
Proof.
  intros Hne. unfold Lru.call.
  destruct (Lru.lookup k' c) as [v'|] eqn:Hl.
  - cbn [fst snd Lru.lookup]. destruct (decide (k' = k)); [contradiction|].
    rewrite lookup_remove_ne by congruence. auto.
  - destruct (f k' s) as [[v'|e] s']; cbn [fst snd]; [|auto].
    intros H. apply lookup_store in H. destruct H as [[Heq _]|H]; [congruence|exact H].
Qed.

(** After a call that returned a value, the entry of its key is the
    most recently used one. *)
Lemma call_front {St} (maxsize : nat) (f : K -> St -> result V * St) k c s v :
  (Lru.call maxsize f k c s).1.1 = Ok v ->
  position k (Lru.call maxsize f k c s).1.2 = Some 0%nat /\
  Lru.lookup k (Lru.call maxsize f k c s).1.2 = Some v.
Proof.
  unfold Lru.call. destruct (Lru.lookup k c) as [v0|].
  - cbn [fst snd position Lru.lookup]. intros H. injection H as ->.
    destruct (decide (k = k)); [auto|contradiction].
  - destruct (f k s) as [[v0|e] s']; cbn [fst snd]; [|discriminate].
    intros H. injection H as ->. unfold Lru.store. cbn [position Lru.lookup].
    destruct (decide (k = k)); [auto|contradiction].
Qed.

End LruBounds.

Section MethodCaches.

Context {world image : Type}.
Context (images_of : world -> ImageCollection -> result (list image)).
Context (reduceRegion_mean : image -> Geometry -> Z -> pystr -> result float).
Context (image_date : image -> pystr).
Context (serve : world -> request -> world).
Context (valid_coordinates : json -> json -> bool).
Context (loads_point_data : pystr -> result PointData).

Local Abbreviation body := (format_data_for_plotting_body loads_point_data).
Local Abbreviation format := (format_data_for_plotting loads_point_data).
Local Abbreviation cache_after := (after_calls loads_point_data).
Local Abbreviation lru_fetch :=
  (get_point_data_cached images_of reduceRegion_mean image_date serve valid_coordinates).

Lemma format_as_call self key c :
  format self key c
  = let out := Lru.call 128 (fun _ (u : unit) => (body self key, u)) (ident self, key) c tt in
    (out.1.1, out.1.2).
Proof.
  unfold format_data_for_plotting.
  destruct (Lru.call 128 _ (ident self, key) c tt) as [[v c'] u]. reflexivity.
Qed.

(** X14: the two method caches are bounded.  Whatever calls are made,
    the cache of [format_data_for_plotting] never holds more than 128
    tables, and a call of [get_point_data_cached] on a cache of at most 128
    entries leaves at most 128. *)
Theorem method_caches_hold_at_most_128 :
  (forall calls, (length (after_calls loads_point_data calls []) <= 128)%nat) /\
  (forall self key c r,
     (length c <= 128)%nat ->
     (length (get_point_data_cached images_of reduceRegion_mean image_date serve
                valid_coordinates self key c r).1.2 <= 128)%nat).
Proof.
  split.
  - assert (H : forall calls c, (length c <= 128)%nat ->
                  (length (cache_after calls c) <= 128)%nat).
    { induction calls as [|[s k] calls IH]; cbn [after_calls]; intros c Hc; [exact Hc|].
      apply IH. rewrite format_as_call. cbn [snd]. apply call_length; [lia|exact Hc]. }
    intros calls. apply H. cbn [length]. lia.
  - intros self key c r Hc. unfold get_point_data_cached. apply call_length; [lia|exact Hc].
Qed.

(** X15: the cache of [format_data_for_plotting] is keyed by the
    analyzer object as well as by the text.  Calls on other analyzer
    objects never add an entry for this one, and never change the table of
    an entry it has: what the cache holds for this object after such calls,
    it held before them. *)
Theorem table_cache_is_per_object self calls c key t :
  (forall s k, In (s, k) calls -> ident s <> ident self) ->
  Lru.lookup (ident self, key) (cache_after calls c) = Some t ->
  Lru.lookup (ident self, key) c = Some t.
Proof.
  revert c. induction calls as [|[s k] calls IH]; cbn [after_calls]; intros c Hother H;
    [exact H|].
  apply IH in H; [|intros s' k' Hin; apply (Hother s' k'); right; exact Hin].
  rewrite format_as_call in H. cbn [snd] in H.
  apply call_lookup_other in H; [exact H|].
  intros Heq. injection Heq as Hid _. apply (Hother s k); [left; reflexivity|exact Hid].
Qed.

Lemma after_calls_keeps self key t calls :
  forall c p,
    position (ident self, key) c = Some p -> Lru.lookup (ident self, key) c = Some t ->
    (p + length calls <= 127)%nat ->
    Lru.lookup (ident self, key) (cache_after calls c) = Some t.
Proof.
  induction calls as [|[s k] calls IH]; cbn [after_calls length]; intros c p Hp Ht Hlen;
    [exact Ht|].
  rewrite format_as_call. cbn [snd].
  destruct (call_position 128 (fun _ (u : unit) => (body s k, u)) (ident self, key)
              (ident s, k) c tt p t Hp Ht) as (q & Hq & Hle & Hv); [lia|].
  apply (IH _ q); [exact Hq|exact Hv|lia].
Qed.

(** X16: the cache evicts the least recently used entry only.  A table
    that [format_data_for_plotting] has just returned is still in the cache,
    unchanged, after up to 127 further calls, whatever their analyzers and
    texts. *)
Theorem cached_table_survives_127_calls self key c t calls :
  fst (format self key c) = Ok t ->
  (length calls <= 127)%nat ->
  Lru.lookup (ident self, key) (cache_after calls (snd (format self key c))) = Some t.
Proof.
  intros Ht Hlen. rewrite format_as_call in Ht |- *. cbn [fst snd] in Ht |- *.
  destruct (call_front 128 (fun _ (u : unit) => (body self key, u)) (ident self, key) c tt t Ht)
    as [Hp Hv].
  apply (after_calls_keeps self key t calls _ 0%nat); [exact Hp|exact Hv|lia].
Qed.

End MethodCaches.

Lemma method_caches_hold_at_most_128_witness :
  let loads := fun _ : pystr => Ok Stub.data in
  (length (after_calls loads [(Stub.analyzer, codes "{}"); (Stub.analyzer, codes "[]")] [])
   <= 128)%nat.
Proof.
  intros loads.
  exact (proj1 (method_caches_hold_at_most_128 (Stub.images_of 12) Stub.reduceRegion_mean
                  Stub.image_date Stub.serve Stub.valid_coordinates loads)
           [(Stub.analyzer, codes "{}"); (Stub.analyzer, codes "[]")]).
Defined.

Lemma table_cache_is_per_object_witness :
  let loads := fun _ : pystr => Ok Stub.data in
  let other := init 1 2010 2010 (codes "ssp585") in
  let c := snd (format_data_for_plotting loads Stub.analyzer (codes "{}") []) in
  Lru.lookup (ident Stub.analyzer, codes "{}")
    (after_calls loads [(other, codes "{}")] c)
  = Some (aggregated Stub.axis Stub.data) /\
  Lru.lookup (ident Stub.analyzer, codes "{}") c = Some (aggregated Stub.axis Stub.data).
Proof.
  intros loads other c.
  assert (H : Lru.lookup (ident Stub.analyzer, codes "{}")
                (after_calls loads [(other, codes "{}")] c)
              = Some (aggregated Stub.axis Stub.data)) by (vm_compute; reflexivity).
  split; [exact H|].
  apply (table_cache_is_per_object loads Stub.analyzer [(other, codes "{}")] c _ _);
    [|exact H].
  intros s k [Heq|[]]. injection Heq as <- _. cbn. lia.
Defined.

Lemma cached_table_survives_127_calls_witness :
  let loads := fun _ : pystr => Ok Stub.data in
  let other := init 1 2010 2010 (codes "ssp585") in
  fst (format_data_for_plotting loads Stub.analyzer (codes "{}") [])
  = Ok (aggregated Stub.axis Stub.data) /\
  Lru.lookup (ident Stub.analyzer, codes "{}")
    (after_calls loads [(other, codes "{}"); (other, codes "[]")]
       (snd (format_data_for_plotting loads Stub.analyzer (codes "{}") [])))
  = Some (aggregated Stub.axis Stub.data).
Proof.
  intros loads other.
  assert (H : fst (format_data_for_plotting loads Stub.analyzer (codes "{}") [])
              = Ok (aggregated Stub.axis Stub.data)) by (vm_compute; reflexivity).
  split; [exact H|].
  apply (cached_table_survives_127_calls loads Stub.analyzer (codes "{}") [] _ _ H).
  cbn [length]. lia.
Defined.

(** ** The order of the keyword arguments *)

(** The order of [sorted] on strings is total, transitive and
    antisymmetric. *)
Lemma str_leb_total a b : Json.str_leb a b = false -> Json.str_leb b a = true.
Proof.
  revert b. induction a as [|x a IH]; intros [|y b]; cbn [Json.str_leb]; try discriminate; [auto|].
  destruct (N.ltb_spec x y) as [Hxy|Hxy]; [discriminate|]. cbn [orb].
  destruct (N.eqb_spec x y) as [->|Hne]; cbn [andb].
  - intros H. rewrite N.ltb_irrefl, N.eqb_refl. cbn. apply IH, H.
  - intros _. destruct (N.ltb_spec y x); [reflexivity|lia].
Qed.

Lemma str_leb_trans a b c :
  Json.str_leb a b = true -> Json.str_leb b c = true -> Json.str_leb a c = true.
Proof.
  revert b c. induction a as [|x a IH]; intros [|y b] [|z c]; cbn [Json.str_leb];
    try discriminate; try reflexivity.
  rewrite !orb_true_iff, !andb_true_iff, !N.ltb_lt, !N.eqb_eq.
  intros [Hxy|[-> Hab]] [Hyz|[-> Hbc]]; try (left; lia).
  right. split; [reflexivity|]. apply (IH b c); assumption.
Qed.

Lemma str_leb_antisym a b : Json.str_leb a b = true -> Json.str_leb b a = true -> a = b.
Proof.
  revert b. induction a as [|x a IH]; intros [|y b]; cbn [Json.str_leb];
    try discriminate; [reflexivity|].
  rewrite !orb_true_iff, !andb_true_iff, !N.ltb_lt, !N.eqb_eq.
  intros [Hxy|[-> Hab]] [Hyx|[Heq Hba]]; try lia.
  f_equal. apply IH; assumption.
Qed.

Lemma insert_item_perm kv l : Json.insert_item kv l ≡ₚ kv :: l.
Proof.
  induction l as [|kv' l IH]; cbn [Json.insert_item]; [reflexivity|].
  destruct (Json.str_leb kv.1 kv'.1); [reflexivity|].
  rewrite IH. apply Permutation_swap.
Qed.

Lemma sort_items_perm l : Json.sort_items l ≡ₚ l.
Proof.
  unfold Json.sort_items. induction l as [|kv l IH]; cbn [fold_right]; [reflexivity|].
  rewrite insert_item_perm, IH. reflexivity.
Qed.

Lemma insert_item_sorted kv l :
  StronglySorted key_le l -> StronglySorted key_le (Json.insert_item kv l).
Proof.
  induction 1 as [|kv' l Hs IH Hall]; cbn [Json.insert_item].
  - constructor; constructor.
  - destruct (Json.str_leb kv.1 kv'.1) eqn:Hle.
    + constructor; [constructor; assumption|].
      constructor; [exact Hle|].
      eapply List.Forall_impl; [|exact Hall].
      intros x Hx. unfold key_le in *. eapply str_leb_trans; eassumption.
    + constructor; [exact IH|].
      apply str_leb_total in Hle.
      rewrite List.Forall_forall in Hall |- *. intros x Hx.
      apply (Permutation_in _ (insert_item_perm kv l)) in Hx.
      destruct Hx as [<-|Hx]; [exact Hle|apply Hall, Hx].
Qed.

Lemma sort_items_sorted l : StronglySorted key_le (Json.sort_items l).
Proof.
  unfold Json.sort_items. induction l as [|kv l IH]; cbn [fold_right]; [constructor|].
  apply insert_item_sorted, IH.
Qed.

(** Sorting by key gives one result for all the orders of items with
    distinct keys. *)
Lemma sort_items_unique l l' :
  List.NoDup (map fst l) -> l ≡ₚ l' -> Json.sort_items l = Json.sort_items l'.
Proof.
  intros Hnd Hperm.
  apply (StronglySorted_unique_strong key_le).
  - intros [k1 v1] [k2 v2] H1 H2 Hle Hge. unfold key_le in Hle, Hge. cbn [fst] in Hle, Hge.
    pose proof (str_leb_antisym _ _ Hle Hge) as ->. f_equal.
    apply list_elem_of_In in H1, H2.
    apply (Permutation_in _ (sort_items_perm l)) in H1.
    apply (Permutation_in _ (sort_items_perm l')) in H2.
    apply (Permutation_in _ (Permutation_sym Hperm)) in H2.
    pose proof (dict_get_NoDup k2 v1 l Hnd H1) as E1.
    pose proof (dict_get_NoDup k2 v2 l Hnd H2) as E2.
    congruence.
  - apply sort_items_sorted.
  - apply sort_items_sorted.
  - rewrite !sort_items_perm. exact Hperm.
Qed.

Lemma dumps_object kvs :
  Json.dumps (JObj kvs)
  = codes "{"
    ++ Json.join (codes ", ")
         (map (fun kv : pystr * pystr => Json.dumps_str kv.1 ++ codes ": " ++ kv.2)
            (Json.sort_items (map (fun kv : pystr * json => (kv.1, Json.dumps kv.2)) kvs)))
    ++ codes "}".
Proof.
  cbn [Json.dumps]. do 5 f_equal.
  induction kvs as [|[k v] kvs IH]; [reflexivity|]. cbn [map fst snd]. f_equal. exact IH.
Qed.

(** The text written for a dict does not depend on the order of its
    items. *)
Lemma dumps_object_perm kvs kvs' :
  List.NoDup (map fst kvs) -> kvs ≡ₚ kvs' -> Json.dumps (JObj kvs) = Json.dumps (JObj kvs').
Proof.
  intros Hnd Hperm. rewrite !dumps_object. do 4 f_equal.
  apply sort_items_unique.
  - rewrite map_map. exact Hnd.
  - apply Permutation_map, Hperm.
Qed.

(** The dict after the keyword arguments have been put in. *)
Lemma fold_dict_set_get {V} (kwargs : list (pystr * V)) d k :
  List.NoDup (map fst kwargs) ->
  dict_get k (fold_left (fun d kv => dict_set kv.1 kv.2 d) kwargs d)
  = match dict_get k kwargs with Some v => Some v | None => dict_get k d end.
Proof.
  revert d. induction kwargs as [|[k0 v0] kwargs IH]; intros d Hnd; [reflexivity|].
  inversion Hnd as [|? ? Hnin Hnd']; subst.
  cbn [fold_left fst snd dict_get]. rewrite IH by exact Hnd'.
  destruct (decide (k0 = k)) as [->|Hne].
  - replace (dict_get k kwargs) with (@None V) by (symmetry; apply dict_get_None, Hnin).
    apply dict_get_set_eq.
  - destruct (dict_get k kwargs); [reflexivity|].
    apply dict_get_set_ne. congruence.
Qed.

Lemma fold_dict_set_keys_NoDup {V} (kwargs : list (pystr * V)) d :
  List.NoDup (map fst d) ->
  List.NoDup (map fst (fold_left (fun d kv => dict_set kv.1 kv.2 d) kwargs d)).
Proof.
  revert d. induction kwargs as [|kv kwargs IH]; intros d H; [exact H|].
  cbn [fold_left]. apply IH, dict_set_NoDup, H.
Qed.

Lemma dict_get_perm {V} (l l' : list (pystr * V)) k :
  List.NoDup (map fst l) -> l ≡ₚ l' -> dict_get k l = dict_get k l'.
Proof.
  intros Hnd Hperm.
  assert (Hnd' : List.NoDup (map fst l')).
  { eapply Permutation_NoDup; [apply Permutation_map, Hperm|exact Hnd]. }
  destruct (dict_get k l) as [v|] eqn:Hl.
  - symmetry. apply dict_get_NoDup; [exact Hnd'|].
    apply (Permutation_in _ Hperm), dict_get_In, Hl.
  - symmetry. apply dict_get_None. apply dict_get_None in Hl.
    intros Hin. apply Hl. eapply Permutation_in; [|exact Hin].
    apply Permutation_map, Permutation_sym, Hperm.
Qed.

Lemma same_items {V} (l l' : list (pystr * V)) :
  List.NoDup (map fst l) -> List.NoDup (map fst l') ->
  (forall k, dict_get k l = dict_get k l') -> l ≡ₚ l'.
Proof.
  intros Hnd Hnd' Hget.
  apply Permutation.NoDup_Permutation.
  - eapply NoDup_map_inv, Hnd.
  - eapply NoDup_map_inv, Hnd'.
  - intros [k v]. split; intros Hin.
    + apply dict_get_In. rewrite <- Hget. apply dict_get_NoDup; assumption.
    + apply dict_get_In. rewrite Hget. apply dict_get_NoDup; assumption.
Qed.

(** X17: the key does not depend on the order in which the keyword
    arguments are given: [json.dumps] sorts the items.  ([kwargs] holds
    each keyword once, as the keywords of a Python call do.) *)
Theorem key_ignores_keyword_order lat lon kwargs kwargs' :
  List.NoDup (map fst kwargs) ->
  Permutation kwargs kwargs' ->
  _generate_cache_key lat lon kwargs = _generate_cache_key lat lon kwargs'.
Proof.
  intros Hnd Hperm. unfold _generate_cache_key. do 2 f_equal.
  assert (Hnd' : List.NoDup (map fst kwargs')).
  { eapply Permutation_NoDup; [apply Permutation_map, Hperm|exact Hnd]. }
  assert (Hbase : List.NoDup (map fst [(codes "lat", JFloat (PyFloat.round lat 4));
                                        (codes "lon", JFloat (PyFloat.round lon 4))])).
  { cbn [map fst]. constructor; [|constructor; [intros []|constructor]].
    intros [H|[]]. vm_compute in H. discriminate H. }
  apply dumps_object_perm; [apply fold_dict_set_keys_NoDup, Hbase|].
  apply same_items; try (apply fold_dict_set_keys_NoDup, Hbase).
  intros k. rewrite !fold_dict_set_get by assumption.
  rewrite (dict_get_perm kwargs kwargs' k Hnd Hperm). reflexivity.
Qed.

Lemma key_ignores_keyword_order_witness :
  let kwargs := [(codes "start_year", JInt 2010); (codes "end_year", JInt 2050);
                 (codes "scenario", JStr (codes "ssp585"))] in
  List.NoDup (map fst kwargs) /\
  _generate_cache_key 40 (-105) kwargs = _generate_cache_key 40 (-105) (rev kwargs).
Proof.
  intros kwargs.
  assert (Hnd : List.NoDup (map fst kwargs)).
  { repeat constructor; cbn [In map fst]; intros H;
      repeat (destruct H as [H|H]; [vm_compute in H; discriminate H|]); exact H. }
  split; [exact Hnd|].
  apply key_ignores_keyword_order; [exact Hnd|apply Permutation_rev].
Defined.

(** ** The lifetime of a stored dataset *)

Section Expiry.

Context {world image : Type}.
Context (images_of : world -> ImageCollection -> result (list image)).
Context (reduceRegion_mean : image -> Geometry -> Z -> pystr -> result float).
Context (image_date : image -> pystr).
Context (distinct_models : world -> ImageCollection -> result (list pystr)).
Context (serve : world -> request -> world).
Context (valid_coordinates : json -> json -> bool).

Local Abbreviation fetch :=
  (get_point_data images_of reduceRegion_mean image_date
     distinct_models serve valid_coordinates).
Local Abbreviation cached_fetch :=
  (get_cached_data images_of reduceRegion_mean image_date
     distinct_models serve valid_coordinates).

(** X18: a dataset that [get_cached_data] has stored is served for
    3600 seconds and no longer.  A call on the same key 3600 seconds or
    more after the one that stored it runs [get_point_data] again, with the
    coordinates of the new click; when that returns a dataset, it replaces
    the stored one and its lifetime starts at the new call, so that a
    third call less than 3600 seconds later is served from the store
    without a request; when it raises, the call raises and the key is no
    longer stored. *)
Theorem stored_dataset_expires analyzer lat lon lat' lon' key now now' (c c1 : st_cache) r r1 d :
  c !! key = None ->
  cached_fetch analyzer lat lon now key c r = (Ok d, c1, r1) ->
  now + 3600 <= now' ->
  match fetch analyzer lat' lon' r1 with
  | (Ok d', r2) =>
      cached_fetch analyzer lat' lon' now' key c1 r1 = (Ok d', <[key := (d', now')]> c1, r2) /\
      forall lat'' lon'' now'',
        now'' < now' + 3600 ->
        cached_fetch analyzer lat'' lon'' now'' key (<[key := (d', now')]> c1) r2
        = (Ok d', <[key := (d', now')]> c1, r2)
  | (Raise e, r2) =>
      cached_fetch analyzer lat' lon' now' key c1 r1 = (Raise e, delete key c1, r2) /\
      delete key c1 !! key = None
  end.
Proof.
  intros Hnone H Hlate.
  rewrite get_cached_data_miss in H by exact Hnone.
  destruct (fetch analyzer lat lon r) as [[v|e] r0]; [|discriminate H].
  injection H as -> <- ->.
  assert (Hstored : <[key := (d, now)]> c !! key = Some (d, now)) by apply lookup_insert_eq.
  assert (Hcall : cached_fetch analyzer lat' lon' now' key (<[key := (d, now)]> c) r1
                  = match fetch analyzer lat' lon' r1 with
                    | (Ok d', r2) => (Ok d', <[key := (d', now')]> (<[key := (d, now)]> c), r2)
                    | (Raise e, r2) => (Raise e, delete key (<[key := (d, now)]> c), r2)
                    end).
  { unfold get_cached_data. rewrite Hstored.
    destruct (Z.ltb_spec now' (now + ttl)) as [Hlt|_]; [unfold ttl in Hlt; lia|reflexivity]. }
  rewrite Hcall.
  destruct (fetch analyzer lat' lon' r1) as [[d'|e] r2].
  - split; [reflexivity|]. intros lat'' lon'' now'' Hsoon.
    apply (get_cached_data_hit _ _ _ _ _ _ _ _ _ _ _ _ _ d' now'); [apply lookup_insert_eq|].
    unfold ttl. exact Hsoon.
  - split; [reflexivity|]. apply lookup_delete_eq.
Qed.

End Expiry.

Lemma stored_dataset_expires_witness :
  let key := _generate_cache_key 40 (-105) (key_kwargs Stub.analyzer) in
  let '(d1, c1, q1) := Stub.click 12 Stub.analyzer 40 (-105) 0 ∅ Stub.fresh in
  (∅ : st_cache) !! key = None /\ d1 = Ok Stub.data /\ 0 + 3600 <= 3600 /\
  fst (fst (Stub.click 12 Stub.analyzer 40 (-105) 3600 c1 q1)) = Ok Stub.data /\
  length (sent (snd (Stub.click 12 Stub.analyzer 40 (-105) 3600 c1 q1))) = 8%nat.
Proof.
  intros key.
  destruct (Stub.click 12 Stub.analyzer 40 (-105) 0 ∅ Stub.fresh) as [[d1 c1] q1] eqn:H.
  assert (Hd : fst (fst (Stub.click 12 Stub.analyzer 40 (-105) 0 ∅ Stub.fresh))
               = Ok Stub.data) by (vm_compute; reflexivity).
  rewrite H in Hd. cbn [fst] in Hd. subst d1.
  assert (Hq : snd (Stub.click 12 Stub.analyzer 40 (-105) 0 ∅ Stub.fresh)
               = snd Stub.run) by (vm_compute; reflexivity).
  rewrite H in Hq. cbn [snd] in Hq. subst q1.
  assert (Hnone : (∅ : st_cache) !! key = None) by apply lookup_empty.
  assert (Hlate : 0 + 3600 <= 3600) by lia.
  split; [exact Hnone|]. split; [reflexivity|]. split; [exact Hlate|].
  pose proof (stored_dataset_expires (Stub.images_of 12) Stub.reduceRegion_mean
                Stub.image_date Stub.distinct_models Stub.serve Stub.valid_coordinates
                Stub.analyzer 40%float (-105)%float 40%float (-105)%float
                key 0 3600 ∅ c1 Stub.fresh (snd Stub.run) Stub.data Hnone H Hlate) as Hexp.
  assert (Hrun2 : get_point_data (Stub.images_of 12) Stub.reduceRegion_mean Stub.image_date
                    Stub.distinct_models Stub.serve Stub.valid_coordinates
                    Stub.analyzer 40 (-105) (snd Stub.run)
                  = (Ok Stub.data,
                     snd (Stub.get_point_data 12 Stub.analyzer 40 (-105) (snd Stub.run))))
    by (vm_compute; reflexivity).
  rewrite Hrun2 in Hexp. destruct Hexp as [Hcall _].
  unfold Stub.click, click. fold key. rewrite Hcall. cbn [fst snd].
  split; [reflexivity|]. vm_compute. reflexivity.
Defined.

Section StoreAcrossAnalyzers.

Context {world image : Type}.
Context (images_of : world -> ImageCollection -> result (list image)).
Context (reduceRegion_mean : image -> Geometry -> Z -> pystr -> result float).
Context (image_date : image -> pystr).
Context (distinct_models : world -> ImageCollection -> result (list pystr)).
Context (serve : world -> request -> world).
Context (valid_coordinates : json -> json -> bool).

Local Abbreviation on_click :=
  (click images_of reduceRegion_mean image_date distinct_models serve valid_coordinates).

(** X19: the store of the application outlives the analyzer.  After a
    click that fetched a dataset, a click less than 3600 seconds later is
    served that dataset without any request whenever its years, scenario
    and rounded coordinates are the same, also when the analyzer is another
    object, as it is after the sidebar was changed and changed back. *)
Theorem store_outlives_the_analyzer a1 a2 lat1 lon1 lat2 lon2 now now' (c c1 : st_cache) r r1 d :
  start_year a1 = start_year a2 -> end_year a1 = end_year a2 -> scenario a1 = scenario a2 ->
  PyFloat.round lat1 4 = PyFloat.round lat2 4 ->
  PyFloat.round lon1 4 = PyFloat.round lon2 4 ->
  c !! _generate_cache_key lat1 lon1 (key_kwargs a1) = None ->
  on_click a1 lat1 lon1 now c r = (Ok d, c1, r1) ->
  now' < now + 3600 ->
  on_click a2 lat2 lon2 now' c1 r1 = (Ok d, c1, r1).
Proof.
  intros Hs He Hsc Hlat Hlon Hnone H Hsoon. unfold click in *.
  assert (Hkey : _generate_cache_key lat2 lon2 (key_kwargs a2)
                 = _generate_cache_key lat1 lon1 (key_kwargs a1)).
  { unfold _generate_cache_key, key_kwargs. rewrite Hs, He, Hsc, Hlat, Hlon. reflexivity. }
  rewrite Hkey.
  rewrite get_cached_data_miss in H by exact Hnone.
  destruct (get_point_data _ _ _ _ _ _ a1 lat1 lon1 r) as [[v|e] r0]; [|discriminate H].
  injection H as -> <- ->.
  apply (get_cached_data_hit _ _ _ _ _ _ _ _ _ _ _ _ _ d now); [apply lookup_insert_eq|].
  unfold ttl. exact Hsoon.
Qed.

End StoreAcrossAnalyzers.

Lemma store_outlives_the_analyzer_witness :
  let again := init 7 2010 2010 (codes "ssp585") in
  let '(d1, c1, q1) := Stub.click 12 Stub.analyzer 40 (-105) 0 ∅ Stub.fresh in
  d1 = Ok Stub.data /\ PyFloat.round 40 4 = PyFloat.round 40.00001 4 /\ 3599 < 0 + 3600 /\
  Stub.click 12 again 40.00001 (-105) 3599 c1 q1 = (Ok Stub.data, c1, q1).
Proof.
  intros again.
  destruct (Stub.click 12 Stub.analyzer 40 (-105) 0 ∅ Stub.fresh) as [[d1 c1] q1] eqn:H.
  assert (Hd : fst (fst (Stub.click 12 Stub.analyzer 40 (-105) 0 ∅ Stub.fresh))
               = Ok Stub.data) by (vm_compute; reflexivity).
  rewrite H in Hd. cbn [fst] in Hd. subst d1.
  assert (Hlat : PyFloat.round 40 4 = PyFloat.round 40.00001 4) by (vm_compute; reflexivity).
  assert (Hsoon : 3599 < 0 + 3600) by lia.
  split; [reflexivity|]. split; [exact Hlat|]. split; [exact Hsoon|].
  apply (store_outlives_the_analyzer (Stub.images_of 12) Stub.reduceRegion_mean
           Stub.image_date Stub.distinct_models Stub.serve Stub.valid_coordinates
           Stub.analyzer again 40%float (-105)%float 40.00001%float (-105)%float
           0 3599 ∅ c1 Stub.fresh q1 Stub.data);
    try reflexivity; assumption.
Defined.

(** ** The dates of the images *)

Section ImageDates.

Context {world image : Type}.
Context (images_of : world -> ImageCollection -> result (list image)).
Context (reduceRegion_mean : image -> Geometry -> Z -> pystr -> result float).
Context (distinct_models : world -> ImageCollection -> result (list pystr)).
Context (serve : world -> request -> world).
Context (valid_coordinates : json -> json -> bool).

Lemma monthly_ignores_dates (image_date image_date' : image -> pystr) c p band :
  same_answers (_calculate_monthly_average images_of reduceRegion_mean image_date c p band)
            (_calculate_monthly_average images_of reduceRegion_mean image_date' c p band).
Proof.
  split; [reflexivity|]. intros w. rewrite !evaluate_monthly. reflexivity.
Qed.

Lemma getInfo_same (x y : ee_List world float) (r : remote world) :
  same_answers x y -> getInfo serve x r = getInfo serve y r.
Proof. intros [Hd He]. unfold getInfo. rewrite Hd, He. reflexivity. Qed.

Lemma getInfo_items_same (items items' : list (pystr * ee_List world float)) (r : remote world) :
  Forall2 same_answers_items items items' ->
  getInfo_items serve items r = getInfo_items serve items' r.
Proof.
  intros H. revert r. induction H as [|[m x] [m' x'] items items' [Hm Hx] _ IH]; intros r;
    [reflexivity|].
  cbn [fst snd] in Hm, Hx. subst m'. cbn [getInfo_items]. unfold bind.
  rewrite (getInfo_same x x' r Hx).
  destruct (getInfo serve x' r) as [[v|e] r1]; [|reflexivity].
  rewrite IH. reflexivity.
Qed.

Lemma dict_set_same k (x y : ee_List world float) d d' :
  same_answers x y -> Forall2 same_answers_items d d' ->
  Forall2 same_answers_items (dict_set k x d) (dict_set k y d').
Proof.
  intros Hxy H. induction H as [|[k0 x0] [k0' y0] d d' [Hk Hv] Hrest IH]; cbn [dict_set].
  - constructor; [split; [reflexivity|exact Hxy]|constructor].
  - cbn [fst snd] in Hk, Hv. subst k0'.
    destruct (decide (k0 = k)).
    + constructor; [split; [reflexivity|exact Hxy]|exact Hrest].
    + constructor; [split; [reflexivity|exact Hv]|exact IH].
Qed.

Lemma by_model_ignores_dates (image_date image_date' : image -> pystr) self point models :
  Forall2 same_answers_items
    (by_model images_of reduceRegion_mean image_date self point models)
    (by_model images_of reduceRegion_mean image_date' self point models).
Proof.
  unfold by_model.
  assert (H : forall d d' : list (pystr * ee_List world float),
            Forall2 same_answers_items d d' ->
            Forall2 same_answers_items
              (fold_left
                 (fun d model =>
                    dict_set model
                      (_calculate_monthly_average images_of reduceRegion_mean image_date
                         (filterBounds point (filter_eq (codes "model") model (filtered_cmip6 self)))
                         point (codes "tas")) d) models d)
              (fold_left
                 (fun d model =>
                    dict_set model
                      (_calculate_monthly_average images_of reduceRegion_mean image_date'
                         (filterBounds point (filter_eq (codes "model") model (filtered_cmip6 self)))
                         point (codes "tas")) d) models d')).
  { induction models as [|m models IH]; intros d d' Hd; cbn [fold_left]; [exact Hd|].
    apply IH. apply dict_set_same; [apply monthly_ignores_dates|exact Hd]. }
  apply H. constructor.
Qed.

(** X20: the dates of the images never reach the result.  Each image
    is given the label of its month, and the label is dropped when the
    temperatures are collected: whatever dates the gateway reports for the
    images, [get_point_data] and [get_point_data_cached] send the same
    requests and return the same series.  The values of a series are told
    apart by their position only. *)
Theorem image_dates_are_ignored (image_date image_date' : image -> pystr) self lat lon key r :
  get_point_data images_of reduceRegion_mean image_date distinct_models serve
    valid_coordinates self lat lon r
  = get_point_data images_of reduceRegion_mean image_date' distinct_models serve
      valid_coordinates self lat lon r /\
  get_point_data_cached_body images_of reduceRegion_mean image_date serve
    valid_coordinates self key r
  = get_point_data_cached_body images_of reduceRegion_mean image_date' serve
      valid_coordinates self key r.
Proof.
  split.
  - unfold get_point_data, bind, lift, ret.
    destruct (ee_Geometry_Point valid_coordinates (JFloat lon) (JFloat lat)) as [point|e];
      [|reflexivity].
    match goal with
    | |- context [getInfo serve ?x r] => destruct (getInfo serve x r) as [[models|e] r1]
    end; [|reflexivity].
    rewrite (getInfo_same _ _ r1
               (monthly_ignores_dates image_date image_date'
                  (filterBounds point (filtered_gldas self)) point (codes "Tair_f_inst"))).
    match goal with
    | |- context [getInfo serve ?x r1] => destruct (getInfo serve x r1) as [[g|e] r2]
    end; [|reflexivity].
    rewrite (getInfo_items_same _ _ r2
               (by_model_ignores_dates image_date image_date' self point models)).
    reflexivity.
  - unfold get_point_data_cached_body, bind, lift, ret.
    destruct (Json.loads key) as [params|e]; [|reflexivity].
    match goal with
    | |- context [?f params (codes "lon")] => destruct (f params (codes "lon")) as [lon'|e]
    end; [|reflexivity].
    match goal with
    | |- context [?f params (codes "lat")] => destruct (f params (codes "lat")) as [lat'|e]
    end; [|reflexivity].
    destruct (ee_Geometry_Point valid_coordinates lon' lat') as [point|e]; [|reflexivity].
    rewrite (getInfo_same _ _ r
               (monthly_ignores_dates image_date image_date'
                  (filterBounds point (filtered_gldas self)) point (codes "Tair_f_inst"))).
    match goal with
    | |- context [getInfo serve ?x r] => destruct (getInfo serve x r) as [[g|e] r1]
    end; [|reflexivity].
    rewrite (getInfo_same _ _ r1
               (monthly_ignores_dates image_date image_date'
                  (filterBounds point (filtered_cmip6 self)) point (codes "tas"))).
    reflexivity.
Qed.

End ImageDates.
